(** * Incident triage agent: a shallow embedding and its verified properties

    The Python sources under [src/incident_agent] are embedded as Rocq
    functions: records for the pydantic schemas and domain classes, explicit
    state passing for the mutable objects (incident, team registry, tool
    store), an error type for the exceptions the code raises, and the clock
    and the pseudo-random draws passed in as arguments.

    Conventions.
    - Python [str] is [string] (ASCII bytes); [s.lower()] maps 'A'..'Z' to
      'a'..'z' and [needle in hay] is substring search.
    - Python [int] is [Z]; [datetime] values are [Z] (microseconds since the
      epoch), and where the code orders two datetimes of which one may
      carry a time zone and the other not, the function takes that as
      [tz_aware] and raises as Python does; Python [float] values that
      the code only compares, adds and rounds are exact rationals [Q],
      and [FloatMetrics] gives the metrics tool over float operations
      whose rounding is left open.
    - A raw incident is a dict whose keys, where present, hold values of
      the kinds the code declares for them ([RawIncident.t]).
    - [dict] objects with insertion order that matters are association
      lists; the tool store, a dict keyed by incident id, is a [gmap]. *)

From Stdlib Require Import ZArith QArith Qround Qabs String Ascii List Bool Lia Permutation Sorted.
From Stdlib Require Import DecimalString Lqa.
From stdpp Require Import gmap strings.
Import ListNotations.

Local Open Scope string_scope.
Local Open Scope Z_scope.

(** ** Python strings *)

Module PyStr.

Definition is_upper (c : ascii) : bool :=
  let n := nat_of_ascii c in (Nat.leb 65 n && Nat.leb n 90)%bool.

Definition lower_ascii (c : ascii) : ascii :=
  if is_upper c then ascii_of_nat (nat_of_ascii c + 32) else c.

(** [s.lower()] *)
Fixpoint lower (s : string) : string :=
  match s with
  | EmptyString => EmptyString
  | String c s' => String (lower_ascii c) (lower s')
  end.

(** [s.startswith(p)] *)
Fixpoint startswith (p s : string) : bool :=
  match p, s with
  | EmptyString, _ => true
  | String a p', String b s' => (Ascii.eqb a b && startswith p' s')%bool
  | String _ _, EmptyString => false
  end.

(** [needle in hay] on strings *)
Fixpoint contains (needle hay : string) : bool :=
  (startswith needle hay ||
   match hay with
   | EmptyString => false
   | String _ hay' => contains needle hay'
   end)%bool.

(** [x in xs] on a list of strings *)
Definition mem (x : string) (xs : list string) : bool :=
  existsb (String.eqb x) xs.

(** [any(k in text for k in keywords)] *)
Definition any_in (keywords : list string) (text : string) : bool :=
  existsb (fun k => contains k text) keywords.

(** [sep.join(xs)] *)
Fixpoint join (sep : string) (xs : list string) : string :=
  match xs with
  | [] => ""
  | [x] => x
  | x :: rest => x ++ sep ++ join sep rest
  end.

End PyStr.

(** ** Exceptions *)

Inductive Exn : Type :=
| ValueError (msg : string)
| TypeError (msg : string)
| KeyError (msg : string)
| ValidationError (msg : string).

Inductive result (A : Type) : Type :=
| Ok (a : A)
| Raise (e : Exn).
Arguments Ok {A} a.
Arguments Raise {A} e.

Definition bind {A B : Type} (r : result A) (k : A -> result B) : result B :=
  match r with
  | Ok a => k a
  | Raise e => Raise e
  end.

Notation "'do' x <- r ; k" := (bind r (fun x => k))
  (at level 10, x name, r at level 100, k at level 200).

(** ** schemas.py *)

Module IncidentReport.
Record t : Type := mk {
  id : string;
  title : string;
  description : string;
  source : string;
  timestamp : Z;
  reporter : string;
  affected_systems : list string;
  error_logs : option string;
  metrics_data : option (list (string * string));
  severity_indicators : list string
}.

(** [Literal["monitoring", "user_report", "api", "chat"]] *)
Definition valid_source (s : string) : bool :=
  PyStr.mem s ["monitoring"; "user_report"; "api"; "chat"].
End IncidentReport.

Module TeamAssignment.
Record t : Type := mk {
  team_name : string;
  assignment_reason : string;
  priority : Z;
  escalation_path : list string;
  estimated_response_time : Z
}.
End TeamAssignment.

Module ResolutionAction.
Record t : Type := mk {
  action_type : string;
  description : string;
  priority : Z;
  estimated_duration : Z;
  required_permissions : list string;
  runbook_reference : option string
}.
End ResolutionAction.

(** [IncidentSeverity] and the [Literal["critical","high","medium","low"]]
    of the schemas. *)
Inductive IncidentSeverity : Type := CRITICAL | HIGH | MEDIUM | LOW.

Inductive IncidentStatus : Type := OPEN | IN_PROGRESS | RESOLVED | CLOSED.

Module Severity.
Definition value (s : IncidentSeverity) : string :=
  match s with
  | CRITICAL => "critical"
  | HIGH => "high"
  | MEDIUM => "medium"
  | LOW => "low"
  end.

(** [IncidentSeverity(text)]: the enum lookup by value. *)
Definition of_string (text : string) : option IncidentSeverity :=
  if String.eqb text "critical" then Some CRITICAL
  else if String.eqb text "high" then Some HIGH
  else if String.eqb text "medium" then Some MEDIUM
  else if String.eqb text "low" then Some LOW
  else None.

Definition eqb (a b : IncidentSeverity) : bool :=
  match a, b with
  | CRITICAL, CRITICAL | HIGH, HIGH | MEDIUM, MEDIUM | LOW, LOW => true
  | _, _ => false
  end.
End Severity.

Module Status.
Definition value (s : IncidentStatus) : string :=
  match s with
  | OPEN => "open"
  | IN_PROGRESS => "in_progress"
  | RESOLVED => "resolved"
  | CLOSED => "closed"
  end.

Definition of_string (text : string) : option IncidentStatus :=
  if String.eqb text "open" then Some OPEN
  else if String.eqb text "in_progress" then Some IN_PROGRESS
  else if String.eqb text "resolved" then Some RESOLVED
  else if String.eqb text "closed" then Some CLOSED
  else None.

Definition eqb (a b : IncidentStatus) : bool :=
  match a, b with
  | OPEN, OPEN | IN_PROGRESS, IN_PROGRESS | RESOLVED, RESOLVED | CLOSED, CLOSED => true
  | _, _ => false
  end.
End Status.

Module SeverityClassificationSchema.
Record t : Type := mk {
  reasoning : string;
  severity : IncidentSeverity;
  security_incident : bool;
  affected_systems : list string
}.
End SeverityClassificationSchema.

(** ** utils.py *)

(** [calculate_incident_priority_score] *)
Definition calculate_incident_priority_score
    (severity : string) (affected_systems_count : Z) (security_incident : bool) : Z :=
  let base_score :=
    if String.eqb severity "critical" then 1000
    else if String.eqb severity "high" then 100
    else if String.eqb severity "medium" then 10
    else if String.eqb severity "low" then 1
    else 1 in
  let system_multiplier := Z.max 1 affected_systems_count in
  let security_multiplier := if security_incident then 2 else 1 in
  base_score * system_multiplier * security_multiplier.

(** ** models/incident.py *)

Module Incident.

Record EscalationRecord : Type := mkEscalation {
  esc_timestamp : Z;
  esc_reason : string;
  esc_target_team : option string;
  escalated_from : list string
}.

(** The ["details"] payload of one audit entry. *)
Inductive UpdateDetails : Type :=
| SeveritySet (severity reasoning : string)
| TeamAssigned (team reason : string)
| ResolutionActionAdded (action_type description : string)
| StatusUpdated (old_status new_status reason : string)
| Escalated (record : EscalationRecord)
| MarkedSecurityIncident (security_incident : bool).

Record StatusUpdate : Type := mkUpdate {
  su_timestamp : Z;
  su_action : string;
  su_details : UpdateDetails
}.

Record t : Type := mk {
  report : IncidentReport.t;
  severity : option IncidentSeverity;
  status : IncidentStatus;
  team_assignments : list TeamAssignment.t;
  resolution_actions : list ResolutionAction.t;
  is_security_incident : bool;
  escalation_needed : bool;
  priority_score : Z;
  created_at : Z;
  updated_at : Z;
  resolution_time : option Z;
  escalation_history : list EscalationRecord;
  status_updates : list StatusUpdate
}.

(** [Incident.__init__]; [now] is the value of [current_timestamp()]. *)
Definition init (now : Z) (incident_report : IncidentReport.t) : t :=
  {| report := incident_report;
     severity := None;
     status := OPEN;
     team_assignments := [];
     resolution_actions := [];
     is_security_incident := false;
     escalation_needed := false;
     priority_score := 0;
     created_at := IncidentReport.timestamp incident_report;
     updated_at := now;
     resolution_time := None;
     escalation_history := [];
     status_updates := [] |}.

Definition systems_count (self : t) : Z :=
  Z.of_nat (length (IncidentReport.affected_systems (report self))).

Definition set_severity (now : Z) (sev reasoning : string) (self : t) : result t :=
  match Severity.of_string sev with
  | None => Raise (ValueError ("Invalid severity level: " ++ sev))
  | Some level =>
      Ok {| report := report self;
            severity := Some level;
            status := status self;
            team_assignments := team_assignments self;
            resolution_actions := resolution_actions self;
            is_security_incident := is_security_incident self;
            escalation_needed := escalation_needed self;
            priority_score :=
              calculate_incident_priority_score
                sev (systems_count self) (is_security_incident self);
            created_at := created_at self;
            updated_at := now;
            resolution_time := resolution_time self;
            escalation_history := escalation_history self;
            status_updates :=
              status_updates self ++
              [mkUpdate now "severity_set" (SeveritySet sev reasoning)] |}
  end.

Definition assign_team (now : Z) (team_assignment : TeamAssignment.t) (self : t) : t :=
  {| report := report self;
     severity := severity self;
     status := status self;
     team_assignments := team_assignments self ++ [team_assignment];
     resolution_actions := resolution_actions self;
     is_security_incident := is_security_incident self;
     escalation_needed := escalation_needed self;
     priority_score := priority_score self;
     created_at := created_at self;
     updated_at := now;
     resolution_time := resolution_time self;
     escalation_history := escalation_history self;
     status_updates :=
       status_updates self ++
       [mkUpdate now "team_assigned"
          (TeamAssigned (TeamAssignment.team_name team_assignment)
                        (TeamAssignment.assignment_reason team_assignment))] |}.

Definition add_resolution_action (now : Z) (action : ResolutionAction.t) (self : t) : t :=
  {| report := report self;
     severity := severity self;
     status := status self;
     team_assignments := team_assignments self;
     resolution_actions := resolution_actions self ++ [action];
     is_security_incident := is_security_incident self;
     escalation_needed := escalation_needed self;
     priority_score := priority_score self;
     created_at := created_at self;
     updated_at := now;
     resolution_time := resolution_time self;
     escalation_history := escalation_history self;
     status_updates :=
       status_updates self ++
       [mkUpdate now "resolution_action_added"
          (ResolutionActionAdded (ResolutionAction.action_type action)
                                 (ResolutionAction.description action))] |}.

Definition update_status (now : Z) (new_status reason : string) (self : t) : result t :=
  let old_status := status self in
  match Status.of_string new_status with
  | None => Raise (ValueError ("Invalid status: " ++ new_status))
  | Some st =>
      Ok {| report := report self;
            severity := severity self;
            status := st;
            team_assignments := team_assignments self;
            resolution_actions := resolution_actions self;
            is_security_incident := is_security_incident self;
            escalation_needed := escalation_needed self;
            priority_score := priority_score self;
            created_at := created_at self;
            updated_at := now;
            resolution_time :=
              if (Status.eqb st RESOLVED && negb (Status.eqb old_status RESOLVED))%bool
              then Some now else resolution_time self;
            escalation_history := escalation_history self;
            status_updates :=
              status_updates self ++
              [mkUpdate now "status_updated"
                 (StatusUpdated (Status.value old_status) new_status reason)] |}
  end.

Definition get_assigned_teams (self : t) : list string :=
  map TeamAssignment.team_name (team_assignments self).

Definition escalate (now : Z) (escalation_reason : string)
    (target_team : option string) (self : t) : t :=
  let escalation_record :=
    mkEscalation now escalation_reason target_team (get_assigned_teams self) in
  {| report := report self;
     severity := severity self;
     status := status self;
     team_assignments := team_assignments self;
     resolution_actions := resolution_actions self;
     is_security_incident := is_security_incident self;
     escalation_needed := true;
     priority_score := priority_score self;
     created_at := created_at self;
     updated_at := now;
     resolution_time := resolution_time self;
     escalation_history := escalation_history self ++ [escalation_record];
     status_updates :=
       status_updates self ++
       [mkUpdate now "escalated" (Escalated escalation_record)] |}.

Definition mark_as_security_incident (now : Z) (self : t) : t :=
  {| report := report self;
     severity := severity self;
     status := status self;
     team_assignments := team_assignments self;
     resolution_actions := resolution_actions self;
     is_security_incident := true;
     escalation_needed := escalation_needed self;
     priority_score :=
       match severity self with
       | Some level =>
           calculate_incident_priority_score
             (Severity.value level) (systems_count self) true
       | None => priority_score self
       end;
     created_at := created_at self;
     updated_at := now;
     resolution_time := resolution_time self;
     escalation_history := escalation_history self;
     status_updates :=
       status_updates self ++
       [mkUpdate now "marked_security_incident" (MarkedSecurityIncident true)] |}.

(** One call on an incident object; [now] is the clock reading the call
    observes. *)
Inductive Call : Type :=
| CallSetSeverity (sev reasoning : string)
| CallAssignTeam (team_assignment : TeamAssignment.t)
| CallAddResolutionAction (action : ResolutionAction.t)
| CallUpdateStatus (new_status reason : string)
| CallEscalate (escalation_reason : string) (target_team : option string)
| CallMarkAsSecurityIncident.

Definition call (now : Z) (c : Call) (self : t) : result t :=
  match c with
  | CallSetSeverity sev reasoning => set_severity now sev reasoning self
  | CallAssignTeam ta => Ok (assign_team now ta self)
  | CallAddResolutionAction a => Ok (add_resolution_action now a self)
  | CallUpdateStatus s r => update_status now s r self
  | CallEscalate r target => Ok (escalate now r target self)
  | CallMarkAsSecurityIncident => Ok (mark_as_security_incident now self)
  end.

(** The object after a call: a call that raises leaves it as it was (both
    validating mutators raise before their first assignment takes
    effect). *)
Definition after (now : Z) (c : Call) (self : t) : t :=
  match call now c self with
  | Ok self' => self'
  | Raise _ => self
  end.

(** A history of calls, each with its clock reading. *)
Fixpoint run (calls : list (Z * Call)) (self : t) : t :=
  match calls with
  | [] => self
  | (now, c) :: rest => run rest (after now c self)
  end.

(** The five mutators the audit-log invariant names. *)
Definition is_audited_mutator (c : Call) : bool :=
  match c with
  | CallAddResolutionAction _ => false
  | _ => true
  end.

(** [min(xs, key=lambda ta: ta.priority)] with the candidate held so far:
    a later element replaces it only when its key is strictly smaller. *)
Fixpoint min_by_priority (best : TeamAssignment.t) (rest : list TeamAssignment.t)
  : TeamAssignment.t :=
  match rest with
  | [] => best
  | ta :: rest' =>
      if TeamAssignment.priority ta <? TeamAssignment.priority best
      then min_by_priority ta rest'
      else min_by_priority best rest'
  end.

Definition get_primary_team (self : t) : option string :=
  match team_assignments self with
  | [] => None
  | ta :: rest => Some (TeamAssignment.team_name (min_by_priority ta rest))
  end.

(** The calls of a history that are escalations. *)
Definition is_escalation (c : Call) : bool :=
  match c with
  | CallEscalate _ _ => true
  | _ => false
  end.

(** The calls of a history that move the status to resolved. *)
Definition resolves_at (t0 : Z) (nc : Z * Call) : bool :=
  match nc with
  | (now, CallUpdateStatus new_status _) =>
      ((now =? t0) && String.eqb new_status "resolved")%bool
  | _ => false
  end.

End Incident.

(** ** Python containers *)

Module PyDict.

(** [d.get(k)] on an insertion-ordered dict. *)
Fixpoint get {V : Type} (k : string) (d : list (string * V)) : option V :=
  match d with
  | [] => None
  | (k', v) :: d' => if String.eqb k' k then Some v else get k d'
  end.

(** [d[k] = v]: an existing key keeps its position, a new key goes last. *)
Fixpoint set {V : Type} (k : string) (v : V) (d : list (string * V)) : list (string * V) :=
  match d with
  | [] => [(k, v)]
  | (k', v') :: d' =>
      if String.eqb k' k then (k', v) :: d' else (k', v') :: set k v d'
  end.

(** [d.values()] *)
Definition values {V : Type} (d : list (string * V)) : list V := map snd d.

(** [d.keys()] *)
Definition keys {V : Type} (d : list (string * V)) : list string := map fst d.

End PyDict.

Module PyList.

(** [xs.remove(x)]: drops the first occurrence. *)
Fixpoint remove (x : string) (xs : list string) : list string :=
  match xs with
  | [] => []
  | y :: ys => if String.eqb y x then ys else y :: remove x ys
  end.

Section StableSort.
Context {A K : Type} (ltb : K -> K -> bool) (key : A -> K).

(** Insertion of [x] in front of an already sorted tail: [x] stays ahead
    of every element whose key is not strictly smaller. *)
Fixpoint insert_by (x : A) (l : list A) : list A :=
  match l with
  | [] => [x]
  | y :: l' => if ltb (key y) (key x) then y :: insert_by x l' else x :: l
  end.

(** [sorted(l, key=key)]: ascending for [ltb], equal keys keep their
    order (Python's sort is stable). *)
Definition sorted_by (l : list A) : list A := fold_right insert_by [] l.

(** Two elements in the order the sort leaves them: the later one is not
    strictly before the earlier one. *)
Definition in_order (a b : A) : Prop := ltb (key b) (key a) = false.

End StableSort.

(** Lexicographic order on the pairs Python compares as tuples. *)
Definition pair_ltb (a b : Z * Z) : bool :=
  ((fst a <? fst b) || ((fst a =? fst b) && (snd a <? snd b)))%bool.

(** [sorted(l, key=key, reverse=True)]: descending, and still stable. *)
Definition sorted_by_reverse {A : Type} (key : A -> Z * Z) (l : list A) : list A :=
  sorted_by (fun a b => pair_ltb b a) key l.

End PyList.

(** ** models/team.py *)

Inductive TeamType : Type :=
| TT_SRE | TT_BACKEND | TT_FRONTEND | TT_INFRASTRUCTURE
| TT_SECURITY | TT_DATABASE | TT_DEVOPS | TT_NETWORK.

Inductive TeamAvailability : Type := AVAILABLE | BUSY | UNAVAILABLE | ON_CALL.

Module TeamCapability.
Record t : Type := mk {
  incident_type : string;
  expertise_level : Z;
  average_response_time : Z
}.
End TeamCapability.

Module TeamMember.
Record t : Type := mk {
  name : string;
  role : string;
  contact_info : list (string * string);
  on_call : bool
}.
End TeamMember.

Module ResponseTeam.

Record t : Type := mk {
  name : string;
  team_type : TeamType;
  capabilities : list TeamCapability.t;
  escalation_path : list string;
  members : list TeamMember.t;
  availability : TeamAvailability;
  current_incidents : list string;
  workload_score : Z
}.

(** [ResponseTeam.__init__] *)
Definition init (name : string) (team_type : TeamType)
    (capabilities : list TeamCapability.t) (escalation_path : list string)
    (members : option (list TeamMember.t)) : t :=
  {| name := name;
     team_type := team_type;
     capabilities := capabilities;
     escalation_path := escalation_path;
     members := match members with Some ms => ms | None => [] end;
     availability := AVAILABLE;
     current_incidents := [];
     workload_score := 0 |}.

Definition can_handle_incident_type (self : t) (incident_type : string) : bool :=
  existsb (fun cap => String.eqb (TeamCapability.incident_type cap) incident_type)
          (capabilities self).

Fixpoint expertise_in (caps : list TeamCapability.t) (incident_type : string) : Z :=
  match caps with
  | [] => 0
  | cap :: rest =>
      if String.eqb (TeamCapability.incident_type cap) incident_type
      then TeamCapability.expertise_level cap
      else expertise_in rest incident_type
  end.

Definition get_expertise_level (self : t) (incident_type : string) : Z :=
  expertise_in (capabilities self) incident_type.

Fixpoint response_time_in (caps : list TeamCapability.t) (incident_type : string) : Z :=
  match caps with
  | [] => 60
  | cap :: rest =>
      if String.eqb (TeamCapability.incident_type cap) incident_type
      then TeamCapability.average_response_time cap
      else response_time_in rest incident_type
  end.

Definition get_estimated_response_time (self : t) (incident_type : string) : Z :=
  response_time_in (capabilities self) incident_type.

Definition with_incidents (self : t) (incidents : list string) : t :=
  {| name := name self;
     team_type := team_type self;
     capabilities := capabilities self;
     escalation_path := escalation_path self;
     members := members self;
     availability := availability self;
     current_incidents := incidents;
     (* _update_workload_score *)
     workload_score := Z.of_nat (length incidents) |}.

Definition assign_incident (incident_id : string) (self : t) : t :=
  if PyStr.mem incident_id (current_incidents self) then self
  else with_incidents self (current_incidents self ++ [incident_id]).

Definition resolve_incident (incident_id : string) (self : t) : t :=
  if PyStr.mem incident_id (current_incidents self)
  then with_incidents self (PyList.remove incident_id (current_incidents self))
  else self.

Definition set_availability (a : TeamAvailability) (self : t) : t :=
  {| name := name self;
     team_type := team_type self;
     capabilities := capabilities self;
     escalation_path := escalation_path self;
     members := members self;
     availability := a;
     current_incidents := current_incidents self;
     workload_score := workload_score self |}.

Definition get_on_call_members (self : t) : list TeamMember.t :=
  List.filter TeamMember.on_call (members self).

Definition max_concurrent_incidents : Z := 5.

Definition is_available_for_new_incidents (self : t) : bool :=
  match availability self with
  | UNAVAILABLE => false
  | _ => Z.of_nat (length (current_incidents self)) <? max_concurrent_incidents
  end.

(** One call on a team object, and a history of calls. *)
Inductive Call : Type :=
| CallAssignIncident (incident_id : string)
| CallResolveIncident (incident_id : string)
| CallSetAvailability (a : TeamAvailability).

Definition call (c : Call) (self : t) : t :=
  match c with
  | CallAssignIncident i => assign_incident i self
  | CallResolveIncident i => resolve_incident i self
  | CallSetAvailability a => set_availability a self
  end.

Definition run (calls : list Call) (self : t) : t :=
  fold_left (fun team c => call c team) calls self.

End ResponseTeam.

Module TeamRegistry.

(** [self.teams]: a dict from team name to team, in insertion order. *)
Record t : Type := mk { teams : list (string * ResponseTeam.t) }.

Definition register_team (team : ResponseTeam.t) (self : t) : t :=
  {| teams := PyDict.set (ResponseTeam.name team) team (teams self) |}.

Definition sre_team : ResponseTeam.t :=
  ResponseTeam.init "SRE" TT_SRE
    [ TeamCapability.mk "outage" 5 5;
      TeamCapability.mk "performance" 4 10;
      TeamCapability.mk "monitoring" 5 5;
      TeamCapability.mk "infrastructure" 4 15 ]
    ["Infrastructure"; "Backend"] None.

Definition backend_team : ResponseTeam.t :=
  ResponseTeam.init "Backend" TT_BACKEND
    [ TeamCapability.mk "api" 5 10;
      TeamCapability.mk "database" 4 15;
      TeamCapability.mk "performance" 4 20;
      TeamCapability.mk "service" 5 10 ]
    ["SRE"; "Database"] None.

Definition security_team : ResponseTeam.t :=
  ResponseTeam.init "Security" TT_SECURITY
    [ TeamCapability.mk "security" 5 5;
      TeamCapability.mk "breach" 5 2;
      TeamCapability.mk "vulnerability" 5 10;
      TeamCapability.mk "compliance" 4 30 ]
    ["SRE"; "Infrastructure"] None.

Definition infrastructure_team : ResponseTeam.t :=
  ResponseTeam.init "Infrastructure" TT_INFRASTRUCTURE
    [ TeamCapability.mk "infrastructure" 5 10;
      TeamCapability.mk "network" 4 15;
      TeamCapability.mk "deployment" 5 10;
      TeamCapability.mk "scaling" 4 20 ]
    ["SRE"; "DevOps"] None.

(** [_initialize_default_teams] *)
Definition _initialize_default_teams (self : t) : t :=
  register_team infrastructure_team
    (register_team security_team
       (register_team backend_team
          (register_team sre_team self))).

(** [TeamRegistry.__init__] *)
Definition init : t := _initialize_default_teams {| teams := [] |}.

Definition get_team (self : t) (team_name : string) : option ResponseTeam.t :=
  PyDict.get team_name (teams self).

Definition get_available_teams (self : t) : list ResponseTeam.t :=
  List.filter ResponseTeam.is_available_for_new_incidents (PyDict.values (teams self)).

(** The teams that pass both filters of [find_best_team_for_incident]. *)
Definition capable_teams (self : t) (incident_type : string) : list ResponseTeam.t :=
  List.filter (fun team => ResponseTeam.can_handle_incident_type team incident_type)
              (get_available_teams self).

(** The sort key [(-expertise, workload)]. *)
Definition team_sort_key (incident_type : string) (team : ResponseTeam.t) : Z * Z :=
  (- ResponseTeam.get_expertise_level team incident_type,
   ResponseTeam.workload_score team).

Definition find_best_team_for_incident
    (self : t) (incident_type : string) (severity : string) : option ResponseTeam.t :=
  match capable_teams self incident_type with
  | [] => get_team self "SRE"
  | (_ :: _) as capable =>
      hd_error (PyList.sorted_by PyList.pair_ltb (team_sort_key incident_type) capable)
  end.

Definition get_escalation_path (self : t) (team_name : string) : list string :=
  match get_team self team_name with
  | Some team => ResponseTeam.escalation_path team
  | None => []
  end.

Definition list_all_teams (self : t) : list string := PyDict.keys (teams self).

(** Mutation of a registered team object through the registry: the dict
    holds the object, so the change is seen by every later lookup. *)
Definition update_team (team_name : string)
    (f : ResponseTeam.t -> ResponseTeam.t) (self : t) : t :=
  match get_team self team_name with
  | Some team => {| teams := PyDict.set team_name (f team) (teams self) |}
  | None => self
  end.

(** The operations that change a registry after its construction. *)
Inductive Op : Type :=
| OpRegisterTeam (team : ResponseTeam.t)
| OpSetAvailability (team_name : string) (a : TeamAvailability)
| OpAssignIncident (team_name incident_id : string)
| OpResolveIncident (team_name incident_id : string).

Definition step (op : Op) (self : t) : t :=
  match op with
  | OpRegisterTeam team => register_team team self
  | OpSetAvailability n a => update_team n (ResponseTeam.set_availability a) self
  | OpAssignIncident n i => update_team n (ResponseTeam.assign_incident i) self
  | OpResolveIncident n i => update_team n (ResponseTeam.resolve_incident i) self
  end.

(** Registries reachable from construction. *)
Inductive reachable : t -> Prop :=
| reachable_init : reachable init
| reachable_step : forall op self, reachable self -> reachable (step op self).

End TeamRegistry.

(** ** Python numbers as text and floats as rationals *)

Module PyNum.

(** [str(n)] for an integer. *)
Definition str (n : Z) : string := NilEmpty.string_of_int (Z.to_int n).

Definition Qltb (a b : Q) : bool := negb (Qle_bool b a).

(** Rounding to the nearest integer, ties to even. *)
Definition round_half_even (q : Q) : Z :=
  let f := Qfloor q in
  match Qcompare (q - inject_Z f) (1 # 2) with
  | Lt => f
  | Gt => f + 1
  | Eq => if Z.even f then f else f + 1
  end.

(** [round(x, 2)] of an exact rational. Python rounds the float that
    stands for [x] and answers with a float again, which can differ in
    the last place; [FloatMetrics] leaves that operation open. *)
Definition round2 (q : Q) : Q := inject_Z (round_half_even (q * 100)) / 100.

Definition two_digits (n : Z) : string :=
  if n <? 10 then "0" ++ str n else str n.

(** The format [{x:.2f}]. *)
Definition format_2f (q : Q) : string :=
  let n := round_half_even (q * 100) in
  let a := Z.abs n in
  (if n <? 0 then "-" else "") ++ str (a / 100) ++ "." ++ two_digits (a mod 100).

(** [sum(values)] *)
Definition sum (values : list Q) : Q := fold_left Qplus values 0%Q.

(** One step of [max] and of [min]: the value held is replaced only by a
    strictly larger (smaller) one. *)
Definition Qmaxb (a b : Q) : Q := if Qltb a b then b else a.
Definition Qminb (a b : Q) : Q := if Qltb b a then b else a.

(** [max(values)] and [min(values)] of a non-empty list (0 stands for the
    [ValueError] of an empty one, which no caller can produce). *)
Definition max (values : list Q) : Q :=
  match values with
  | [] => 0%Q
  | v :: rest => fold_left Qmaxb rest v
  end.

Definition min (values : list Q) : Q :=
  match values with
  | [] => 0%Q
  | v :: rest => fold_left Qminb rest v
  end.

End PyNum.

(** The line feed of Python's backslash-n. *)
Definition nl : string := String (ascii_of_nat 10) EmptyString.

(** ** routers/triage_router.py *)

Module TriageRouter.

Definition critical_keywords : list string :=
  [ "outage"; "down"; "unavailable"; "complete failure"; "total failure";
    "security breach"; "data breach"; "unauthorized access"; "hack" ].

Definition high_keywords : list string :=
  [ "degraded"; "slow"; "timeout"; "error rate"; "partial failure";
    "performance"; "latency"; "memory leak" ].

Definition security_keywords : list string :=
  [ "security"; "breach"; "unauthorized"; "hack"; "malware"; "virus";
    "intrusion"; "vulnerability"; "exploit"; "attack"; "suspicious";
    "authentication"; "authorization"; "privilege"; "injection";
    "xss"; "csrf"; "sql injection"; "ddos"; "phishing" ].

Definition security_systems : list string :=
  [ "auth"; "authentication"; "authorization"; "security"; "firewall" ].

(** The f-string [{title} {description}], lower-cased. *)
Definition text_to_check (incident_report : IncidentReport.t) : string :=
  PyStr.lower (IncidentReport.title incident_report ++ " " ++
               IncidentReport.description incident_report).

(** The loop over [severity_indicators], returning at the first hit. *)
Fixpoint indicator_hit (indicators : list string) : bool :=
  match indicators with
  | [] => false
  | indicator :: rest =>
      if PyStr.any_in security_keywords (PyStr.lower indicator) then true
      else indicator_hit rest
  end.

(** The loop over [affected_systems], returning at the first hit. *)
Fixpoint system_hit (systems : list string) : bool :=
  match systems with
  | [] => false
  | system :: rest =>
      if PyStr.any_in security_systems (PyStr.lower system) then true
      else system_hit rest
  end.

Definition _detect_security_indicators (incident_report : IncidentReport.t) : bool :=
  if PyStr.any_in security_keywords (text_to_check incident_report) then true
  else if indicator_hit (IncidentReport.severity_indicators incident_report) then true
  else if system_hit (IncidentReport.affected_systems incident_report) then true
  else false.

Definition _fallback_severity_classification
    (incident_report : IncidentReport.t) : IncidentSeverity :=
  let text := text_to_check incident_report in
  let n := Z.of_nat (length (IncidentReport.affected_systems incident_report)) in
  if _detect_security_indicators incident_report then CRITICAL
  else if PyStr.any_in critical_keywords text then CRITICAL
  else if 3 <? n then HIGH
  else if PyStr.any_in high_keywords text then HIGH
  else if 1 <? n then MEDIUM
  else LOW.

Definition should_escalate_immediately
    (classification : SeverityClassificationSchema.t) : bool :=
  if Severity.eqb (SeverityClassificationSchema.severity classification) CRITICAL then true
  else if SeverityClassificationSchema.security_incident classification then true
  else if 5 <? Z.of_nat (length (SeverityClassificationSchema.affected_systems classification))
  then true
  else false.

Definition get_notification_urgency
    (classification : SeverityClassificationSchema.t) : string :=
  if (Severity.eqb (SeverityClassificationSchema.severity classification) CRITICAL
      || SeverityClassificationSchema.security_incident classification)%bool
  then "immediate"
  else if Severity.eqb (SeverityClassificationSchema.severity classification) HIGH
  then "urgent"
  else "normal".

Definition create_incident_from_classification (now : Z)
    (incident_report : IncidentReport.t)
    (classification : SeverityClassificationSchema.t) : result Incident.t :=
  let incident := Incident.init now incident_report in
  do incident <- Incident.set_severity now
                   (Severity.value (SeverityClassificationSchema.severity classification))
                   (SeverityClassificationSchema.reasoning classification) incident;
  let incident :=
    if SeverityClassificationSchema.security_incident classification
    then Incident.mark_as_security_incident now incident else incident in
  let incident :=
    if should_escalate_immediately classification
    then Incident.escalate now
           "Automatic escalation due to severity or security implications" None incident
    else incident in
  Ok incident.

(** [severity_scores.get(incident.severity, 0)] *)
Definition severity_score (severity : option IncidentSeverity) : Z :=
  match severity with
  | Some CRITICAL => 4
  | Some HIGH => 3
  | Some MEDIUM => 2
  | Some LOW => 1
  | None => 0
  end.

(** [-incident.created_at.timestamp()]; times are integers here, so the
    order of two keys is the order of the two creation times reversed.
    The code compares the timestamps as floats of seconds, which can
    make two keys of different times equal; the statements about the
    sorted lists therefore speak of the first component of the sort key
    only. *)
Definition time_priority (incident : Incident.t) : Z := - Incident.created_at incident.



Definition critical_systems : list string :=
  [ "auth"; "payment"; "database"; "core"; "api-gateway"; "load-balancer" ].

Definition critical_system_count (systems : list string) : Z :=
  Z.of_nat (length (List.filter
                      (fun system => PyStr.any_in critical_systems (PyStr.lower system))
                      systems)).

Definition impact_scope_score (incident : Incident.t) : Z :=
  Incident.systems_count incident
  + critical_system_count (IncidentReport.affected_systems (Incident.report incident)) * 2.

Definition composite_score (incident : Incident.t) : Z :=
  let security_boost := if Incident.is_security_incident incident then 1 else 0 in
  let escalation_boost := if Incident.escalation_needed incident then 2 else 0 in
  (severity_score (Incident.severity incident) + security_boost + escalation_boost) * 1000
  + impact_scope_score incident * 10.

Definition get_enhanced_priority_score (incident : Incident.t) : Z * Z :=
  (composite_score incident, time_priority incident).



(** [incident.severity == IncidentSeverity.X]; an unset severity equals
    no member. *)
Definition severity_is (incident : Incident.t) (s : IncidentSeverity) : bool :=
  match Incident.severity incident with
  | Some level => Severity.eqb level s
  | None => false
  end.


(** [any(system.lower() in ["auth", "payment", "database", "core"] ...)]:
    a whole-name test, not a substring test. *)
Definition on_critical_system (incident : Incident.t) : bool :=
  existsb (fun system =>
             PyStr.mem (PyStr.lower system) ["auth"; "payment"; "database"; "core"])
          (IncidentReport.affected_systems (Incident.report incident)).



(** [timedelta(minutes=30)] in microseconds. *)
Definition thirty_minutes : Z := 30 * 60 * 1000000.

Definition high_or_critical (incident : Incident.t) : bool :=
  (severity_is incident HIGH || severity_is incident CRITICAL)%bool.

(** What Python says when an aware and a naive datetime are ordered. *)
Definition naive_aware_message : string :=
  "can't compare offset-naive and offset-aware datetimes".

(** [inc.created_at >= recent_threshold], the threshold being
    [incident.created_at - timedelta(minutes=30)]. The integer that
    stands for a datetime does not tell whether the datetime carries a
    time zone, so the functions that order two creation times take it as
    [tz_aware]; ordering an aware and a naive datetime raises. *)
Definition created_since (tz_aware : Incident.t -> bool) (recent_threshold : Z)
    (incident inc : Incident.t) : result bool :=
  if Bool.eqb (tz_aware inc) (tz_aware incident)
  then Ok (recent_threshold <=? Incident.created_at inc)
  else Raise (TypeError naive_aware_message).

(** The generator under [sum]: for each incident of the batch in turn,
    the severity test, then the comparison of the times, then the
    comparison of the ids. *)
Fixpoint count_recent (tz_aware : Incident.t -> bool) (recent_threshold : Z)
    (incident : Incident.t) (incidents : list Incident.t) : result Z :=
  match incidents with
  | [] => Ok 0
  | inc :: rest =>
      do counted <-
        (if high_or_critical inc then
           do recent <- created_since tz_aware recent_threshold incident inc;
           Ok (recent
               && negb (String.eqb (IncidentReport.id (Incident.report inc))
                                   (IncidentReport.id (Incident.report incident))))%bool
         else Ok false);
      do n <- count_recent tz_aware recent_threshold incident rest;
      Ok (if counted then n + 1 else n)
  end.

(** The other high or critical incidents of the batch created no earlier
    than thirty minutes before [incident]. *)
Definition recent_critical_count (tz_aware : Incident.t -> bool)
    (incidents : list Incident.t) (incident : Incident.t) : result Z :=
  let recent_threshold := Incident.created_at incident - thirty_minutes in
  count_recent tz_aware recent_threshold incident incidents.

(** The chain of tests of [detect_critical_incidents_with_notification]:
    the reason recorded when a notification is required. *)
Definition notification_reason_of (tz_aware : Incident.t -> bool)
    (incidents : list Incident.t) (incident : Incident.t) : result (option string) :=
  if severity_is incident CRITICAL then Ok (Some "Critical severity incident detected")
  else if Incident.is_security_incident incident then Ok (Some "Security incident detected")
  else if 5 <? Incident.systems_count incident
  then Ok (Some "Widespread system impact detected")
  else if Incident.escalation_needed incident then Ok (Some "Incident escalation required")
  else if (severity_is incident HIGH && on_critical_system incident)%bool
  then Ok (Some "High severity incident affecting critical systems")
  else if high_or_critical incident then
    do recent_critical_count <- recent_critical_count tz_aware incidents incident;
    Ok (if 2 <=? recent_critical_count
        then Some "Multiple critical incidents detected - potential cascade"
        else None)
  else Ok None.

(** The [notification_metadata] attribute the function sets on an
    incident object it selects. *)
Record NotificationMetadata : Type := mkMetadata {
  requires_immediate : bool;
  notification_reason : string;
  notification_recipients : list string;
  notification_urgency : string
}.

(** The loop of [detect_critical_incidents_with_notification] over the
    batch [incidents], of which [remaining] is still to visit: each
    selected incident is kept with the metadata written on it. *)
Fixpoint select_critical (tz_aware : Incident.t -> bool) (incidents : list Incident.t)
    (remaining : list Incident.t) : result (list (Incident.t * NotificationMetadata)) :=
  match remaining with
  | [] => Ok []
  | incident :: rest =>
      do reason <- notification_reason_of tz_aware incidents incident;
      do critical_incidents <- select_critical tz_aware incidents rest;
      Ok (match reason with
          | Some notification_reason =>
              (incident, mkMetadata true notification_reason ["primary-oncall"] "immediate")
              :: critical_incidents
          | None => critical_incidents
          end)
  end.

(** [detect_critical_incidents_with_notification]; an exception of the
    loop leaves the function, which has no handler. *)
Definition detect_critical_incidents_with_notification (tz_aware : Incident.t -> bool)
    (incidents : list Incident.t) : result (list (Incident.t * NotificationMetadata)) :=
  do critical_incidents <- select_critical tz_aware incidents incidents;
  Ok (PyList.sorted_by_reverse (fun selected => get_enhanced_priority_score (fst selected))
        critical_incidents).


(** The key under which [_get_severity_distribution] counts an incident. *)
Definition severity_key (incident : Incident.t) : string :=
  match Incident.severity incident with
  | Some level => Severity.value level
  | None => "unknown"
  end.

(** The loop [distribution[severity] += 1]; reading a key the dict does
    not hold raises [KeyError]. *)
Fixpoint count_severities (incidents : list Incident.t) (distribution : list (string * Z))
  : result (list (string * Z)) :=
  match incidents with
  | [] => Ok distribution
  | incident :: rest =>
      match PyDict.get (severity_key incident) distribution with
      | Some n =>
          count_severities rest (PyDict.set (severity_key incident) (n + 1) distribution)
      | None => Raise (KeyError (severity_key incident))
      end
  end.

Definition _get_severity_distribution (incidents : list Incident.t)
  : result (list (string * Z)) :=
  count_severities incidents
    [("critical", 0); ("high", 0); ("medium", 0); ("low", 0); ("unknown", 0)].

(** [system_counts[system] = system_counts.get(system, 0) + 1] *)
Definition count_system (system_counts : list (string * Z)) (system : string)
  : list (string * Z) :=
  PyDict.set system (default 0 (PyDict.get system system_counts) + 1) system_counts.

Definition system_counts_of (incidents : list Incident.t) : list (string * Z) :=
  fold_left
    (fun system_counts incident =>
       fold_left count_system
         (IncidentReport.affected_systems (Incident.report incident)) system_counts)
    incidents [].

Record SystemImpactAnalysis : Type := mkImpact {
  total_systems_affected : Z;
  unique_systems_count : Z;
  most_impacted_systems : list (string * Z);
  widespread_impact_incidents : Z
}.

(** [_get_system_impact_analysis]; the floating-point average per
    incident is left out. *)
Definition _get_system_impact_analysis (incidents : list Incident.t) : SystemImpactAnalysis :=
  let system_counts := system_counts_of incidents in
  {| total_systems_affected :=
       fold_left (fun total incident => total + Incident.systems_count incident) incidents 0;
     unique_systems_count := Z.of_nat (length system_counts);
     most_impacted_systems :=
       firstn 5 (PyList.sorted_by (fun a b => b <? a) snd system_counts);
     widespread_impact_incidents :=
       Z.of_nat (length (List.filter (fun inc => 3 <? Incident.systems_count inc) incidents)) |}.






Section Recipients.

(** [list(set(xs))]: each distinct element once, in the order the hash
    table yields them; any function is allowed here. *)
Variable list_of_set : list string -> list string.

(** [TriageRouter.get_notification_recipients] *)
Definition get_notification_recipients (incident : Incident.t) : list string :=
  let recipients := [] in
  let recipients :=
    if severity_is incident CRITICAL then (recipients ++ ["primary-oncall"])%list
    else recipients in
  let recipients :=
    if Incident.is_security_incident incident
    then (recipients ++ ["security-team"; "security-oncall"])%list
    else recipients in
  let recipients :=
    if (severity_is incident CRITICAL || severity_is incident HIGH)%bool
    then (recipients ++ ["team-leads"])%list
    else recipients in
  let recipients :=
    if 3 <? Incident.systems_count incident then (recipients ++ ["sre-team"])%list
    else recipients in
  list_of_set recipients.

End Recipients.

(** One entry of [historical_incidents] (a dict read with [.get]). *)
Record HistoricalIncident : Type := mkHistorical {
  hist_title : string;
  hist_description : string;
  hist_affected_systems : list string;
  hist_severity : option string;
  hist_is_security_incident : bool;
  hist_resolution_time_minutes : option Z;
  hist_resolution_actions : list string;
  hist_escalation_needed : bool
}.

(** One entry of the list [find_similar_incidents] returns: the fields
    [apply_historical_patterns_to_severity_assessment] reads back. *)
Record SimilarIncident : Type := mkSimilar {
  sim_severity : option string;
  similarity_score : Q;
  severity_references : list string
}.

(** The router object: the structured language-model call (its answer, or
    the exception it raised, for the prompt built from a report) and the
    historical data set. *)
Record t : Type := mk {
  llm : IncidentReport.t -> result SeverityClassificationSchema.t;
  historical_incidents : list HistoricalIncident
}.

Definition set_historical_incidents (historical_data : list HistoricalIncident) (self : t) : t :=
  {| llm := llm self; historical_incidents := historical_data |}.

Definition add_historical_incident (incident_data : HistoricalIncident) (self : t) : t :=
  {| llm := llm self; historical_incidents := historical_incidents self ++ [incident_data] |}.

Definition exn_message (e : Exn) : string :=
  match e with
  | ValueError m | TypeError m | KeyError m | ValidationError m => m
  end.

(** [severity_weights.get(s, 2)] *)
Definition severity_weight (s : string) : Z :=
  if String.eqb s "critical" then 4
  else if String.eqb s "high" then 3
  else if String.eqb s "medium" then 2
  else if String.eqb s "low" then 1
  else 2.

Definition truthy_str (s : option string) : bool :=
  match s with
  | Some (String _ _) => true
  | _ => false
  end.

Section HistoricalPatterns.

(** The similarity scoring of a non-empty history (floating-point
    arithmetic over word and system overlaps, thresholded at 0.25, ranked
    and cut to five, with texts joined in the iteration order of Python
    sets): any function is allowed here, so every statement below holds
    whatever scores and texts a run produces. *)
Variable score_and_rank : Incident.t -> list HistoricalIncident -> list SimilarIncident.

Definition match_historical_patterns_with_severity_reference
    (incident : Incident.t) (history : list HistoricalIncident) : list SimilarIncident :=
  match history with
  | [] => []
  | _ :: _ => score_and_rank incident history
  end.

Definition find_similar_incidents (self : t) (incident : Incident.t) : list SimilarIncident :=
  match_historical_patterns_with_severity_reference incident (historical_incidents self).

(** The loop collecting the high-confidence matches. *)
Fixpoint collect_high_confidence (similar : list SimilarIncident)
  : list (string * Q) * list string :=
  match similar with
  | [] => ([], [])
  | s :: rest =>
      let '(sevs, insights) := collect_high_confidence rest in
      match sim_severity s with
      | Some hist_sev =>
          if (truthy_str (sim_severity s) && PyNum.Qltb (4 # 10) (similarity_score s))%bool
          then ((hist_sev, similarity_score s) :: sevs, (severity_references s ++ insights)%list)
          else (sevs, insights)
      | None => (sevs, insights)
      end
  end.

Definition weighted_historical_score (hs : list (string * Q)) : Q :=
  fold_left (fun acc h => (acc + inject_Z (severity_weight (fst h)) * snd h)%Q) hs 0%Q.

Definition total_weight (hs : list (string * Q)) : Q :=
  fold_left (fun acc h => (acc + snd h)%Q) hs 0%Q.

Definition severity_adjustments_of
    (current : IncidentSeverity) (hs : list (string * Q)) : list string :=
  match hs with
  | [] => []
  | _ :: _ =>
      let current_weight := inject_Z (severity_weight (Severity.value current)) in
      let total := total_weight hs in
      if PyNum.Qltb 0 total then
        let avg := (weighted_historical_score hs / total)%Q in
        if Qle_bool 1 (Qabs (avg - current_weight)) then
          if PyNum.Qltb current_weight avg
          then ["Historical patterns suggest higher severity"]
          else ["Historical patterns suggest lower severity"]
        else []
      else []
  end.

Definition bullet_lines (items : list string) : string :=
  fold_left (fun acc item => acc ++ "- " ++ item ++ nl) items "".

(** The text appended to the reasoning when matches were found. *)
Definition enhancement_suffix
    (current : IncidentSeverity) (similar : list SimilarIncident) : string :=
  let '(historical_severities, pattern_insights) := collect_high_confidence similar in
  let severity_adjustments := severity_adjustments_of current historical_severities in
  (match pattern_insights with
   | [] => ""
   | _ :: _ => nl ++ nl ++ "Historical Pattern Analysis:" ++ nl
               ++ bullet_lines (firstn 3 pattern_insights)
   end)
  ++ (match severity_adjustments with
      | [] => ""
      | _ :: _ => nl ++ "Severity Assessment Notes:" ++ nl
                  ++ bullet_lines severity_adjustments
      end)
  ++ (match similar with
      | [] => ""
      | top :: _ =>
          nl ++ "Found " ++ PyNum.str (Z.of_nat (length similar))
          ++ " similar historical incidents (top match: "
          ++ PyNum.format_2f (similarity_score top) ++ " similarity)"
      end).

Definition apply_historical_patterns_to_severity_assessment (now : Z) (self : t)
    (incident_report : IncidentReport.t)
    (initial_classification : SeverityClassificationSchema.t)
  : result SeverityClassificationSchema.t :=
  let temp_incident := Incident.init now incident_report in
  do temp_incident <-
    Incident.set_severity now
      (Severity.value (SeverityClassificationSchema.severity initial_classification))
      (SeverityClassificationSchema.reasoning initial_classification) temp_incident;
  let temp_incident :=
    if SeverityClassificationSchema.security_incident initial_classification
    then Incident.mark_as_security_incident now temp_incident else temp_incident in
  match find_similar_incidents self temp_incident with
  | [] => Ok initial_classification
  | (_ :: _) as similar_incidents =>
      Ok {| SeverityClassificationSchema.reasoning :=
              SeverityClassificationSchema.reasoning initial_classification
              ++ enhancement_suffix
                   (SeverityClassificationSchema.severity initial_classification)
                   similar_incidents;
            SeverityClassificationSchema.severity :=
              SeverityClassificationSchema.severity initial_classification;
            SeverityClassificationSchema.security_incident :=
              SeverityClassificationSchema.security_incident initial_classification;
            SeverityClassificationSchema.affected_systems :=
              SeverityClassificationSchema.affected_systems initial_classification |}
  end.

Definition classify_severity (now : Z) (self : t)
    (incident_report : IncidentReport.t) : SeverityClassificationSchema.t :=
  let fallback (e : Exn) :=
    let fallback_classification :=
      {| SeverityClassificationSchema.reasoning :=
           "LLM classification failed (" ++ exn_message e ++ "), using fallback heuristics";
         SeverityClassificationSchema.severity :=
           _fallback_severity_classification incident_report;
         SeverityClassificationSchema.security_incident :=
           _detect_security_indicators incident_report;
         SeverityClassificationSchema.affected_systems :=
           IncidentReport.affected_systems incident_report |} in
    match apply_historical_patterns_to_severity_assessment
            now self incident_report fallback_classification with
    | Ok enhanced => enhanced
    | Raise _ => fallback_classification
    end in
  match llm self incident_report with
  | Ok initial_result =>
      match apply_historical_patterns_to_severity_assessment
              now self incident_report initial_result with
      | Ok enhanced_result => enhanced_result
      | Raise e => fallback e
      end
  | Raise e => fallback e
  end.

End HistoricalPatterns.

End TriageRouter.

(** ** Dynamically typed dict values *)

Inductive PyVal : Type :=
| VNone
| VBool (b : bool)
| VInt (n : Z)
| VStr (s : string)
| VList (xs : list string).

Module PyVal.

(** Truth value of an object in a condition. *)
Definition truthy (v : PyVal) : bool :=
  match v with
  | VNone => false
  | VBool b => b
  | VInt n => negb (n =? 0)
  | VStr s => negb (String.eqb s "")
  | VList xs => match xs with [] => false | _ :: _ => true end
  end.

(** [v == text] for a string literal [text]. *)
Definition eq_str (v : PyVal) (text : string) : bool :=
  match v with
  | VStr s => String.eqb s text
  | _ => false
  end.

End PyVal.

(** ** notifications/base_notifier.py *)

Module BaseNotifier.

Record t : Type := mk {
  config : gmap string PyVal;
  enabled : PyVal
}.

(** [BaseNotifier.__init__]: [config.get("enabled", True)] *)
Definition init (config : gmap string PyVal) : t :=
  {| config := config;
     enabled := default (VBool true) (config !! "enabled") |}.

Definition is_enabled (self : t) : PyVal := enabled self.

Definition should_notify (self : t)
    (incident_data : gmap string PyVal) (message_type : string) : bool :=
  if negb (PyVal.truthy (is_enabled self)) then false
  else
    let severity := default (VStr "low") (incident_data !! "severity") in
    if PyVal.eq_str severity "critical" then true
    else if PyVal.truthy (default (VBool false) (incident_data !! "is_security_incident"))
    then true
    else if String.eqb message_type "escalated" then true
    else if PyVal.eq_str severity "high" then true
    else if (String.eqb message_type "created"
             && (PyVal.eq_str severity "medium" || PyVal.eq_str severity "low"))%bool
    then true
    else false.

End BaseNotifier.

(** ** tools/incident_tools.py *)

Module IncidentTools.

(** The keys a timeline entry carries besides timestamp, event and details. *)
Inductive TimelineExtra : Type :=
| ExtraNone
| ExtraSeverity (severity : string)
| ExtraChange (old_value new_value : string)
| ExtraTeams (teams : list string)
| ExtraNotes (notes : string).

Record TimelineEvent : Type := mkEvent {
  ev_timestamp : string;
  ev_event : string;
  ev_details : string;
  ev_extra : TimelineExtra
}.

Record IncidentRecord : Type := mkRecord {
  incident_id : string;
  title : string;
  description : string;
  severity : string;
  status : string;
  affected_systems : list string;
  reporter : string;
  source : string;
  created_at : string;
  updated_at : string;
  assigned_teams : list string;
  suggested_actions : list string;
  escalation_needed : bool;
  resolution_notes : string;
  timeline : list TimelineEvent
}.

(** What a tool call returns. *)
Inductive ToolResult : Type :=
| Success (message : string) (changes : list string) (incident : IncidentRecord)
| Failure (error : string).

(** [create_incident_tool]; [new_id] is the generated identifier and
    [timestamp] the ISO text of the current time. The store is returned
    with the answer. *)
Definition create_incident_tool (new_id timestamp : string)
    (title description severity : string) (affected_systems : list string)
    (reporter source : string) (_incident_store : gmap string IncidentRecord)
  : gmap string IncidentRecord * ToolResult :=
  let incident :=
    {| incident_id := new_id;
       title := title;
       description := description;
       severity := severity;
       status := "open";
       affected_systems := affected_systems;
       reporter := reporter;
       source := source;
       created_at := timestamp;
       updated_at := timestamp;
       assigned_teams := [];
       suggested_actions := [];
       escalation_needed := false;
       resolution_notes := "";
       timeline :=
         [ mkEvent timestamp "incident_created"
             ("Incident created by " ++ reporter) (ExtraSeverity severity) ] |} in
  (<[new_id := incident]> _incident_store,
   Success ("Incident " ++ new_id ++ " created successfully") [] incident).

Definition set_status (v : string) (r : IncidentRecord) : IncidentRecord :=
  mkRecord (incident_id r) (title r) (description r) (severity r) v
    (affected_systems r) (reporter r) (source r) (created_at r) (updated_at r)
    (assigned_teams r) (suggested_actions r) (escalation_needed r)
    (resolution_notes r) (timeline r).

Definition set_severity (v : string) (r : IncidentRecord) : IncidentRecord :=
  mkRecord (incident_id r) (title r) (description r) v (status r)
    (affected_systems r) (reporter r) (source r) (created_at r) (updated_at r)
    (assigned_teams r) (suggested_actions r) (escalation_needed r)
    (resolution_notes r) (timeline r).

Definition set_assigned_teams (v : list string) (r : IncidentRecord) : IncidentRecord :=
  mkRecord (incident_id r) (title r) (description r) (severity r) (status r)
    (affected_systems r) (reporter r) (source r) (created_at r) (updated_at r)
    v (suggested_actions r) (escalation_needed r)
    (resolution_notes r) (timeline r).

Definition set_resolution_notes (v : string) (r : IncidentRecord) : IncidentRecord :=
  mkRecord (incident_id r) (title r) (description r) (severity r) (status r)
    (affected_systems r) (reporter r) (source r) (created_at r) (updated_at r)
    (assigned_teams r) (suggested_actions r) (escalation_needed r)
    v (timeline r).

Definition set_updated_at (v : string) (r : IncidentRecord) : IncidentRecord :=
  mkRecord (incident_id r) (title r) (description r) (severity r) (status r)
    (affected_systems r) (reporter r) (source r) (created_at r) v
    (assigned_teams r) (suggested_actions r) (escalation_needed r)
    (resolution_notes r) (timeline r).

Definition timeline_append (e : TimelineEvent) (r : IncidentRecord) : IncidentRecord :=
  mkRecord (incident_id r) (title r) (description r) (severity r) (status r)
    (affected_systems r) (reporter r) (source r) (created_at r) (updated_at r)
    (assigned_teams r) (suggested_actions r) (escalation_needed r)
    (resolution_notes r) (timeline r ++ [e]).

(** The text Python prints for a list of strings inside an f-string. *)
Definition list_repr (xs : list string) : string :=
  "[" ++ PyStr.join ", " (map (fun x => "'" ++ x ++ "'") xs) ++ "]".

(** The five optional arguments of [update_incident_tool]. *)
Record UpdateArgs : Type := mkArgs {
  arg_status : option string;
  arg_severity : option string;
  arg_assigned_teams : option (list string);
  arg_resolution_notes : option string;
  arg_add_timeline_event : option string
}.

(** The body of [update_incident_tool] once the record is found: the
    record after the update and the list of changes. *)
Definition apply_update (timestamp : string) (a : UpdateArgs) (incident : IncidentRecord)
  : IncidentRecord * list string :=
  let '(incident, changes) :=
    match arg_status a with
    | Some status' =>
        let old_status := status incident in
        (timeline_append
           (mkEvent timestamp "status_changed"
              ("Status changed from " ++ old_status ++ " to " ++ status')
              (ExtraChange old_status status'))
           (set_status status' incident),
         ["status: " ++ old_status ++ " → " ++ status'])
    | None => (incident, [])
    end in
  let '(incident, changes) :=
    match arg_severity a with
    | Some severity' =>
        let old_severity := severity incident in
        (timeline_append
           (mkEvent timestamp "severity_changed"
              ("Severity changed from " ++ old_severity ++ " to " ++ severity')
              (ExtraChange old_severity severity'))
           (set_severity severity' incident),
         app changes ["severity: " ++ old_severity ++ " → " ++ severity'])
    | None => (incident, changes)
    end in
  let '(incident, changes) :=
    match arg_assigned_teams a with
    | Some teams' =>
        let old_teams := assigned_teams incident in
        (timeline_append
           (mkEvent timestamp "teams_assigned"
              ("Teams assigned: " ++ PyStr.join ", " teams') (ExtraTeams teams'))
           (set_assigned_teams teams' incident),
         app changes ["assigned_teams: " ++ list_repr old_teams ++ " → "
                      ++ list_repr teams'])
    | None => (incident, changes)
    end in
  let '(incident, changes) :=
    match arg_resolution_notes a with
    | Some notes' =>
        (timeline_append
           (mkEvent timestamp "resolution_notes_added" "Resolution notes updated"
              (ExtraNotes notes'))
           (set_resolution_notes notes' incident),
         app changes ["resolution_notes updated"])
    | None => (incident, changes)
    end in
  let '(incident, changes) :=
    match arg_add_timeline_event a with
    | Some text =>
        (timeline_append (mkEvent timestamp "custom_event" text ExtraNone) incident,
         app changes ["timeline event added"])
    | None => (incident, changes)
    end in
  (set_updated_at timestamp incident, changes).

Definition update_incident_tool (timestamp : string) (id : string) (a : UpdateArgs)
    (_incident_store : gmap string IncidentRecord)
  : gmap string IncidentRecord * ToolResult :=
  match _incident_store !! id with
  | None => (_incident_store, Failure ("Incident " ++ id ++ " not found"))
  | Some incident =>
      let '(incident', changes) := apply_update timestamp a incident in
      (<[id := incident']> _incident_store,
       Success ("Incident " ++ id ++ " updated: " ++ PyStr.join ", " changes)
               changes incident')
  end.

(** [clear_incidents_store] *)
Definition clear_incidents_store (_incident_store : gmap string IncidentRecord)
  : gmap string IncidentRecord := ∅.

(** The calls that write the store. *)
Inductive Op : Type :=
| OpCreate (new_id timestamp title description severity : string)
           (affected_systems : list string) (reporter source : string)
| OpUpdate (timestamp id : string) (a : UpdateArgs)
| OpClear.

Definition step (op : Op) (store : gmap string IncidentRecord) : gmap string IncidentRecord :=
  match op with
  | OpCreate new_id ts ti de se sys rep src =>
      fst (create_incident_tool new_id ts ti de se sys rep src store)
  | OpUpdate ts id a => fst (update_incident_tool ts id a store)
  | OpClear => clear_incidents_store store
  end.

(** The store after a history of calls, from the empty module-level dict. *)
Definition replay_from (store : gmap string IncidentRecord) (ops : list Op)
  : gmap string IncidentRecord :=
  fold_left (fun s op => step op s) ops store.

Definition replay (ops : list Op) : gmap string IncidentRecord := replay_from ∅ ops.

(** The severity strings a call hands to the store. *)
Definition op_severities (op : Op) : list string :=
  match op with
  | OpCreate _ _ _ _ severity _ _ _ => [severity]
  | OpUpdate _ _ a => match arg_severity a with Some s => [s] | None => [] end
  | OpClear => []
  end.

(** What a read-only tool returns. *)
Inductive QueryResult (A : Type) : Type :=
| QuerySuccess (answer : A)
| QueryFailure (error : string).
Arguments QuerySuccess {A} answer.
Arguments QueryFailure {A} error.

(** [xs[-1] if xs else None] *)
Definition last_or_none {A : Type} (xs : list A) : option A :=
  match rev xs with
  | [] => None
  | x :: _ => Some x
  end.

Record StatusAnswer : Type := mkStatus {
  st_incident_id : string;
  st_status : string;
  st_severity : string;
  st_title : string;
  st_assigned_teams : list string;
  st_escalation_needed : bool;
  st_affected_systems : list string;
  st_latest_event : option TimelineEvent;
  st_timeline_count : Z;
  st_created_at : string;
  st_updated_at : string
}.

(** [get_incident_status_tool]; the age in hours, read off the clock, is
    left out. *)
Definition get_incident_status_tool (id : string)
    (_incident_store : gmap string IncidentRecord) : QueryResult StatusAnswer :=
  match _incident_store !! id with
  | None => QueryFailure ("Incident " ++ id ++ " not found")
  | Some incident =>
      QuerySuccess
        {| st_incident_id := id;
           st_status := status incident;
           st_severity := severity incident;
           st_title := title incident;
           st_assigned_teams := assigned_teams incident;
           st_escalation_needed := escalation_needed incident;
           st_affected_systems := affected_systems incident;
           st_latest_event := last_or_none (timeline incident);
           st_timeline_count := Z.of_nat (length (timeline incident));
           st_created_at := created_at incident;
           st_updated_at := updated_at incident |}
  end.

Record TimelineAnswer : Type := mkTimeline {
  tl_incident_id : string;
  tl_title : string;
  tl_timeline : list TimelineEvent;
  tl_timeline_count : Z;
  tl_created_at : string;
  tl_updated_at : string
}.

(** [get_incident_timeline_tool] *)
Definition get_incident_timeline_tool (id : string)
    (_incident_store : gmap string IncidentRecord) : QueryResult TimelineAnswer :=
  match _incident_store !! id with
  | None => QueryFailure ("Incident " ++ id ++ " not found")
  | Some incident =>
      QuerySuccess
        {| tl_incident_id := id;
           tl_title := title incident;
           tl_timeline := timeline incident;
           tl_timeline_count := Z.of_nat (length (timeline incident));
           tl_created_at := created_at incident;
           tl_updated_at := updated_at incident |}
  end.

Record ListedIncident : Type := mkListed {
  li_incident_id : string;
  li_title : string;
  li_status : string;
  li_severity : string;
  li_assigned_teams : list string;
  li_affected_systems : list string;
  li_escalation_needed : bool;
  li_created_at : string;
  li_updated_at : string
}.

(** The three [continue] tests of the loop of [list_incidents_tool]: a
    filter that is [None] or the empty string tests nothing. *)
Definition passes_filters (status_filter severity_filter team_filter : option string)
    (incident : IncidentRecord) : bool :=
  if (match status_filter with
      | Some (String _ _ as f) => negb (String.eqb (status incident) f)
      | _ => false
      end)
  then false
  else if (match severity_filter with
           | Some (String _ _ as f) => negb (String.eqb (severity incident) f)
           | _ => false
           end)
  then false
  else if (match team_filter with
           | Some (String _ _ as f) => negb (PyStr.mem f (assigned_teams incident))
           | _ => false
           end)
  then false
  else true.

Definition listed (entry : string * IncidentRecord) : ListedIncident :=
  let '(id, incident) := entry in
  {| li_incident_id := id;
     li_title := title incident;
     li_status := status incident;
     li_severity := severity incident;
     li_assigned_teams := assigned_teams incident;
     li_affected_systems := affected_systems incident;
     li_escalation_needed := escalation_needed incident;
     li_created_at := created_at incident;
     li_updated_at := updated_at incident |}.

(** [xs[:limit]]: a negative limit counts from the end. *)
Definition slice_to {A : Type} (limit : Z) (xs : list A) : list A :=
  if 0 <=? limit then firstn (Z.to_nat limit) xs
  else firstn (length xs - Z.to_nat (- limit)) xs.

Record ListAnswer : Type := mkList {
  total_found : Z;
  incidents : list ListedIncident
}.

(** [list_incidents_tool]; [items] is [_incident_store.items()], the
    entries of the store in the order they were inserted. The age of each
    entry is left out. *)
Definition list_incidents_tool (items : list (string * IncidentRecord))
    (status_filter severity_filter team_filter : option string) (limit : Z) : ListAnswer :=
  let incidents :=
    map listed
        (List.filter
           (fun entry => passes_filters status_filter severity_filter team_filter (snd entry))
           items) in
  let incidents := PyList.sorted_by (fun a b => String.ltb b a) li_created_at incidents in
  let incidents := slice_to limit incidents in
  {| total_found := Z.of_nat (length incidents); incidents := incidents |}.

(** The number of optional arguments an update call supplies. *)
Definition given {A : Type} (arg : option A) : nat :=
  match arg with
  | Some _ => 1
  | None => 0
  end.

Definition supplied (a : UpdateArgs) : nat :=
  (given (arg_status a) + given (arg_severity a) + given (arg_assigned_teams a)
   + given (arg_resolution_notes a) + given (arg_add_timeline_event a))%nat.

End IncidentTools.

(** ** tools/diagnostic_tools.py *)

Module DiagnosticTools.

Record MetricResult : Type := mkMetric {
  success : bool;
  system : string;
  metric_type : string;
  current_value : Q;
  unit : string;
  status : string;
  trend : string;
  time_range : string;
  aggregation : string;
  threshold_warning : Q;
  threshold_critical : Q;
  data_points : Z
}.

(** The bounds handed to [random.uniform] for each metric type. *)
Definition uniform_bounds (metric_type : string) : Q * Q :=
  if String.eqb metric_type "cpu" then (-15, 25)%Q
  else if String.eqb metric_type "memory" then (-10, 20)%Q
  else if String.eqb metric_type "response_time" then (-50, 200)%Q
  else if String.eqb metric_type "error_rate" then (-1, 3)%Q
  else (0, 100)%Q.

(** The twenty samples with their unit and thresholds; [draw i] is what
    the i-th call of [random.uniform] returned. Sums and quotients are
    exact here; the statements on this model are about samples and
    aggregates that stay away from the thresholds by more than any
    rounding error, and about one run spelled out. *)
Definition samples (draw : nat -> Q) (system metric_type : string)
  : list Q * string * Q * Q :=
  let draws := map draw (seq 0 20) in
  if String.eqb metric_type "cpu" then
    let base_value : Q := (if negb (String.eqb system "database") then 45 else 65)%Q in
    (map (fun u => base_value + u) draws, "percent", 70, 90)%Q
  else if String.eqb metric_type "memory" then
    let base_value : Q := (if negb (String.eqb system "api") then 60 else 75)%Q in
    (map (fun u => base_value + u) draws, "percent", 80, 95)%Q
  else if String.eqb metric_type "response_time" then
    let base_value : Q := (if negb (String.eqb system "api") then 150 else 300)%Q in
    (map (fun u => base_value + u) draws, "milliseconds", 500, 1000)%Q
  else if String.eqb metric_type "error_rate" then
    let base_value : Q := if negb (String.eqb system "auth") then (15 # 10) else (32 # 10) in
    (map (fun u => PyNum.Qmaxb 0 (base_value + u)) draws, "percent", 2, 5)%Q
  else
    (draws, "units", 70, 90)%Q.

Definition aggregate (aggregation : string) (values : list Q) : Q :=
  if String.eqb aggregation "avg" then (PyNum.sum values / inject_Z (Z.of_nat (length values)))%Q
  else if String.eqb aggregation "max" then PyNum.max values
  else if String.eqb aggregation "min" then PyNum.min values
  else PyNum.sum values.

Definition classify_status (current_value threshold_warning threshold_critical : Q) : string :=
  if Qle_bool threshold_critical current_value then "critical"
  else if Qle_bool threshold_warning current_value then "warning"
  else "normal".

Definition trend_of (values : list Q) : string :=
  let recent_values := skipn (length values - 5) values in
  let older_values := firstn 5 values in
  let recent_avg := (PyNum.sum recent_values / inject_Z (Z.of_nat (length recent_values)))%Q in
  let older_avg := (PyNum.sum older_values / inject_Z (Z.of_nat (length older_values)))%Q in
  if PyNum.Qltb (older_avg * (11 # 10)) recent_avg then "increasing"
  else if PyNum.Qltb recent_avg (older_avg * (9 # 10)) then "decreasing"
  else "stable".

(** [query_metrics_tool]; the recommendations and the timestamp of the
    answer are left out. *)
Definition query_metrics_tool (draw : nat -> Q)
    (system metric_type time_range aggregation : string) : MetricResult :=
  let '(values, unit, threshold_warning, threshold_critical) :=
    samples draw system metric_type in
  let current_value := aggregate aggregation values in
  {| success := true;
     system := system;
     metric_type := metric_type;
     current_value := PyNum.round2 current_value;
     unit := unit;
     status := classify_status current_value threshold_warning threshold_critical;
     trend := trend_of values;
     time_range := time_range;
     aggregation := aggregation;
     threshold_warning := threshold_warning;
     threshold_critical := threshold_critical;
     data_points := Z.of_nat (length values) |}.


(** Every draw lies in the interval asked of [random.uniform]. *)
Definition draws_in_bounds (draw : nat -> Q) (metric_type : string) : bool :=
  forallb (fun i => Qle_bool (fst (uniform_bounds metric_type)) (draw i)
                    && Qle_bool (draw i) (snd (uniform_bounds metric_type)))%bool
          (seq 0 20).

(** The system for which each recognised metric type has a raised base
    value. *)
Definition raised_base_system (metric_type : string) : string :=
  if String.eqb metric_type "cpu" then "database"
  else if String.eqb metric_type "memory" then "api"
  else if String.eqb metric_type "response_time" then "api"
  else "auth".

End DiagnosticTools.

(** ** tools/diagnostic_tools.py with the rounding of floats left open

    [DiagnosticTools] computes with exact rationals. A float is a
    rational too, but the sum, the quotient and the rounding of floats
    are rounded results: here they are the operations of an [Arith],
    about which nothing is assumed, and the functions of the tool are
    written over it. Comparisons, [max] and [min] are exact on floats and
    stay as they are. *)

Module FloatMetrics.

Import DiagnosticTools.

(** The float operations the tool performs; arguments and results are
    the rational values of the floats.
    - [lit q]: the float the decimal literal [q] denotes;
    - [add], [mul], [div]: the operators on two floats (an integer
      operand is converted first, exactly for the integers of the tool);
    - [sum]: the built-in [sum] of a list of floats;
    - [round2]: [round(x, 2)]. *)
Record Arith : Type := mkArith {
  lit : Q -> Q;
  add : Q -> Q -> Q;
  mul : Q -> Q -> Q;
  div : Q -> Q -> Q;
  sum : list Q -> Q;
  round2 : Q -> Q
}.

(** The arithmetic without rounding errors, that of [DiagnosticTools]. *)
Definition exact : Arith :=
  mkArith (fun q => q) Qplus Qmult Qdiv PyNum.sum PyNum.round2.

(** The twenty samples with their unit and thresholds; [draw i] is the
    float the i-th call of [random.uniform] returned. *)
Definition samples (fl : Arith) (draw : nat -> Q) (system metric_type : string)
  : list Q * string * Q * Q :=
  let draws := map draw (seq 0 20) in
  if String.eqb metric_type "cpu" then
    let base_value : Q := (if negb (String.eqb system "database") then 45 else 65)%Q in
    (map (fun u => add fl base_value u) draws, "percent", 70, 90)%Q
  else if String.eqb metric_type "memory" then
    let base_value : Q := (if negb (String.eqb system "api") then 60 else 75)%Q in
    (map (fun u => add fl base_value u) draws, "percent", 80, 95)%Q
  else if String.eqb metric_type "response_time" then
    let base_value : Q := (if negb (String.eqb system "api") then 150 else 300)%Q in
    (map (fun u => add fl base_value u) draws, "milliseconds", 500, 1000)%Q
  else if String.eqb metric_type "error_rate" then
    let base_value : Q :=
      if negb (String.eqb system "auth") then lit fl (15 # 10) else lit fl (32 # 10) in
    (map (fun u => PyNum.Qmaxb 0 (add fl base_value u)) draws, "percent", 2, 5)%Q
  else
    (draws, "units", 70, 90)%Q.

Definition aggregate (fl : Arith) (aggregation : string) (values : list Q) : Q :=
  if String.eqb aggregation "avg"
  then div fl (sum fl values) (inject_Z (Z.of_nat (length values)))
  else if String.eqb aggregation "max" then PyNum.max values
  else if String.eqb aggregation "min" then PyNum.min values
  else sum fl values.

Definition trend_of (fl : Arith) (values : list Q) : string :=
  let recent_values := skipn (length values - 5) values in
  let older_values := firstn 5 values in
  let recent_avg :=
    div fl (sum fl recent_values) (inject_Z (Z.of_nat (length recent_values))) in
  let older_avg :=
    div fl (sum fl older_values) (inject_Z (Z.of_nat (length older_values))) in
  if PyNum.Qltb (mul fl older_avg (lit fl (11 # 10))) recent_avg then "increasing"
  else if PyNum.Qltb recent_avg (mul fl older_avg (lit fl (9 # 10))) then "decreasing"
  else "stable".

(** [query_metrics_tool]; the recommendations and the timestamp of the
    answer are left out. *)
Definition query_metrics_tool (fl : Arith) (draw : nat -> Q)
    (system metric_type time_range aggregation : string) : MetricResult :=
  let '(values, unit, threshold_warning, threshold_critical) :=
    samples fl draw system metric_type in
  let current_value := aggregate fl aggregation values in
  {| success := true;
     system := system;
     metric_type := metric_type;
     current_value := round2 fl current_value;
     unit := unit;
     status := classify_status current_value threshold_warning threshold_critical;
     trend := trend_of fl values;
     time_range := time_range;
     aggregation := aggregation;
     threshold_warning := threshold_warning;
     threshold_critical := threshold_critical;
     data_points := Z.of_nat (length values) |}.

End FloatMetrics.

(** ** Splitting and trimming text *)

Module PyText.

(** [c.isspace()], which decides what [strip] removes: the blank, the
    controls from tab to carriage return, the four separators from 28
    to 31 and, above the ASCII range, the next-line control and the
    no-break space. *)
Definition is_space (c : ascii) : bool :=
  let n := nat_of_ascii c in
  (Nat.eqb n 32 || (Nat.leb 9 n && Nat.leb n 13) || (Nat.leb 28 n && Nat.leb n 31)
   || Nat.eqb n 133 || Nat.eqb n 160)%bool.

(** [s.split(sep)] for a one-character separator. *)
Fixpoint split (sep : ascii) (s : string) : list string :=
  match s with
  | EmptyString => [EmptyString]
  | String c s' =>
      if Ascii.eqb c sep then EmptyString :: split sep s'
      else match split sep s' with
           | [] => [String c EmptyString]
           | h :: t => String c h :: t
           end
  end.

Fixpoint lstrip (s : string) : string :=
  match s with
  | EmptyString => EmptyString
  | String c s' => if is_space c then lstrip s' else s
  end.

Fixpoint rstrip (s : string) : string :=
  match s with
  | EmptyString => EmptyString
  | String c s' =>
      match rstrip s' with
      | EmptyString => if is_space c then EmptyString else String c EmptyString
      | r => String c r
      end
  end.

(** [s.strip()] *)
Definition strip (s : string) : string := rstrip (lstrip s).

(** [s.replace(c, by)] for a one-character pattern. *)
Fixpoint replace_char (c : ascii) (by_ : string) (s : string) : string :=
  match s with
  | EmptyString => EmptyString
  | String a s' =>
      if Ascii.eqb a c then by_ ++ replace_char c by_ s'
      else String a (replace_char c by_ s')
  end.

(** Iterating over a string yields its characters. *)
Fixpoint chars (s : string) : list string :=
  match s with
  | EmptyString => []
  | String c s' => String c EmptyString :: chars s'
  end.

End PyText.

(** ** utils.py: parsing the raw incident *)

(** A raw field that may arrive as comma separated text or as a list. *)
Inductive StrOrList : Type :=
| AsStr (s : string)
| AsList (xs : list string).

(** A raw timestamp: ISO text or an already built datetime. *)
Inductive RawTimestamp : Type :=
| TsText (s : string)
| TsValue (t : Z).

(** The raw incident dict, one optional entry per key the code reads.
    A key that is present holds a value of the kind [IncidentData]
    (schemas.py) declares for it, or of the other kind
    [parse_incident_data] provides for: a text for [id], [title],
    [description], [source], [reporter] and [error_logs], a text or a
    datetime for [timestamp], a list of texts or one comma separated text
    for [affected_systems] and [severity_indicators]. A dict that holds
    anything else under one of these keys ([None] under [title], say,
    or a number) lies outside this type; on such a dict the constructor
    of the report raises a validation error, and the later stages raise
    where they call a text method on the value. The statements about
    raw incidents speak of the dicts of this type only. *)
Module RawIncident.
Record t : Type := mk {
  id : option string;
  title : option string;
  description : option string;
  source : option string;
  timestamp : option RawTimestamp;
  reporter : option string;
  affected_systems : option StrOrList;
  error_logs : option string;
  metrics_data : option (list (string * string));
  severity_indicators : option StrOrList
}.

(** [for x in raw.get(key, [])] *)
Definition iter (v : option StrOrList) : list string :=
  match v with
  | None => []
  | Some (AsList xs) => xs
  | Some (AsStr s) => PyText.chars s
  end.
End RawIncident.

Module Utils.

(** What the process observes of its surroundings during one call. *)
Record Clock : Type := mkClock {
  current_timestamp : Z;
  generate_incident_id : string;
  fromisoformat : string -> option Z
}.

Definition comma : ascii := ascii_of_nat 44.

Definition as_list (v : option StrOrList) : list string :=
  match v with
  | None => []
  | Some (AsList xs) => xs
  | Some (AsStr s) => map PyText.strip (PyText.split comma s)
  end.

(** [parse_incident_data]; of the values a [RawIncident.t] can hold, the
    pydantic constructor rejects a [source] outside its four literals
    and nothing else. *)
Definition parse_incident_data (clk : Clock) (raw_data : RawIncident.t)
  : result IncidentReport.t :=
  let incident_id :=
    match RawIncident.id raw_data with
    | Some (String _ _ as i) => i
    | _ => generate_incident_id clk
    end in
  let timestamp :=
    match RawIncident.timestamp raw_data with
    | Some (TsText (String _ _ as text)) =>
        match fromisoformat clk
                (PyText.replace_char (ascii_of_nat 90) "+00:00" text) with
        | Some t => t
        | None => current_timestamp clk
        end
    | Some (TsValue t) => t
    | _ => current_timestamp clk
    end in
  let source := default "api" (RawIncident.source raw_data) in
  if IncidentReport.valid_source source then
    Ok {| IncidentReport.id := incident_id;
          IncidentReport.title := default "Untitled Incident" (RawIncident.title raw_data);
          IncidentReport.description := default "" (RawIncident.description raw_data);
          IncidentReport.source := source;
          IncidentReport.timestamp := timestamp;
          IncidentReport.reporter := default "unknown" (RawIncident.reporter raw_data);
          IncidentReport.affected_systems := as_list (RawIncident.affected_systems raw_data);
          IncidentReport.error_logs := RawIncident.error_logs raw_data;
          IncidentReport.metrics_data := RawIncident.metrics_data raw_data;
          IncidentReport.severity_indicators :=
            as_list (RawIncident.severity_indicators raw_data) |}
  else Raise (ValidationError "source").

End Utils.

(** ** incident_agent.py: the three-stage workflow *)

Module IncidentAgent.

Record Notification : Type := mkNotification {
  n_type : string;
  n_recipients : list string;
  n_message : string;
  n_urgency : string
}.

(** Everything outside the module that a run depends on.
    - [llm]: the structured language-model call;
    - [score_and_rank]: the similarity arithmetic of the router;
    - [runtime_keeps_private_keys]: whether the workflow runtime hands the
      keys outside the declared state schema ([_incident],
      [_classification], [_notifications]) on to the next node. *)
Record World : Type := mkWorld {
  clock : Utils.Clock;
  llm : IncidentReport.t -> result SeverityClassificationSchema.t;
  score_and_rank :
    Incident.t -> list TriageRouter.HistoricalIncident -> list TriageRouter.SimilarIncident;
  runtime_keeps_private_keys : bool
}.

(** The module-level [triage_router = TriageRouter(llm=llm)]. *)
Definition triage_router (w : World) : TriageRouter.t := TriageRouter.mk (llm w) [].

(** The module-level [team_registry = TeamRegistry()]. *)
Definition team_registry : TeamRegistry.t := TeamRegistry.init.

(** The workflow state: a dict whose keys other than the input may be
    absent. *)
Record State : Type := mkState {
  incident_input : RawIncident.t;
  severity_classification : option string;
  team_assignment : option (list string);
  suggested_actions : option (list string);
  escalation_needed : option bool;
  resolution_status : option string;
  incident_id : option string;
  created_at : option Z;
  updated_at : option Z;
  _incident : option Incident.t;
  _classification : option SeverityClassificationSchema.t;
  _notifications : option (list Notification)
}.

(** The [update] of a [Command]: the keys a node writes. *)
Record Update : Type := mkUpdate {
  u_incident_id : option string;
  u_severity_classification : option string;
  u_team_assignment : option (list string);
  u_suggested_actions : option (list string);
  u_escalation_needed : option bool;
  u_resolution_status : option string;
  u_created_at : option Z;
  u_updated_at : option Z;
  u_notifications : option (list Notification)
}.

Record Command : Type := mkCommand { goto : string; update : Update }.

Definition initial_state (incident_data : RawIncident.t) : State :=
  mkState incident_data None None None None None None None None None None None.

Definition or_else {A : Type} (new old : option A) : option A :=
  match new with Some _ => new | None => old end.

(** Merging a node's update into the state; [local] is the node's own
    copy of the state after its in-place writes. *)
Definition commit (w : World) (state local : State) (u : Update) : State :=
  let keep := runtime_keeps_private_keys w in
  {| incident_input := incident_input state;
     severity_classification := or_else (u_severity_classification u) (severity_classification state);
     team_assignment := or_else (u_team_assignment u) (team_assignment state);
     suggested_actions := or_else (u_suggested_actions u) (suggested_actions state);
     escalation_needed := or_else (u_escalation_needed u) (escalation_needed state);
     resolution_status := or_else (u_resolution_status u) (resolution_status state);
     incident_id := or_else (u_incident_id u) (incident_id state);
     created_at := or_else (u_created_at u) (created_at state);
     updated_at := or_else (u_updated_at u) (updated_at state);
     _incident := if keep then _incident local else _incident state;
     _classification := if keep then _classification local else _classification state;
     _notifications :=
       if keep then or_else (u_notifications u) (_notifications state)
       else _notifications state |}.

(** The constructor call with the already built report unpacked by a
    double star as its keyword arguments. [parse_incident_data] returns a
    pydantic model, which has no [keys] method and so is no mapping: the
    call raises on every report, and the lines after it, down to the
    handler, never run. *)
Definition unpack_report (incident_data : IncidentReport.t) : result IncidentReport.t :=
  Raise (TypeError "argument after ** must be a mapping, not IncidentReport").

Definition triage_incident (w : World) (state : State) : Command * State :=
  let now := Utils.current_timestamp (clock w) in
  let attempt :=
    do incident_data <- Utils.parse_incident_data (clock w) (incident_input state);
    do incident_report <- unpack_report incident_data;
    let classification :=
      TriageRouter.classify_severity (score_and_rank w) now (triage_router w) incident_report in
    do incident <-
      TriageRouter.create_incident_from_classification now incident_report classification;
    Ok (classification, incident) in
  match attempt with
  | Ok (classification, incident) =>
      (mkCommand "route_to_team"
         {| u_incident_id := Some (IncidentReport.id (Incident.report incident));
            u_severity_classification :=
              Some (Severity.value (SeverityClassificationSchema.severity classification));
            u_team_assignment := None;
            u_suggested_actions := None;
            u_escalation_needed :=
              Some (TriageRouter.should_escalate_immediately classification);
            u_resolution_status := None;
            u_created_at := Some (Incident.created_at incident);
            u_updated_at := Some now;
            u_notifications := None |},
       mkState (incident_input state) (severity_classification state)
         (team_assignment state) (suggested_actions state) (escalation_needed state)
         (resolution_status state) (incident_id state) (created_at state)
         (updated_at state) (Some incident) (Some classification) (_notifications state))
  | Raise _ =>
      (mkCommand "route_to_team"
         {| u_incident_id := Some (Utils.generate_incident_id (clock w));
            u_severity_classification := Some "medium";
            u_team_assignment := None;
            u_suggested_actions := None;
            u_escalation_needed := Some true;
            u_resolution_status := None;
            u_created_at := Some now;
            u_updated_at := Some now;
            u_notifications := None |},
       state)
  end.

(** The chain of substring tests mapping a system name to an incident
    type a team can handle. *)
Definition incident_type_of (system : string) : option string :=
  let incident_type := PyStr.lower system in
  if (PyStr.contains "database" incident_type || PyStr.contains "db" incident_type)%bool
  then Some "database"
  else if PyStr.contains "api" incident_type then Some "api"
  else if (PyStr.contains "infrastructure" incident_type
           || PyStr.contains "infra" incident_type)%bool
  then Some "infrastructure"
  else if (PyStr.contains "security" incident_type || PyStr.contains "auth" incident_type)%bool
  then Some "security"
  else if PyStr.contains "network" incident_type then Some "network"
  else if (PyStr.contains "performance" incident_type || PyStr.contains "slow" incident_type)%bool
  then Some "performance"
  else None.

Definition add_if_absent (team : string) (assigned_teams : list string) : list string :=
  if PyStr.mem team assigned_teams then assigned_teams else (assigned_teams ++ [team])%list.

(** One turn of the loop over the affected systems. *)
Definition route_system (severity : string) (assigned_teams : list string) (system : string)
  : list string :=
  match incident_type_of system with
  | Some incident_type =>
      match TeamRegistry.find_best_team_for_incident team_registry incident_type severity with
      | Some best_team => add_if_absent (ResponseTeam.name best_team) assigned_teams
      | None => assigned_teams
      end
  | None => add_if_absent "SRE" assigned_teams
  end.

(** [route_to_team]. On the raw incidents of [RawIncident.t] the
    attempt raises only at the lookup of a severity the state lacks;
    whatever it raises, the handler assigns SRE alone. *)
Definition route_to_team (w : World) (state : State) : Command * State :=
  let now := Utils.current_timestamp (clock w) in
  let attempt :=
    do inputs <-
      match _incident state, _classification state with
      | Some incident, Some classification =>
          Ok (IncidentReport.affected_systems (Incident.report incident),
              Severity.value (SeverityClassificationSchema.severity classification))
      | _, _ =>
          match severity_classification state with
          | Some severity =>
              Ok (RawIncident.iter (RawIncident.affected_systems (incident_input state)),
                  severity)
          | None => Raise (KeyError "severity_classification")
          end
      end;
    let '(affected_systems, severity) := inputs in
    let assigned_teams :=
      match _classification state with
      | Some classification =>
          if SeverityClassificationSchema.security_incident classification
          then ["Security"] else []
      | None => []
      end in
    let assigned_teams := fold_left (route_system severity) affected_systems assigned_teams in
    let assigned_teams :=
      match assigned_teams with [] => ["SRE"] | _ :: _ => assigned_teams end in
    let assigned_teams :=
      if String.eqb severity "critical" then add_if_absent "SRE" assigned_teams
      else assigned_teams in
    Ok assigned_teams in
  let teams := match attempt with Ok teams => teams | Raise _ => ["SRE"] end in
  (mkCommand "coordinate_response"
     (mkUpdate None None (Some teams) None None None None (Some now) None),
   state).

Definition urgent_actions : list string :=
  [ "Notify primary on-call engineer immediately";
    "Set up incident war room/bridge";
    "Begin impact assessment and customer communication";
    "Activate incident commander role" ].

Definition security_actions : list string :=
  [ "Isolate affected systems if possible";
    "Preserve logs and evidence";
    "Notify security team and compliance";
    "Begin security incident response protocol" ].

Definition general_actions : list string :=
  [ "Review recent deployments and changes";
    "Check monitoring dashboards for anomalies";
    "Gather additional logs and metrics";
    "Document timeline and initial findings" ].

Definition fallback_actions : list string :=
  [ "Review incident details and assess impact";
    "Contact assigned response teams";
    "Begin diagnostic investigation" ].

(** The action a single affected system contributes, if any. *)
Definition system_action (system : string) : list string :=
  let name := PyStr.lower system in
  if PyStr.contains "database" name
  then ["Check " ++ system ++ " connection pools and query performance"]
  else if PyStr.contains "api" name
  then ["Monitor " ++ system ++ " response times and error rates"]
  else if PyStr.contains "frontend" name
  then ["Check " ++ system ++ " deployment status and CDN health"]
  else [].

Definition is_critical_input (severity : string) (incident_input : RawIncident.t) : bool :=
  let severity_indicators := RawIncident.iter (RawIncident.severity_indicators incident_input) in
  let title := PyStr.lower (default "" (RawIncident.title incident_input)) in
  let description := PyStr.lower (default "" (RawIncident.description incident_input)) in
  (String.eqb severity "critical"
   || existsb (fun indicator =>
                 PyStr.mem (PyStr.lower indicator) ["outage"; "critical"; "down"; "breach"])
              severity_indicators
   || PyStr.any_in ["outage"; "critical"; "down"; "complete"; "total"] title
   || PyStr.any_in ["outage"; "critical"; "down"; "complete"; "total"] description)%bool.

Definition is_security (classification : option SeverityClassificationSchema.t) : bool :=
  match classification with
  | Some c => SeverityClassificationSchema.security_incident c
  | None => false
  end.

(** [coordinate_response]. On the raw incidents of [RawIncident.t]
    the text methods called on the title, the description and the
    severity indicators cannot fail, so the attempt raises only at the
    lookup of a key the state lacks; the handler answers with the
    fallback actions. *)
Definition coordinate_response (w : World) (state : State) : Command * State :=
  let now := Utils.current_timestamp (clock w) in
  let attempt :=
    do assigned_teams <-
      match team_assignment state with
      | Some teams => Ok teams
      | None => Raise (KeyError "team_assignment")
      end;
    do severity <-
      match severity_classification state with
      | Some s => Ok s
      | None => Raise (KeyError "severity_classification")
      end;
    let incident_input := incident_input state in
    let suggested_actions :=
      ((if is_critical_input severity incident_input then urgent_actions else [])
       ++ (if is_security (_classification state) then security_actions else [])
       ++ (match _incident state with
           | Some incident =>
               flat_map system_action
                 (IncidentReport.affected_systems (Incident.report incident))
           | None => []
           end)
       ++ general_actions)%list in
    let notifications :=
      if (String.eqb severity "critical" || is_security (_classification state))%bool
      then [ mkNotification "immediate" assigned_teams
               ("CRITICAL: " ++ default "Incident" (RawIncident.title incident_input)
                ++ " requires immediate attention")
               "immediate" ]
      else [] in
    Ok (suggested_actions, notifications) in
  match attempt with
  | Ok (suggested_actions, notifications) =>
      (mkCommand "__end__"
         (mkUpdate None None None (Some suggested_actions) None (Some "in_progress")
            None (Some now)
            (match notifications with [] => None | _ :: _ => Some notifications end)),
       state)
  | Raise _ =>
      (mkCommand "__end__"
         (mkUpdate None None None (Some fallback_actions) None (Some "in_progress")
            None (Some now) None),
       state)
  end.

(** The compiled graph: one entry edge into [triage_incident], then each
    node names its successor. *)
Definition node (name : string) : option (World -> State -> Command * State) :=
  if String.eqb name "triage_incident" then Some triage_incident
  else if String.eqb name "route_to_team" then Some route_to_team
  else if String.eqb name "coordinate_response" then Some coordinate_response
  else None.

Fixpoint run (fuel : nat) (w : World) (name : string) (state : State) : State :=
  match fuel with
  | O => state
  | S fuel' =>
      match node name with
      | Some f =>
          let '(command, local) := f w state in
          run fuel' w (goto command) (commit w state local (update command))
      | None => state
      end
  end.

(** [incident_agent.invoke]: three nodes lie on the only path, and the
    fourth step finds the end marker, which names no node. *)
Definition invoke (w : World) (incident_data : RawIncident.t) : State :=
  run 4 w "triage_incident" (initial_state incident_data).

Record Response : Type := mkResponse {
  r_incident_id : option string;
  r_severity : option string;
  r_assigned_teams : list string;
  r_suggested_actions : list string;
  r_escalation_needed : bool;
  r_status : string;
  r_created_at : option Z;
  r_updated_at : option Z;
  r_notifications : list Notification
}.

Definition process_incident (w : World) (incident_data : RawIncident.t) : Response :=
  let result := invoke w incident_data in
  {| r_incident_id := incident_id result;
     r_severity := severity_classification result;
     r_assigned_teams := default [] (team_assignment result);
     r_suggested_actions := default [] (suggested_actions result);
     r_escalation_needed := default false (escalation_needed result);
     r_status := default "open" (resolution_status result);
     r_created_at := created_at result;
     r_updated_at := updated_at result;
     r_notifications := default [] (_notifications result) |}.

(** The literal scenario of the demo scripts. *)
Definition database_outage_report : RawIncident.t :=
  {| RawIncident.id := None;
     RawIncident.title := Some "Database connection timeout";
     RawIncident.description := Some "Complete database failure affecting all services";
     RawIncident.source := None;
     RawIncident.timestamp := None;
     RawIncident.reporter := None;
     RawIncident.affected_systems := Some (AsList ["database"; "api"]);
     RawIncident.error_logs := None;
     RawIncident.metrics_data := None;
     RawIncident.severity_indicators := Some (AsList ["critical"; "outage"; "timeout"]) |}.

(** An action whose text matches one of the three markers. *)
Definition is_urgent_text (action : string) : bool :=
  PyStr.any_in ["immediately"; "war room"; "Activate"] action.

Definition urgent_count (actions : list string) : nat :=
  length (List.filter is_urgent_text actions).

(** The same count with letter case ignored on both sides. *)
Definition urgent_count_nocase (actions : list string) : nat :=
  length (List.filter
            (fun action => PyStr.any_in ["immediately"; "war room"; "activate"]
                                        (PyStr.lower action))
            actions).

(** The four facts the scenario is said to yield. *)
Definition scenario_outcome (r : Response) : Prop :=
  r_severity r = Some "critical"
  /\ r_escalation_needed r = true
  /\ (In "Backend" (r_assigned_teams r) \/ In "SRE" (r_assigned_teams r))
  /\ (4 <= urgent_count (r_suggested_actions r))%nat.

End IncidentAgent.

(** * Vocabulary of the statements and sample data *)

Local Open Scope list_scope.

(** A report and an incident to run the calls on. *)
Definition sample_report : IncidentReport.t :=
  IncidentReport.mk "INC-TEST001" "Test Database Connection Issue"
    "Database connections are timing out intermittently" "monitoring" 0
    "monitoring-system" ["database"; "api"] (Some "Connection timeout after 30 seconds")
    None ["timeout"; "database"; "intermittent"].

Definition sample_incident : Incident.t := Incident.init 1 sample_report.

Section RegistryFactsVocabulary.

Import TeamRegistry.

(** Every team is filed under its own name. *)
Definition filed_by_name (self : t) : Prop :=
  Forall (fun kv => ResponseTeam.name (snd kv) = fst kv) (teams self).

End RegistryFactsVocabulary.

(** Registries in which the fallback meets a team that is not available. *)
Definition registry_sre_unavailable : TeamRegistry.t :=
  TeamRegistry.step (TeamRegistry.OpSetAvailability "SRE" UNAVAILABLE) TeamRegistry.init.

Definition registry_sre_at_cap : TeamRegistry.t :=
  fold_left (fun reg i => TeamRegistry.step (TeamRegistry.OpAssignIncident "SRE" i) reg)
            ["INC-1"; "INC-2"; "INC-3"; "INC-4"; "INC-5"]%string
            TeamRegistry.init.

Definition registry_backend_unavailable : TeamRegistry.t :=
  TeamRegistry.step (TeamRegistry.OpSetAvailability "Backend" UNAVAILABLE) TeamRegistry.init.

(** The rule as the specification words it: the keyword sets, the three
    ways security indicators are detected, and the four-way decision. *)
Module FallbackRule.

Definition critical_words : list string :=
  [ "outage"; "down"; "unavailable"; "complete failure"; "total failure";
    "security breach"; "data breach"; "unauthorized access"; "hack" ]%string.

Definition high_words : list string :=
  [ "degraded"; "slow"; "timeout"; "error rate"; "partial failure";
    "performance"; "latency"; "memory leak" ]%string.

Definition security_words : list string :=
  [ "security"; "breach"; "unauthorized"; "hack"; "malware"; "virus"; "intrusion";
    "vulnerability"; "exploit"; "attack"; "suspicious"; "authentication";
    "authorization"; "privilege"; "injection"; "xss"; "csrf"; "sql injection";
    "ddos"; "phishing" ]%string.

Definition security_system_words : list string :=
  [ "auth"; "authentication"; "authorization"; "security"; "firewall" ]%string.

(** Title and description, matched without regard to case. *)
Definition text (r : IncidentReport.t) : string :=
  PyStr.lower (IncidentReport.title r ++ " " ++ IncidentReport.description r)%string.

Definition security_detected (r : IncidentReport.t) : bool :=
  (PyStr.any_in security_words (text r)
   || existsb (fun indicator => PyStr.any_in security_words (PyStr.lower indicator))
              (IncidentReport.severity_indicators r)
   || existsb (fun system => PyStr.any_in security_system_words (PyStr.lower system))
              (IncidentReport.affected_systems r))%bool.

Definition systems (r : IncidentReport.t) : Z :=
  Z.of_nat (length (IncidentReport.affected_systems r)).

Definition severity (r : IncidentReport.t) : IncidentSeverity :=
  if (security_detected r || PyStr.any_in critical_words (text r))%bool then CRITICAL
  else if ((3 <? systems r) || PyStr.any_in high_words (text r))%bool then HIGH
  else if 1 <? systems r then MEDIUM
  else LOW.

End FallbackRule.

(** A history of one critical incident and a scorer that reports it as a
    match of similarity one half. *)
Definition past_outage : TriageRouter.HistoricalIncident :=
  TriageRouter.mkHistorical "Database outage" "Primary cluster down"
    ["database"]%string (Some "critical"%string) false (Some 300) [] true.

Definition half_similar (incident : Incident.t)
    (history : list TriageRouter.HistoricalIncident) : list TriageRouter.SimilarIncident :=
  map (fun h => TriageRouter.mkSimilar (TriageRouter.hist_severity h) (1 # 2)
                  ["Similar incidents required escalation - consider higher severity"%string])
      history.

Definition rated_low : SeverityClassificationSchema.t :=
  SeverityClassificationSchema.mk "Single system, no keyword" LOW false ["database"]%string.

Section PrioritisationVocabulary.

Import TriageRouter.





End PrioritisationVocabulary.

(** Two incident objects built through the incident interface: a plain
    critical one, and a high one that is a security incident and was
    escalated. *)
Definition cache_report (id : string) : IncidentReport.t :=
  IncidentReport.mk id "Cache misses" "Hit ratio dropped" "monitoring" 0
    "monitoring-system" ["cache"]%string None None [].

Definition plain_critical : Incident.t :=
  Incident.run [(1, Incident.CallSetSeverity "critical" "")]
               (Incident.init 1 (cache_report "INC-A")).


Definition plain_high : Incident.t :=
  Incident.run [(1, Incident.CallSetSeverity "high" "")]
               (Incident.init 1 (cache_report "INC-C")).

(** The documented rule: conditions tried in order, the first that holds
    gives the answer, and the answer is false when none holds. *)
Module NotifyRule.

Fixpoint first_match (rules : list (bool * bool)) : bool :=
  match rules with
  | [] => false
  | (condition, answer) :: rest => if condition then answer else first_match rest
  end.

Definition severity_of (incident_data : gmap string PyVal) : PyVal :=
  default (VStr "low") (incident_data !! "severity"%string).

Definition is_security (incident_data : gmap string PyVal) : bool :=
  PyVal.truthy (default (VBool false) (incident_data !! "is_security_incident"%string)).

Definition disabled (notifier : BaseNotifier.t) : bool :=
  negb (PyVal.truthy (BaseNotifier.is_enabled notifier)).

Definition verdict (notifier : BaseNotifier.t)
    (incident_data : gmap string PyVal) (message_type : string) : bool :=
  let severity := severity_of incident_data in
  first_match
    [ (disabled notifier, false);
      (PyVal.eq_str severity "critical", true);
      (is_security incident_data, true);
      (String.eqb message_type "escalated", true);
      (PyVal.eq_str severity "high", true);
      ((String.eqb message_type "created"
        && (PyVal.eq_str severity "medium" || PyVal.eq_str severity "low"))%bool, true) ].

End NotifyRule.

Definition slack_like_notifier (enabled : bool) : BaseNotifier.t :=
  BaseNotifier.init (<["enabled"%string := VBool enabled]> ∅).

Definition critical_incident_data : gmap string PyVal :=
  <["severity"%string := VStr "critical"]> (<["incident_id"%string := VStr "INC-1"]> ∅).

Section ToolStoreVocabulary.

Import IncidentTools.

Definition in_enum (severity : string) : bool :=
  match Severity.of_string severity with Some _ => true | None => false end.

(** What is said of every stored record: teams assigned, a severity of
    the enum, and at least one suggested action. *)
Definition fully_triaged (r : IncidentRecord) : Prop :=
  assigned_teams r <> [] /\ in_enum (severity r) = true /\ suggested_actions r <> [].

Definition starts_with_created (tl : list TimelineEvent) : Prop :=
  exists e rest, tl = e :: rest /\ ev_event e = "incident_created"%string.

Definition teams_recorded (tl : list TimelineEvent) : Prop :=
  exists e, In e tl /\ ev_event e = "teams_assigned"%string.

(** What the store operations do maintain. *)
Definition well_kept (id : string) (r : IncidentRecord) : Prop :=
  incident_id r = id
  /\ suggested_actions r = []
  /\ starts_with_created (timeline r)
  /\ (assigned_teams r <> [] -> teams_recorded (timeline r)).

End ToolStoreVocabulary.

Definition disk_full_created : IncidentTools.Op :=
  IncidentTools.OpCreate "INC-20240101-0a1b2c3d" "2024-01-01T00:00:00+00:00"
    "Disk full" "Volume at 100 percent" "critical" ["storage"]%string "system" "agent".

Definition disk_full_relabelled : IncidentTools.Op :=
  IncidentTools.OpUpdate "2024-01-01T00:05:00+00:00" "INC-20240101-0a1b2c3d"
    (IncidentTools.mkArgs None (Some "sev1"%string) (Some []) None None).

Definition disk_full_routed : IncidentTools.Op :=
  IncidentTools.OpUpdate "2024-01-01T00:05:00+00:00" "INC-20240101-0a1b2c3d"
    (IncidentTools.mkArgs (Some "in_progress"%string) None
       (Some ["Infrastructure"]%string) None None).

Section MetricStatusVocabulary.

Import DiagnosticTools.




End MetricStatusVocabulary.


Section ScenarioVocabulary.

Import IncidentAgent.

(** The report [parse_incident_data] builds from the scenario. *)
Definition scenario_report (clk : Utils.Clock) : IncidentReport.t :=
  IncidentReport.mk (Utils.generate_incident_id clk)
    "Database connection timeout"
    "Complete database failure affecting all services"
    "api" (Utils.current_timestamp clk) "unknown"
    ["database"; "api"] None None ["critical"; "outage"; "timeout"].

(** What the later stages rely on after triage of the scenario: the input
    is still there, a severity is set, and an incident object, when one
    was handed on, carries the two affected systems. *)
Definition triaged_scenario (s : State) : Prop :=
  incident_input s = database_outage_report
  /\ (exists sev, severity_classification s = Some sev)
  /\ match _incident s with
     | Some incident =>
         IncidentReport.affected_systems (Incident.report incident) = ["database"; "api"]
     | None => True
     end.

(** The state the triage stage leaves for the scenario. *)
Definition scenario_after_triage (w : World) : State :=
  commit w (initial_state database_outage_report)
    (snd (triage_incident w (initial_state database_outage_report)))
    (update (fst (triage_incident w (initial_state database_outage_report)))).

End ScenarioVocabulary.

(** ** Vocabulary: raw incidents and call histories *)

(** The raw dict that spells out every field of a report: lists as
    lists, the timestamp as a datetime. *)
Definition raw_of_report (r : IncidentReport.t) : RawIncident.t :=
  {| RawIncident.id := Some (IncidentReport.id r);
     RawIncident.title := Some (IncidentReport.title r);
     RawIncident.description := Some (IncidentReport.description r);
     RawIncident.source := Some (IncidentReport.source r);
     RawIncident.timestamp := Some (TsValue (IncidentReport.timestamp r));
     RawIncident.reporter := Some (IncidentReport.reporter r);
     RawIncident.affected_systems := Some (AsList (IncidentReport.affected_systems r));
     RawIncident.error_logs := IncidentReport.error_logs r;
     RawIncident.metrics_data := IncidentReport.metrics_data r;
     RawIncident.severity_indicators :=
       Some (AsList (IncidentReport.severity_indicators r)) |}.

(** The number of commas in a text. *)
Fixpoint count_commas (s : string) : nat :=
  match s with
  | EmptyString => 0
  | String c s' => ((if Ascii.eqb c Utils.comma then 1 else 0) + count_commas s')%nat
  end.

(** The characters of a text. *)
Fixpoint mentions (c : ascii) (s : string) : bool :=
  match s with
  | EmptyString => false
  | String a s' => (Ascii.eqb a c || mentions c s')%bool
  end.

(** The code points below 256 that Python counts as white space. *)
Definition white_space_codes : list nat :=
  [9; 10; 11; 12; 13; 28; 29; 30; 31; 32; 133; 160]%nat.

Definition is_white (c : ascii) : bool :=
  existsb (Nat.eqb (nat_of_ascii c)) white_space_codes.

Fixpoint all_white (s : string) : bool :=
  match s with
  | EmptyString => true
  | String c s' => (is_white c && all_white s')%bool
  end.

Fixpoint last_char (s : string) : option ascii :=
  match s with
  | EmptyString => None
  | String c EmptyString => Some c
  | String _ s' => last_char s'
  end.

(** A text that is empty or begins with a character that is no white
    space. *)
Definition starts_clean (s : string) : Prop :=
  match s with
  | EmptyString => True
  | String c _ => is_white c = false
  end.

(** A text that is empty or ends with a character that is no white
    space. *)
Definition ends_clean (s : string) : Prop :=
  match last_char s with
  | None => True
  | Some c => is_white c = false
  end.

(** A text with no white space at either end. *)
Definition trimmed (s : string) : Prop := starts_clean s /\ ends_clean s.

(** [entry] is [part] without a run of white space at its start and
    one at its end. *)
Definition trimming_of (part entry : string) : Prop :=
  exists before after : string,
    part = (before ++ entry ++ after)%string
    /\ all_white before = true /\ all_white after = true.

(** [sep.join(parts)] for the comma. *)
Fixpoint join_commas (parts : list string) : string :=
  match parts with
  | [] => EmptyString
  | [part] => part
  | part :: rest => (part ++ String Utils.comma (join_commas rest))%string
  end.

(** The severity a score is computed for: a text outside the four levels
    counts as low. *)
Definition scored_as (severity : string) : string :=
  match Severity.of_string severity with
  | Some level => Severity.value level
  | None => "low"
  end.

(** The calls of a history that mark the incident as a security one. *)
Definition is_security_mark (c : Incident.Call) : bool :=
  match c with
  | Incident.CallMarkAsSecurityIncident => true
  | _ => false
  end.

(** The score the incident's own fields call for. *)
Definition expected_priority_score (i : Incident.t) : Z :=
  match Incident.severity i with
  | Some level =>
      calculate_incident_priority_score (Severity.value level)
        (Incident.systems_count i) (Incident.is_security_incident i)
  | None => 0
  end.

(** The resolution time, when set, is the clock reading of a call that
    moved the status to resolved; while unset, the status is not
    resolved. *)
Definition resolution_time_explained
    (calls : list (Z * Incident.Call)) (self : Incident.t) : Prop :=
  match Incident.resolution_time self with
  | Some t0 => existsb (Incident.resolves_at t0) calls = true
  | None => Incident.status self <> RESOLVED
  end.

(** ** Vocabulary: teams *)

(** The best team is at least as expert as [team], and no busier when
    they are equally expert. *)
Definition no_better_than (incident_type : string) (best team : ResponseTeam.t) : Prop :=
  ResponseTeam.get_expertise_level team incident_type
  <= ResponseTeam.get_expertise_level best incident_type
  /\ (ResponseTeam.get_expertise_level team incident_type
      = ResponseTeam.get_expertise_level best incident_type ->
      ResponseTeam.workload_score best <= ResponseTeam.workload_score team).

(** ** Vocabulary: triage *)

(** The sum of the counters of a counting dict. *)
Definition total_count (d : list (string * Z)) : Z :=
  fold_right Z.add 0 (PyDict.values d).

(** The number of incidents counted under a key. *)
Definition counted_under (key : string) (incidents : list Incident.t) : Z :=
  Z.of_nat (length (List.filter
                      (fun incident => String.eqb (TriageRouter.severity_key incident) key)
                      incidents)).

(** What is known of [list(set(xs))]: no element twice, and the same
    elements as [xs]. *)
Definition lists_a_set (list_of_set : list string -> list string) : Prop :=
  forall xs, List.NoDup (list_of_set xs) /\ forall x, In x (list_of_set xs) <-> In x xs.


Definition bool_count (b : bool) : nat := if b then 1 else 0.



(** A second plain high incident, and a reading of the batch in which
    only the first of the two carries a time zone. *)
Definition other_high : Incident.t :=
  Incident.run [(1, Incident.CallSetSeverity "high" "")]
               (Incident.init 1 (cache_report "INC-D")).

Definition only_first_aware (incident : Incident.t) : bool :=
  String.eqb (IncidentReport.id (Incident.report incident)) "INC-C".

(** ** Vocabulary: the tool store read back *)

(** What a filter argument demands of a value: [None] and the empty text
    demand nothing. *)
Definition demands (filter_arg : option string) (holds : string -> Prop) : Prop :=
  match filter_arg with
  | Some (String _ _ as f) => holds f
  | _ => True
  end.

(** Newest first: no entry is created before one that follows it (ISO
    texts compared as strings, as the code does). *)
Definition not_older (a b : IncidentTools.ListedIncident) : Prop :=
  String.ltb (IncidentTools.li_created_at a) (IncidentTools.li_created_at b) = false.

(** The fields no update writes. *)
Definition same_identity (r r' : IncidentTools.IncidentRecord) : Prop :=
  IncidentTools.incident_id r' = IncidentTools.incident_id r
  /\ IncidentTools.title r' = IncidentTools.title r
  /\ IncidentTools.description r' = IncidentTools.description r
  /\ IncidentTools.affected_systems r' = IncidentTools.affected_systems r
  /\ IncidentTools.reporter r' = IncidentTools.reporter r
  /\ IncidentTools.source r' = IncidentTools.source r
  /\ IncidentTools.created_at r' = IncidentTools.created_at r
  /\ IncidentTools.suggested_actions r' = IncidentTools.suggested_actions r
  /\ IncidentTools.escalation_needed r' = IncidentTools.escalation_needed r.

(** ** Vocabulary: metric queries *)

(** The aggregations the query tool recognises; any other text sums the
    samples. *)
Definition recognised_aggregations : list string := ["avg"; "max"; "min"].

Definition recognised_metrics : list string :=
  ["cpu"; "memory"; "response_time"; "error_rate"].

(** Draws that all sit at the centre of the interval asked for. *)
Definition steady_draw (metric_type : string) (i : nat) : Q :=
  let '(lo, hi) := DiagnosticTools.uniform_bounds metric_type in ((lo + hi) / 2)%Q.

(** ** Vocabulary: the workflow on every input *)

(** The teams the module-level registry holds. *)
Definition known_teams : list string := ["Security"; "SRE"; "Backend"; "Infrastructure"].

(** The teams the routing stage writes into its update. *)
Definition routed_teams (w : IncidentAgent.World) (state : IncidentAgent.State) : list string :=
  default [] (IncidentAgent.u_team_assignment
                (IncidentAgent.update (fst (IncidentAgent.route_to_team w state)))).

(** The severity the routing stage works with: the classification's when
    incident and classification were handed on, the state's otherwise. *)
Definition routing_severity (state : IncidentAgent.State) : option string :=
  match IncidentAgent._incident state, IncidentAgent._classification state with
  | Some _, Some classification =>
      Some (Severity.value (SeverityClassificationSchema.severity classification))
  | _, _ => IncidentAgent.severity_classification state
  end.

Definition state_after_triage (w : IncidentAgent.World) (raw : RawIncident.t)
  : IncidentAgent.State :=
  IncidentAgent.commit w (IncidentAgent.initial_state raw)
    (snd (IncidentAgent.triage_incident w (IncidentAgent.initial_state raw)))
    (IncidentAgent.update
       (fst (IncidentAgent.triage_incident w (IncidentAgent.initial_state raw)))).

(** A run with no model configured, in which the runtime drops the
    private keys. *)
Definition plain_run : IncidentAgent.World :=
  IncidentAgent.mkWorld
    (Utils.mkClock 1700000000000000 "INC-0A1B2C3D" (fun _ => None))
    (fun r => Raise (ValueError "no model configured"))
    (fun _ _ => [])
    false.

Definition comma_text_report : RawIncident.t :=
  {| RawIncident.id := None;
     RawIncident.title := Some "Checkout errors";
     RawIncident.description := Some "Orders fail at payment";
     RawIncident.source := None;
     RawIncident.timestamp := None;
     RawIncident.reporter := None;
     RawIncident.affected_systems := Some (AsStr "database,api");
     RawIncident.error_logs := None;
     RawIncident.metrics_data := None;
     RawIncident.severity_indicators := None |}.

(** * Verified properties *)

(** ** The audit log of an incident object *)

Section IncidentAuditLog.

Import Incident.

Lemma set_severity_appends now sev reasoning self self' :
  set_severity now sev reasoning self = Ok self' ->
  status_updates self' =
  status_updates self ++ [mkUpdate now "severity_set" (SeveritySet sev reasoning)].
Proof.
  unfold set_severity. destruct (Severity.of_string sev); intros H; inversion H.
  reflexivity.
Qed.

Lemma update_status_appends now new_status reason self self' :
  update_status now new_status reason self = Ok self' ->
  status_updates self' =
  status_updates self ++
  [mkUpdate now "status_updated"
     (StatusUpdated (Status.value (status self)) new_status reason)].
Proof.
  unfold update_status. destruct (Status.of_string new_status); intros H; inversion H.
  reflexivity.
Qed.

Lemma call_appends_one now c self self' :
  call now c self = Ok self' ->
  exists entry, status_updates self' = status_updates self ++ [entry].
Proof.
  destruct c; simpl; intros H.
  - eexists. eapply set_severity_appends. exact H.
  - inversion H. eexists. reflexivity.
  - inversion H. eexists. reflexivity.
  - eexists. eapply update_status_appends. exact H.
  - inversion H. eexists. reflexivity.
  - inversion H. eexists. reflexivity.
Qed.

Lemma after_log_grows now c self :
  (length (status_updates self) <= length (status_updates (after now c self)))%nat.
Proof.
  unfold after. destruct (call now c self) as [self'|e] eqn:E.
  - destruct (call_appends_one _ _ _ _ E) as [entry ->].
    rewrite length_app. simpl. lia.
  - lia.
Qed.

Lemma run_log_grows calls : forall self,
  (length (status_updates self) <= length (status_updates (run calls self)))%nat.
Proof.
  induction calls as [|[now c] rest IH]; intros self; simpl.
  - lia.
  - specialize (IH (after now c self)).
    pose proof (after_log_grows now c self). lia.
Qed.

(** C6. Over any history of calls on an incident object the length of
    [status_updates] never decreases, and each successful call of
    [set_severity], [assign_team], [update_status], [escalate] or
    [mark_as_security_incident] leaves the old log followed by exactly one
    new entry. *)
Theorem status_updates_append_only :
  (forall calls self,
      (length (status_updates self) <= length (status_updates (run calls self)))%nat)
  /\ (forall now c self self',
         is_audited_mutator c = true ->
         call now c self = Ok self' ->
         (exists entry, status_updates self' = status_updates self ++ [entry])
         /\ length (status_updates self') = S (length (status_updates self))).
Proof.
  split.
  - intros calls self. apply run_log_grows.
  - intros now c self self' _ H.
    destruct (call_appends_one _ _ _ _ H) as [entry Hentry].
    split.
    + exists entry. exact Hentry.
    + rewrite Hentry, length_app. simpl. lia.
Qed.

End IncidentAuditLog.

Lemma status_updates_append_only_witness :
  length (Incident.status_updates
            (Incident.run [(2, Incident.CallSetSeverity "critical" "paging");
                           (3, Incident.CallUpdateStatus "no such status" "");
                           (4, Incident.CallEscalate "no answer" None)]
                          sample_incident)) = 2%nat
  /\ (exists self',
         Incident.call 2 (Incident.CallSetSeverity "critical" "paging") sample_incident
         = Ok self'
         /\ length (Incident.status_updates self')
            = S (length (Incident.status_updates sample_incident))).
Proof.
  split.
  - reflexivity.
  - eexists. split.
    + reflexivity.
    + apply (proj2 status_updates_append_only 2
               (Incident.CallSetSeverity "critical" "paging") sample_incident);
        reflexivity.
Defined.

(** ** Python dicts and stable sorting *)

Section DictFacts.
Context {V : Type}.

Lemma dict_get_set_same (k : string) (v : V) d :
  PyDict.get k (PyDict.set k v d) = Some v.
Proof.
  induction d as [|[k' v'] d IH]; simpl.
  - rewrite String.eqb_refl. reflexivity.
  - destruct (String.eqb k' k) eqn:E; simpl; rewrite E; [reflexivity | exact IH].
Qed.

Lemma dict_get_set_other (k k0 : string) (v : V) d :
  String.eqb k0 k = false ->
  PyDict.get k (PyDict.set k0 v d) = PyDict.get k d.
Proof.
  intros Hne. induction d as [|[k' v'] d IH]; simpl.
  - rewrite Hne. reflexivity.
  - destruct (String.eqb k' k0) eqn:E; simpl.
    + apply String.eqb_eq in E. subst k'. rewrite Hne. reflexivity.
    + destruct (String.eqb k' k); [reflexivity | exact IH].
Qed.

(** A key once present stays present under every assignment. *)
Lemma dict_set_keeps_key (k k0 : string) (v : V) d :
  PyDict.get k d <> None -> PyDict.get k (PyDict.set k0 v d) <> None.
Proof.
  intros H. destruct (String.eqb k0 k) eqn:E.
  - apply String.eqb_eq in E. subst k0. rewrite dict_get_set_same. discriminate.
  - rewrite dict_get_set_other by exact E. exact H.
Qed.

End DictFacts.

Section StableSortFacts.
Context {A K : Type} (ltb : K -> K -> bool) (key : A -> K).

Lemma insert_by_perm x l : Permutation (PyList.insert_by ltb key x l) (x :: l).
Proof.
  induction l as [|y l IH]; simpl.
  - apply Permutation_refl.
  - destruct (ltb (key y) (key x)).
    + eapply Permutation_trans; [apply perm_skip, IH | apply perm_swap].
    + apply Permutation_refl.
Qed.

Lemma sorted_by_perm l : Permutation (PyList.sorted_by ltb key l) l.
Proof.
  induction l as [|x l IH]; simpl.
  - apply perm_nil.
  - eapply Permutation_trans; [apply insert_by_perm | apply perm_skip, IH].
Qed.

Lemma sorted_by_nonempty x l : PyList.sorted_by ltb key (x :: l) <> [].
Proof.
  intros H. pose proof (sorted_by_perm (x :: l)) as P. rewrite H in P.
  apply Permutation_nil in P. discriminate.
Qed.

Hypothesis ltb_asym : forall a b, ltb a b = true -> ltb b a = false.
Hypothesis ltb_negtrans :
  forall a b c, ltb b a = false -> ltb c b = false -> ltb c a = false.

Lemma insert_by_sorted x l :
  StronglySorted (PyList.in_order ltb key) l -> StronglySorted (PyList.in_order ltb key) (PyList.insert_by ltb key x l).
Proof using ltb_asym ltb_negtrans.
  induction 1 as [|y l Hs IH Hy]; simpl.
  - constructor; constructor.
  - destruct (ltb (key y) (key x)) eqn:E.
    + constructor; [exact IH|].
      eapply Permutation_Forall; [apply Permutation_sym, insert_by_perm|].
      constructor; [|exact Hy].
      unfold PyList.in_order. apply ltb_asym. exact E.
    + constructor; [constructor; assumption|].
      constructor; [exact E|].
      eapply List.Forall_impl; [|exact Hy].
      intros z Hz. unfold PyList.in_order in *. eapply ltb_negtrans; eassumption.
Qed.

Lemma sorted_by_sorted l : StronglySorted (PyList.in_order ltb key) (PyList.sorted_by ltb key l).
Proof using ltb_asym ltb_negtrans.
  induction l as [|x l IH]; simpl.
  - constructor.
  - apply insert_by_sorted, IH.
Qed.

End StableSortFacts.


(** ** The team registry *)

Section RegistryFacts.

Import TeamRegistry.

Lemma dict_get_in {V : Type} (k : string) (v : V) d :
  PyDict.get k d = Some v -> In (k, v) d.
Proof.
  induction d as [|[k' v'] d IH]; simpl; intros H.
  - discriminate.
  - destruct (String.eqb k' k) eqn:E.
    + apply String.eqb_eq in E. inversion H. subst. left. reflexivity.
    + right. apply IH, H.
Qed.

Lemma dict_set_filed (team : ResponseTeam.t) d :
  Forall (fun kv => ResponseTeam.name (snd kv) = fst kv) d ->
  Forall (fun kv => ResponseTeam.name (snd kv) = fst kv)
         (PyDict.set (ResponseTeam.name team) team d).
Proof.
  induction 1 as [|[k' v'] d Hk Hd IH]; simpl.
  - constructor; [reflexivity | constructor].
  - destruct (String.eqb k' (ResponseTeam.name team)) eqn:E.
    + apply String.eqb_eq in E. constructor; [simpl; congruence | exact Hd].
    + constructor; [exact Hk | exact IH].
Qed.

Lemma register_team_filed team self :
  filed_by_name self -> filed_by_name (register_team team self).
Proof. intros H. apply dict_set_filed, H. Qed.

Lemma update_team_filed n f self :
  (forall team, ResponseTeam.name (f team) = ResponseTeam.name team) ->
  filed_by_name self -> filed_by_name (update_team n f self).
Proof.
  intros Hf H. unfold update_team, get_team.
  destruct (PyDict.get n (teams self)) as [team|] eqn:E; [|exact H].
  unfold filed_by_name in *. simpl.
  apply dict_get_in in E.
  rewrite List.Forall_forall in H. pose proof (H _ E) as Hn. simpl in Hn.
  rewrite <- Hn, <- (Hf team).
  apply dict_set_filed. rewrite List.Forall_forall. exact H.
Qed.

Lemma assign_incident_name i team :
  ResponseTeam.name (ResponseTeam.assign_incident i team) = ResponseTeam.name team.
Proof.
  unfold ResponseTeam.assign_incident.
  destruct (PyStr.mem i (ResponseTeam.current_incidents team)); reflexivity.
Qed.

Lemma resolve_incident_name i team :
  ResponseTeam.name (ResponseTeam.resolve_incident i team) = ResponseTeam.name team.
Proof.
  unfold ResponseTeam.resolve_incident.
  destruct (PyStr.mem i (ResponseTeam.current_incidents team)); reflexivity.
Qed.

Lemma step_filed op self : filed_by_name self -> filed_by_name (step op self).
Proof.
  destruct op; simpl; intros H.
  - apply register_team_filed, H.
  - apply update_team_filed; [reflexivity | exact H].
  - apply update_team_filed; [apply assign_incident_name | exact H].
  - apply update_team_filed; [apply resolve_incident_name | exact H].
Qed.

Lemma step_keeps_team k op self :
  get_team self k <> None -> get_team (step op self) k <> None.
Proof.
  unfold get_team. destruct op; simpl; intros H;
    try (apply dict_set_keeps_key; exact H);
    unfold update_team, get_team;
    match goal with
    | |- context [PyDict.get ?n (teams self)] =>
        destruct (PyDict.get n (teams self)); simpl;
        [apply dict_set_keeps_key; exact H | exact H]
    end.
Qed.

Lemma reachable_filed self : reachable self -> filed_by_name self.
Proof.
  induction 1 as [|op self _ IH].
  - unfold filed_by_name. simpl. repeat constructor.
  - apply step_filed, IH.
Qed.

(** No operation removes a key, so the SRE entry seeded at construction
    is in every reachable registry. *)
Lemma reachable_has_sre self :
  reachable self ->
  exists sre, get_team self "SRE" = Some sre /\ ResponseTeam.name sre = "SRE"%string.
Proof.
  intros Hr.
  assert (Hsome : get_team self "SRE" <> None).
  { induction Hr as [|op self _ IH]; [discriminate | apply step_keeps_team, IH]. }
  destruct (get_team self "SRE") as [sre|] eqn:E; [|congruence].
  exists sre. split; [reflexivity|].
  pose proof (reachable_filed _ Hr) as Hf. unfold filed_by_name in Hf.
  rewrite List.Forall_forall in Hf.
  apply (Hf ("SRE"%string, sre)). apply dict_get_in. exact E.
Qed.

(** C8. On every registry reachable from construction (the four seeded
    teams, then any [register_team] calls and workload or availability
    changes), [find_best_team_for_incident] returns a team for every
    incident type and severity; when no available team is capable of the
    type, the team returned is the one filed under SRE. *)
Theorem find_best_team_never_absent :
  forall self, reachable self ->
  forall incident_type severity,
  exists team,
    find_best_team_for_incident self incident_type severity = Some team
    /\ (capable_teams self incident_type = [] ->
        get_team self "SRE" = Some team /\ ResponseTeam.name team = "SRE"%string).
Proof.
  intros self Hr incident_type severity.
  unfold find_best_team_for_incident.
  destruct (capable_teams self incident_type) as [|c rest] eqn:E.
  - destruct (reachable_has_sre _ Hr) as [sre [Hget Hname]].
    exists sre. rewrite Hget. auto.
  - destruct (PyList.sorted_by PyList.pair_ltb (team_sort_key incident_type) (c :: rest))
      as [|best others] eqn:S.
    + exfalso. eapply sorted_by_nonempty. exact S.
    + exists best. split; [reflexivity | discriminate].
Qed.

End RegistryFacts.

Lemma find_best_team_never_absent_witness :
  exists team,
    TeamRegistry.find_best_team_for_incident
      (TeamRegistry.step (TeamRegistry.OpSetAvailability "SRE" BUSY) TeamRegistry.init)
      "authentication" "medium" = Some team
    /\ (TeamRegistry.capable_teams
          (TeamRegistry.step (TeamRegistry.OpSetAvailability "SRE" BUSY) TeamRegistry.init)
          "authentication" = [] ->
        TeamRegistry.get_team
          (TeamRegistry.step (TeamRegistry.OpSetAvailability "SRE" BUSY) TeamRegistry.init)
          "SRE" = Some team
        /\ ResponseTeam.name team = "SRE"%string).
Proof.
  apply (find_best_team_never_absent
           (TeamRegistry.step (TeamRegistry.OpSetAvailability "SRE" BUSY) TeamRegistry.init)).
  apply TeamRegistry.reachable_step, TeamRegistry.reachable_init.
Defined.

Lemma registry_sre_at_cap_reachable : TeamRegistry.reachable registry_sre_at_cap.
Proof.
  unfold registry_sre_at_cap. cbn [fold_left].
  do 5 apply TeamRegistry.reachable_step. apply TeamRegistry.reachable_init.
Qed.

(** C10. The SRE fallback of [find_best_team_for_incident] does not look
    at availability: whenever no available team is capable of the type,
    the team filed under SRE is returned, also when that team is
    unavailable or already holds five incidents; and the fallback fires
    as well when a capable team exists but is not available. *)
Theorem sre_fallback_ignores_availability :
  (forall self incident_type severity,
      TeamRegistry.reachable self ->
      TeamRegistry.capable_teams self incident_type = [] ->
      exists sre,
        TeamRegistry.get_team self "SRE" = Some sre
        /\ TeamRegistry.find_best_team_for_incident self incident_type severity = Some sre)
  /\ (exists sre,
         TeamRegistry.reachable registry_sre_unavailable
         /\ TeamRegistry.find_best_team_for_incident
              registry_sre_unavailable "unknown" "medium" = Some sre
         /\ ResponseTeam.name sre = "SRE"%string
         /\ ResponseTeam.availability sre = UNAVAILABLE
         /\ ResponseTeam.is_available_for_new_incidents sre = false)
  /\ (exists sre,
         TeamRegistry.reachable registry_sre_at_cap
         /\ TeamRegistry.find_best_team_for_incident
              registry_sre_at_cap "unknown" "medium" = Some sre
         /\ ResponseTeam.name sre = "SRE"%string
         /\ length (ResponseTeam.current_incidents sre) = 5%nat
         /\ ResponseTeam.is_available_for_new_incidents sre = false)
  /\ (exists backend sre,
         TeamRegistry.reachable registry_backend_unavailable
         /\ TeamRegistry.get_team registry_backend_unavailable "Backend" = Some backend
         /\ ResponseTeam.can_handle_incident_type backend "api" = true
         /\ ResponseTeam.can_handle_incident_type sre "api" = false
         /\ TeamRegistry.find_best_team_for_incident
              registry_backend_unavailable "api" "medium" = Some sre
         /\ ResponseTeam.name sre = "SRE"%string).
Proof.
  split; [|split; [|split]].
  - intros self incident_type severity Hr Hnone.
    destruct (reachable_has_sre self Hr) as [sre [Hget _]].
    exists sre. split; [exact Hget|].
    unfold TeamRegistry.find_best_team_for_incident. rewrite Hnone. exact Hget.
  - eexists. split.
    + apply TeamRegistry.reachable_step, TeamRegistry.reachable_init.
    + repeat split; reflexivity.
  - eexists. split.
    + apply registry_sre_at_cap_reachable.
    + repeat split; reflexivity.
  - eexists. eexists. split.
    + apply TeamRegistry.reachable_step, TeamRegistry.reachable_init.
    + repeat split; reflexivity.
Qed.

(** ** The fallback classifier against its documented rule *)

Lemma indicator_hit_existsb indicators :
  TriageRouter.indicator_hit indicators =
  existsb (fun indicator =>
             PyStr.any_in TriageRouter.security_keywords (PyStr.lower indicator))
          indicators.
Proof.
  induction indicators as [|i rest IH]; simpl; [reflexivity|].
  rewrite IH.
  destruct (PyStr.any_in TriageRouter.security_keywords (PyStr.lower i)); reflexivity.
Qed.

Lemma system_hit_existsb systems :
  TriageRouter.system_hit systems =
  existsb (fun system =>
             PyStr.any_in TriageRouter.security_systems (PyStr.lower system))
          systems.
Proof.
  induction systems as [|s rest IH]; simpl; [reflexivity|].
  rewrite IH.
  destruct (PyStr.any_in TriageRouter.security_systems (PyStr.lower s)); reflexivity.
Qed.

Lemma detect_security_indicators_rule r :
  TriageRouter._detect_security_indicators r = FallbackRule.security_detected r.
Proof.
  unfold TriageRouter._detect_security_indicators, FallbackRule.security_detected.
  rewrite indicator_hit_existsb, system_hit_existsb.
  change (FallbackRule.text r) with (TriageRouter.text_to_check r).
  change FallbackRule.security_words with TriageRouter.security_keywords.
  change FallbackRule.security_system_words with TriageRouter.security_systems.
  destruct (PyStr.any_in TriageRouter.security_keywords (TriageRouter.text_to_check r));
    [reflexivity|].
  destruct (existsb _ (IncidentReport.severity_indicators r)); [reflexivity|].
  destruct (existsb _ (IncidentReport.affected_systems r)); reflexivity.
Qed.

(** C4. For every incident report the fallback classifier computes the
    documented rule: critical when security indicators are detected (in
    title and description, in a severity indicator, or in an affected
    system name, against the documented word lists) or the text contains
    a critical keyword; else high when more than three systems are
    affected or the text contains a high keyword; else medium when more
    than one system is affected; else low. *)
Theorem fallback_severity_follows_rule :
  forall r : IncidentReport.t,
    TriageRouter._fallback_severity_classification r = FallbackRule.severity r.
Proof.
  intros r.
  unfold TriageRouter._fallback_severity_classification, FallbackRule.severity.
  rewrite detect_security_indicators_rule.
  change (FallbackRule.text r) with (TriageRouter.text_to_check r).
  change FallbackRule.critical_words with TriageRouter.critical_keywords.
  change FallbackRule.high_words with TriageRouter.high_keywords.
  unfold FallbackRule.systems.
  destruct (FallbackRule.security_detected r); [reflexivity|].
  destruct (PyStr.any_in TriageRouter.critical_keywords (TriageRouter.text_to_check r));
    [reflexivity|].
  simpl.
  destruct (3 <? Z.of_nat (length (IncidentReport.affected_systems r))); [reflexivity|].
  simpl.
  destruct (PyStr.any_in TriageRouter.high_keywords (TriageRouter.text_to_check r));
    reflexivity.
Qed.

(** ** Historical enrichment leaves the classification alone *)

Lemma append_empty_r (s : string) : (s ++ "")%string = s.
Proof.
  induction s as [|c s IH]; [reflexivity|].
  change (String c (s ++ "")%string = String c s). f_equal. exact IH.
Qed.

Lemma severity_of_string_value s : Severity.of_string (Severity.value s) = Some s.
Proof. destruct s; reflexivity. Qed.

(** C5. For every report, every initial classification and every
    historical data set (and whatever scores the similarity arithmetic
    yields), [apply_historical_patterns_to_severity_assessment] returns a
    classification with the severity of its input; the security flag and
    the affected systems are kept as well, and the reasoning text is the
    old text with a possibly empty suffix appended. *)
Theorem historical_patterns_keep_severity :
  forall score_and_rank now (router : TriageRouter.t)
         (incident_report : IncidentReport.t)
         (initial : SeverityClassificationSchema.t),
  exists enhanced suffix,
    TriageRouter.apply_historical_patterns_to_severity_assessment
      score_and_rank now router incident_report initial = Ok enhanced
    /\ SeverityClassificationSchema.severity enhanced
       = SeverityClassificationSchema.severity initial
    /\ SeverityClassificationSchema.security_incident enhanced
       = SeverityClassificationSchema.security_incident initial
    /\ SeverityClassificationSchema.affected_systems enhanced
       = SeverityClassificationSchema.affected_systems initial
    /\ SeverityClassificationSchema.reasoning enhanced
       = (SeverityClassificationSchema.reasoning initial ++ suffix)%string.
Proof.
  intros score_and_rank now router incident_report initial.
  unfold TriageRouter.apply_historical_patterns_to_severity_assessment.
  unfold Incident.set_severity. rewrite severity_of_string_value. cbn [bind].
  match goal with
  | |- context [TriageRouter.find_similar_incidents ?s ?r ?i] =>
      destruct (TriageRouter.find_similar_incidents s r i) as [|top rest]
  end.
  - exists initial, EmptyString. repeat split.
    symmetry. apply append_empty_r.
  - eexists. eexists. repeat split.
Qed.

(** The advisory note is written and the severity stays low. *)
Example advisory_note_leaves_severity :
  exists enhanced,
    TriageRouter.apply_historical_patterns_to_severity_assessment
      half_similar 0 (TriageRouter.mk (fun _ => Raise (TypeError "no model")) [past_outage])
      sample_report rated_low = Ok enhanced
    /\ SeverityClassificationSchema.severity enhanced = LOW
    /\ PyStr.contains "- Historical patterns suggest higher severity"
                      (SeverityClassificationSchema.reasoning enhanced) = true
    /\ PyStr.contains "Found 1 similar historical incidents (top match: 0.50 similarity)"
                      (SeverityClassificationSchema.reasoning enhanced) = true.
Proof. eexists. repeat split; vm_compute; reflexivity. Qed.

(** ** Prioritisation by the composite score *)

Section Prioritisation.

Import TriageRouter.










End Prioritisation.





(** ** The notification rule *)

Lemma should_notify_is_verdict notifier incident_data message_type :
  BaseNotifier.should_notify notifier incident_data message_type
  = NotifyRule.verdict notifier incident_data message_type.
Proof.
  unfold BaseNotifier.should_notify, NotifyRule.verdict, NotifyRule.first_match,
    NotifyRule.disabled, NotifyRule.is_security, NotifyRule.severity_of.
  repeat match goal with
         | |- context [if ?c then _ else _] => destruct c; try reflexivity
         end.
Qed.

(** C7. [should_notify] evaluates the documented rule in its order
    (disabled, critical, security, escalated, high, created with medium
    or low, else false). Hence it is false for a disabled notifier
    whatever the incident data and message type, and for an enabled
    notifier it is true whenever the data have severity critical or a
    true [is_security_incident] flag. *)
Theorem should_notify_rule :
  forall (notifier : BaseNotifier.t) (incident_data : gmap string PyVal)
         (message_type : string),
    BaseNotifier.should_notify notifier incident_data message_type
    = NotifyRule.verdict notifier incident_data message_type
    /\ (PyVal.truthy (BaseNotifier.is_enabled notifier) = false ->
        BaseNotifier.should_notify notifier incident_data message_type = false)
    /\ (PyVal.truthy (BaseNotifier.is_enabled notifier) = true ->
        incident_data !! "severity"%string = Some (VStr "critical")
        \/ incident_data !! "is_security_incident"%string = Some (VBool true) ->
        BaseNotifier.should_notify notifier incident_data message_type = true).
Proof.
  intros notifier incident_data message_type.
  split; [apply should_notify_is_verdict|].
  unfold BaseNotifier.should_notify. split.
  - intros ->. reflexivity.
  - intros -> [H|H]; rewrite H; simpl; [reflexivity|].
    destruct (PyVal.eq_str _ _); reflexivity.
Qed.

Lemma should_notify_rule_witness :
  BaseNotifier.should_notify (slack_like_notifier false) critical_incident_data "created" = false
  /\ BaseNotifier.should_notify (slack_like_notifier true) critical_incident_data "updated" = true.
Proof.
  split.
  - apply (should_notify_rule (slack_like_notifier false) critical_incident_data "created").
    reflexivity.
  - apply (should_notify_rule (slack_like_notifier true) critical_incident_data "updated").
    + reflexivity.
    + left. reflexivity.
Defined.

(** ** The tool store *)

Section ToolStore.

Import IncidentTools.

Lemma apply_update_effect ts a r :
  let r' := fst (apply_update ts a r) in
  incident_id r' = incident_id r
  /\ suggested_actions r' = suggested_actions r
  /\ severity r' = default (severity r) (arg_severity a)
  /\ assigned_teams r' = default (assigned_teams r) (arg_assigned_teams a)
  /\ exists extra,
       timeline r' = timeline r ++ extra
       /\ (forall teams, arg_assigned_teams a = Some teams ->
           exists e, In e extra /\ ev_event e = "teams_assigned"%string).
Proof.
  destruct a as [s1 s2 [t3|] s4 s5].
  - destruct s1, s2, s4, s5; simpl;
      repeat (split; [reflexivity|]);
      rewrite <- ?app_assoc; simpl;
      (eexists; split; [reflexivity|]);
      intros teams _;
      exists (mkEvent ts "teams_assigned"
                ("Teams assigned: " ++ PyStr.join ", " t3)%string (ExtraTeams t3));
      (split; [simpl; tauto | reflexivity]).
  - destruct s1, s2, s4, s5; simpl;
      repeat (split; [reflexivity|]);
      rewrite <- ?app_assoc; simpl;
      (eexists; split; [try reflexivity; symmetry; apply app_nil_r|]);
      intros teams Ht; discriminate.
Qed.

Lemma starts_with_created_app tl extra :
  starts_with_created tl -> starts_with_created (tl ++ extra).
Proof.
  intros [e [rest [-> He]]]. exists e, (rest ++ extra). split; [reflexivity | exact He].
Qed.

Lemma teams_recorded_app tl extra :
  teams_recorded tl -> teams_recorded (tl ++ extra).
Proof.
  intros [e [Hin He]]. exists e. split; [apply in_or_app; left; exact Hin | exact He].
Qed.

Lemma apply_update_well_kept ts a id r :
  well_kept id r -> well_kept id (fst (apply_update ts a r)).
Proof.
  intros [Hid [Hact [Hstart Hteams]]].
  destruct (apply_update_effect ts a r) as [Eid [Eact [_ [Eteams [extra [Etl Hev]]]]]].
  unfold well_kept. rewrite Eid, Eact, Etl, Eteams.
  split; [exact Hid|]. split; [exact Hact|].
  split; [apply starts_with_created_app, Hstart|].
  destruct (arg_assigned_teams a) as [teams|] eqn:E; simpl.
  - intros _. destruct (Hev teams eq_refl) as [e [Hin He]].
    exists e. split; [apply in_or_app; right; exact Hin | exact He].
  - intros Hne. apply teams_recorded_app, Hteams, Hne.
Qed.

Lemma step_well_kept op (store : gmap string IncidentRecord) :
  map_Forall well_kept store -> map_Forall well_kept (step op store).
Proof.
  intros H. destruct op as [new_id ts ti de se sys rep src | ts id a |]; simpl.
  - apply map_Forall_insert_2; [|exact H].
    repeat split; simpl; try reflexivity.
    + eexists. eexists. split; reflexivity.
    + intros Hne. congruence.
  - unfold update_incident_tool.
    destruct (store !! id) as [r|] eqn:E; simpl; [|exact H].
    destruct (apply_update ts a r) as [r' changes] eqn:U. simpl.
    apply map_Forall_insert_2; [|exact H].
    change r' with (fst (r', changes)). rewrite <- U.
    apply apply_update_well_kept. eapply map_Forall_lookup_1; eassumption.
  - apply map_Forall_empty.
Qed.

Lemma step_in_enum op (store : gmap string IncidentRecord) :
  Forall (fun s => in_enum s = true) (op_severities op) ->
  map_Forall (fun _ r => in_enum (severity r) = true) store ->
  map_Forall (fun _ r => in_enum (severity r) = true) (step op store).
Proof.
  intros Hop H. destruct op as [new_id ts ti de se sys rep src | ts id a |]; simpl.
  - apply map_Forall_insert_2; [|exact H]. simpl. inversion Hop. assumption.
  - unfold update_incident_tool.
    destruct (store !! id) as [r|] eqn:E; simpl; [|exact H].
    destruct (apply_update ts a r) as [r' changes] eqn:U. simpl.
    apply map_Forall_insert_2; [|exact H].
    destruct (apply_update_effect ts a r) as [_ [_ [Esev _]]].
    rewrite U in Esev. simpl in Esev. rewrite Esev.
    simpl in Hop. destruct (arg_severity a) as [s|]; simpl.
    + inversion Hop. assumption.
    + eapply (map_Forall_lookup_1 _ _ _ _ H E).
  - apply map_Forall_empty.
Qed.

End ToolStore.

(** C3, as stated, fails: the record [create_incident_tool] stores has no
    assigned team and no suggested action, and an update stores any
    severity text and any team list, the empty one included. *)
Lemma created_record_not_triaged :
  (exists r,
      IncidentTools.replay [disk_full_created] !! "INC-20240101-0a1b2c3d"%string = Some r
      /\ IncidentTools.assigned_teams r = []
      /\ IncidentTools.suggested_actions r = []
      /\ ~ fully_triaged r)
  /\ (exists r,
         IncidentTools.replay [disk_full_created; disk_full_relabelled]
           !! "INC-20240101-0a1b2c3d"%string = Some r
         /\ IncidentTools.assigned_teams r = []
         /\ IncidentTools.severity r = "sev1"%string
         /\ in_enum (IncidentTools.severity r) = false)
  /\ ~ map_Forall (fun _ r => fully_triaged r) (IncidentTools.replay [disk_full_created]).
Proof.
  split; [|split].
  - eexists. split; [reflexivity|]. repeat split.
    intros [H _]. apply H. reflexivity.
  - eexists. split; [reflexivity|]. repeat split.
  - intros H.
    eapply (map_Forall_lookup_1 _ _ "INC-20240101-0a1b2c3d"%string) in H; [|reflexivity].
    destruct H as [H _]. apply H. reflexivity.
Qed.

(** C3, amended. In every state of the tool store reachable by its
    create, update and clear operations, each record is filed under its
    own incident id, has an empty [suggested_actions] list (no store
    operation writes it), has a timeline that begins with the
    incident_created entry, and has an empty [assigned_teams] list unless
    a teams_assigned entry is in its timeline (the store applies no SRE
    fallback); its severity is the text last supplied by a caller, hence
    in the four-value enum whenever every create and update call supplied
    one from the enum. *)
Theorem tool_store_keeps_records :
  forall ops : list IncidentTools.Op,
    map_Forall well_kept (IncidentTools.replay ops)
    /\ (Forall (fun op => Forall (fun s => in_enum s = true) (IncidentTools.op_severities op))
               ops ->
        map_Forall (fun _ r => in_enum (IncidentTools.severity r) = true)
                   (IncidentTools.replay ops)).
Proof.
  intros ops. unfold IncidentTools.replay.
  assert (G : forall store,
             map_Forall well_kept store ->
             map_Forall well_kept (IncidentTools.replay_from store ops)
             /\ (Forall (fun op => Forall (fun s => in_enum s = true)
                                          (IncidentTools.op_severities op)) ops ->
                 map_Forall (fun _ r => in_enum (IncidentTools.severity r) = true) store ->
                 map_Forall (fun _ r => in_enum (IncidentTools.severity r) = true)
                            (IncidentTools.replay_from store ops))).
  { induction ops as [|op ops IH]; intros store Hk; simpl.
    - split; [exact Hk | intros _ H; exact H].
    - destruct (IH (IncidentTools.step op store) (step_well_kept op store Hk)) as [IH1 IH2].
      split; [exact IH1|].
      intros Hops Hs. inversion Hops; subst.
      apply IH2; [assumption|]. apply step_in_enum; assumption. }
  destruct (G ∅ (map_Forall_empty _)) as [G1 G2].
  split; [exact G1|].
  intros Hops. apply G2; [exact Hops | apply map_Forall_empty].
Qed.

Lemma tool_store_keeps_records_witness :
  map_Forall (fun _ r => in_enum (IncidentTools.severity r) = true)
             (IncidentTools.replay [disk_full_created; disk_full_routed]).
Proof.
  apply (tool_store_keeps_records [disk_full_created; disk_full_routed]).
  repeat constructor.
Defined.

(** ** Metric status and the rounded value *)

Section MetricStatus.

Import DiagnosticTools.


End MetricStatus.


(** Without rounding errors the tool over [FloatMetrics.exact] is the
    tool of [DiagnosticTools]. *)
Lemma exact_arithmetic_agrees draw system metric_type time_range aggregation :
  FloatMetrics.query_metrics_tool FloatMetrics.exact draw system metric_type time_range
    aggregation
  = DiagnosticTools.query_metrics_tool draw system metric_type time_range aggregation.
Proof. reflexivity. Qed.




(** ** The end-to-end scenario *)

Section Scenario.

Import IncidentAgent.

Lemma parse_scenario clk :
  Utils.parse_incident_data clk database_outage_report = Ok (scenario_report clk).
Proof. reflexivity. Qed.

Lemma triage_goto w s : goto (fst (triage_incident w s)) = "route_to_team".
Proof.
  unfold triage_incident.
  match goal with
  | |- context [match ?a with Ok _ => _ | Raise _ => _ end] => destruct a as [[c i]|e]
  end; reflexivity.
Qed.

Lemma route_goto w s : goto (fst (route_to_team w s)) = "coordinate_response".
Proof. reflexivity. Qed.

Lemma coordinate_goto w s : goto (fst (coordinate_response w s)) = "__end__".
Proof.
  unfold coordinate_response.
  match goal with
  | |- context [match ?a with Ok _ => _ | Raise _ => _ end] => destruct a as [[x y]|e]
  end; reflexivity.
Qed.

Lemma invoke_stages w d :
  invoke w d =
  let s0 := initial_state d in
  let t := triage_incident w s0 in
  let s1 := commit w s0 (snd t) (update (fst t)) in
  let r := route_to_team w s1 in
  let s2 := commit w s1 (snd r) (update (fst r)) in
  let c := coordinate_response w s2 in
  commit w s2 (snd c) (update (fst c)).
Proof.
  unfold invoke. cbn [run].
  change (node "triage_incident") with (Some triage_incident). cbv beta iota zeta.
  pose proof (triage_goto w (initial_state d)) as Ht.
  destruct (triage_incident w (initial_state d)) as [c1 l1].
  cbn [fst snd] in *. rewrite Ht.
  change (node "route_to_team") with (Some route_to_team). cbv beta iota zeta.
  pose proof (route_goto w (commit w (initial_state d) l1 (update c1))) as Hr.
  destruct (route_to_team w (commit w (initial_state d) l1 (update c1))) as [c2 l2].
  cbn [fst snd] in *. rewrite Hr.
  change (node "coordinate_response") with (Some coordinate_response). cbv beta iota zeta.
  match goal with
  | |- context [coordinate_response w ?s2] =>
      pose proof (coordinate_goto w s2) as Hc;
      destruct (coordinate_response w s2) as [c3 l3]
  end.
  cbn [fst snd] in *. rewrite Hc. reflexivity.
Qed.

Lemma triage_of_scenario w :
  triaged_scenario
    (commit w (initial_state database_outage_report)
       (snd (triage_incident w (initial_state database_outage_report)))
       (update (fst (triage_incident w (initial_state database_outage_report))))).
Proof.
  unfold triage_incident.
  cbn [incident_input initial_state]. rewrite parse_scenario. cbn [bind].
  unfold unpack_report. cbn [bind fst snd update].
  unfold triaged_scenario, commit. cbn.
  split; [reflexivity|]. split; [eexists; reflexivity|].
  destruct (runtime_keeps_private_keys w); exact I.
Qed.

Lemma route_of_scenario w s :
  triaged_scenario s ->
  triaged_scenario (commit w s (snd (route_to_team w s)) (update (fst (route_to_team w s))))
  /\ severity_classification
       (commit w s (snd (route_to_team w s)) (update (fst (route_to_team w s))))
     = severity_classification s
  /\ escalation_needed
       (commit w s (snd (route_to_team w s)) (update (fst (route_to_team w s))))
     = escalation_needed s
  /\ exists teams,
       team_assignment
         (commit w s (snd (route_to_team w s)) (update (fst (route_to_team w s))))
       = Some teams
       /\ In "Backend" teams.
Proof.
  intros [Hin [[sev Hsev] Hsys]].
  unfold route_to_team. cbn [fst snd update].
  split; [|split; [|split]].
  - unfold triaged_scenario, commit. cbn.
    split; [exact Hin|]. split; [exists sev; exact Hsev|].
    destruct (runtime_keeps_private_keys w); exact Hsys.
  - reflexivity.
  - reflexivity.
  - eexists. split; [unfold commit; cbn; reflexivity|].
    rewrite Hsev, Hin.
    destruct (_incident s) as [incident|]; [rewrite Hsys|];
      destruct (_classification s) as [c|];
      try destruct (SeverityClassificationSchema.security_incident c);
      try destruct (SeverityClassificationSchema.severity c);
      vm_compute;
      try match goal with
          | |- context [if ?b then _ else _] => destruct b
          end;
      tauto.
Qed.

Lemma scenario_is_critical_input sev :
  is_critical_input sev database_outage_report = true.
Proof.
  unfold is_critical_input.
  destruct (String.eqb sev "critical"); reflexivity.
Qed.

Lemma coordinate_of_scenario w s teams :
  triaged_scenario s ->
  team_assignment s = Some teams ->
  let s' := commit w s (snd (coordinate_response w s))
                   (update (fst (coordinate_response w s))) in
  team_assignment s' = Some teams
  /\ severity_classification s' = severity_classification s
  /\ escalation_needed s' = escalation_needed s
  /\ resolution_status s' = Some "in_progress"%string
  /\ exists actions,
       suggested_actions s' = Some actions
       /\ urgent_count actions = 3%nat
       /\ urgent_count_nocase actions = 3%nat
       /\ (8 <= length actions)%nat
       /\ incl urgent_actions actions.
Proof.
  intros [Hin [[sev Hsev] Hsys]] Hteams.
  unfold coordinate_response.
  rewrite Hteams, Hsev, Hin. cbn [bind]. rewrite scenario_is_critical_input.
  cbn [fst snd update]. unfold commit. cbn.
  rewrite Hteams, Hsev.
  repeat (split; [reflexivity|]).
  eexists. split; [reflexivity|].
  split; [|split; [|split]].
  - destruct (_incident s) as [incident|]; [rewrite Hsys|];
      destruct (is_security (_classification s)); reflexivity.
  - destruct (_incident s) as [incident|]; [rewrite Hsys|];
      destruct (is_security (_classification s)); reflexivity.
  - destruct (_incident s) as [incident|]; [rewrite Hsys|];
      destruct (is_security (_classification s)); simpl; lia.
  - intros a Ha. unfold urgent_actions in Ha. simpl in Ha |- *. tauto.
Qed.

Lemma scenario_response w :
  In "Backend" (r_assigned_teams (process_incident w database_outage_report))
  /\ urgent_count (r_suggested_actions (process_incident w database_outage_report)) = 3%nat
  /\ urgent_count_nocase (r_suggested_actions (process_incident w database_outage_report))
     = 3%nat
  /\ (8 <= length (r_suggested_actions (process_incident w database_outage_report)))%nat
  /\ incl urgent_actions (r_suggested_actions (process_incident w database_outage_report))
  /\ r_status (process_incident w database_outage_report) = "in_progress"%string
  /\ r_severity (process_incident w database_outage_report)
     = severity_classification (scenario_after_triage w)
  /\ r_escalation_needed (process_incident w database_outage_report)
     = default false (escalation_needed (scenario_after_triage w)).
Proof.
  unfold process_incident. rewrite invoke_stages. cbv zeta.
  fold (scenario_after_triage w).
  pose proof (triage_of_scenario w) as H1. fold (scenario_after_triage w) in H1.
  destruct (route_of_scenario w _ H1) as [H2 [Hsev2 [Hesc2 [teams [Hteams Hback]]]]].
  destruct (coordinate_of_scenario w _ teams H2 Hteams)
    as [Ht3 [Hsev3 [Hesc3 [Hst3 [actions [Hact [Hcount [Hnocase [Hlen Hincl]]]]]]]]].
  cbv zeta in Ht3, Hsev3, Hesc3, Hst3, Hact.
  rewrite Ht3, Hact, Hst3, Hsev3, Hesc3, Hsev2, Hesc2. cbn [default].
  repeat split; assumption.
Qed.

(** The unpacking of the parsed report raises, so the stage takes its
    handler: medium, escalated. *)
Lemma triage_scenario_degraded w :
  severity_classification (scenario_after_triage w) = Some "medium"%string
  /\ escalation_needed (scenario_after_triage w) = Some true.
Proof.
  unfold scenario_after_triage, triage_incident.
  cbn [incident_input initial_state]. rewrite parse_scenario. cbn [bind].
  unfold unpack_report. cbn [bind]. split; reflexivity.
Qed.

(** The handler's values carried to the answer. *)
Lemma scenario_degraded_response w :
  r_severity (process_incident w database_outage_report) = Some "medium"%string
  /\ r_escalation_needed (process_incident w database_outage_report) = true.
Proof.
  destruct (scenario_response w) as [_ [_ [_ [_ [_ [_ [Hsev Hesc]]]]]]].
  destruct (triage_scenario_degraded w) as [H1 H2].
  rewrite Hsev, Hesc, H1, H2. split; reflexivity.
Qed.

End Scenario.

(** C1, as stated, fails: whatever the language model answers and
    whatever the runtime hands on, the scenario yields exactly three
    suggested actions that match one of the three markers (of the four
    urgent actions, the one about impact assessment matches none), so
    never four. *)
Lemma scenario_has_three_urgent_texts :
  ~ exists w : IncidentAgent.World,
      IncidentAgent.scenario_outcome
        (IncidentAgent.process_incident w IncidentAgent.database_outage_report).
Proof.
  intros [w [_ [_ [_ H]]]].
  destruct (scenario_response w) as [_ [Hcount _]].
  rewrite Hcount in H. lia.
Qed.

(** C1, amended. Submitting the literal incident to [process_incident]
    yields a result in progress whose [assigned_teams] contain Backend and
    whose [suggested_actions] hold at least eight entries, the four urgent
    actions among them, exactly three entries matching one of immediately,
    war room, Activate (with or without regard to letter case). Nothing
    is said of the severity and of [escalation_needed]: they come from
    the handler of the triage stage, which every run enters
    ([unpack_report]). *)
Theorem scenario_through_pipeline :
  forall w : IncidentAgent.World,
    In "Backend"%string
       (IncidentAgent.r_assigned_teams
          (IncidentAgent.process_incident w IncidentAgent.database_outage_report))
    /\ IncidentAgent.urgent_count
         (IncidentAgent.r_suggested_actions
            (IncidentAgent.process_incident w IncidentAgent.database_outage_report))
       = 3%nat
    /\ IncidentAgent.urgent_count_nocase
         (IncidentAgent.r_suggested_actions
            (IncidentAgent.process_incident w IncidentAgent.database_outage_report))
       = 3%nat
    /\ (8 <= length
               (IncidentAgent.r_suggested_actions
                  (IncidentAgent.process_incident w IncidentAgent.database_outage_report)))%nat
    /\ incl IncidentAgent.urgent_actions
            (IncidentAgent.r_suggested_actions
               (IncidentAgent.process_incident w IncidentAgent.database_outage_report))
    /\ IncidentAgent.r_status
         (IncidentAgent.process_incident w IncidentAgent.database_outage_report)
       = "in_progress"%string.
Proof.
  intros w.
  destruct (scenario_response w)
    as [Hback [Hcount [Hnocase [Hlen [Hincl [Hstatus _]]]]]].
  repeat (split; [assumption|]). assumption.
Qed.

(** * Further properties of the code *)

(** ** The priority score *)

(** X1. [calculate_incident_priority_score] is at least 1; the security
    flag exactly doubles it; a system count below 1 counts as 1; a
    severity text outside the four levels is scored as low; the score
    never decreases when systems are added; and for a fixed count and flag
    it grows strictly from low to medium to high to critical. *)
Theorem priority_score_shape (severity : string) (n m : Z) (security : bool) :
  1 <= calculate_incident_priority_score severity n security
  /\ calculate_incident_priority_score severity n true
     = 2 * calculate_incident_priority_score severity n false
  /\ calculate_incident_priority_score severity n security
     = calculate_incident_priority_score severity (Z.max 1 n) security
  /\ calculate_incident_priority_score severity n security
     = calculate_incident_priority_score (scored_as severity) n security
  /\ calculate_incident_priority_score severity n security
     <= calculate_incident_priority_score severity (Z.max n m) security
  /\ calculate_incident_priority_score "low" n security
     < calculate_incident_priority_score "medium" n security
     < calculate_incident_priority_score "high" n security
  /\ calculate_incident_priority_score "high" n security
     < calculate_incident_priority_score "critical" n security.
Proof.
  unfold calculate_incident_priority_score, scored_as, Severity.of_string.
  assert (Hbase : forall s : string,
             1 <= (if String.eqb s "critical" then 1000
                   else if String.eqb s "high" then 100
                   else if String.eqb s "medium" then 10
                   else if String.eqb s "low" then 1 else 1)).
  { intros s. repeat match goal with |- context [if ?b then _ else _] => destruct b end; lia. }
  pose proof (Hbase severity) as Hb.
  set (base := if String.eqb severity "critical" then 1000
               else if String.eqb severity "high" then 100
               else if String.eqb severity "medium" then 10
               else if String.eqb severity "low" then 1 else 1) in *.
  repeat split.
  - destruct security; nia.
  - lia.
  - rewrite Z.max_assoc, Z.max_id. reflexivity.
  - subst base.
    destruct (String.eqb severity "critical") eqn:E1; [reflexivity|].
    destruct (String.eqb severity "high") eqn:E2; [reflexivity|].
    destruct (String.eqb severity "medium") eqn:E3; [reflexivity|].
    destruct (String.eqb severity "low") eqn:E4; reflexivity.
  - destruct security; nia.
  - simpl. destruct security; lia.
  - simpl. destruct security; lia.
  - simpl. destruct security; lia.
Qed.

(** ** Parsing the raw incident *)

(** X2. A raw dict that spells out every field of a report (lists as
    lists, the timestamp as a datetime, a non-empty id, a source among the
    four literals) parses back to that report, whatever the clock and the
    id generator would have given. *)
Theorem parse_incident_data_round_trip (clk : Utils.Clock) (r : IncidentReport.t) :
  IncidentReport.valid_source (IncidentReport.source r) = true ->
  IncidentReport.id r <> "" ->
  Utils.parse_incident_data clk (raw_of_report r) = Ok r.
Proof.
  intros Hsrc Hid. destruct r as [id ti de so ts re sy el md si].
  unfold Utils.parse_incident_data, raw_of_report. cbn in *.
  rewrite Hsrc. destruct id as [|c id]; [contradiction|]. reflexivity.
Qed.

Lemma parse_incident_data_round_trip_witness :
  Utils.parse_incident_data (Utils.mkClock 7 "INC-0A1B2C3D" (fun _ => None))
    (raw_of_report sample_report) = Ok sample_report.
Proof.
  apply (parse_incident_data_round_trip
           (Utils.mkClock 7 "INC-0A1B2C3D" (fun _ => None)) sample_report).
  - reflexivity.
  - discriminate.
Defined.


Section CommaLists.

Import PyText.

Lemma split_length s : length (split Utils.comma s) = S (count_commas s).
Proof.
  induction s as [|c s IH]; simpl; [reflexivity|].
  destruct (Ascii.eqb c Utils.comma); simpl.
  - rewrite IH. reflexivity.
  - destruct (split Utils.comma s) eqn:E; simpl in *; [discriminate|exact IH].
Qed.

Lemma split_parts_without_separator sep s :
  Forall (fun part => mentions sep part = false) (split sep s).
Proof.
  induction s as [|c s IH]; simpl.
  - constructor; [reflexivity|constructor].
  - destruct (Ascii.eqb c sep) eqn:E.
    + constructor; [reflexivity|exact IH].
    + destruct (split sep s) as [|h t]; inversion IH; subst.
      * constructor; [simpl; rewrite E; reflexivity|constructor].
      * constructor; [simpl; rewrite E; assumption|assumption].
Qed.

Lemma lstrip_mentions c s : mentions c s = false -> mentions c (lstrip s) = false.
Proof.
  induction s as [|a s IH]; simpl; [trivial|].
  intros H. apply orb_false_iff in H as [Ha Hs].
  destruct (is_space a); [apply IH, Hs|]. simpl. rewrite Ha, Hs. reflexivity.
Qed.

Lemma rstrip_mentions c s : mentions c s = false -> mentions c (rstrip s) = false.
Proof.
  induction s as [|a s IH]; simpl; [trivial|].
  intros H. apply orb_false_iff in H as [Ha Hs]. specialize (IH Hs).
  destruct (rstrip s) as [|b r].
  - destruct (is_space a); simpl; [reflexivity|]. rewrite Ha. reflexivity.
  - simpl in *. rewrite Ha. exact IH.
Qed.

Lemma is_space_white c : is_space c = is_white c.
Proof. destruct c as [[] [] [] [] [] [] [] []]; reflexivity. Qed.

Lemma lstrip_starts_clean s : starts_clean (lstrip s).
Proof.
  induction s as [|a s IH]; cbn [lstrip]; [exact I|].
  destruct (is_space a) eqn:E; [exact IH|]. cbn [starts_clean].
  rewrite <- is_space_white. exact E.
Qed.

Lemma rstrip_starts_clean s : starts_clean s -> starts_clean (rstrip s).
Proof.
  destruct s as [|a s]; cbn [rstrip starts_clean]; [trivial|]. intros Ha.
  destruct (rstrip s); [rewrite is_space_white, Ha|]; cbn [starts_clean]; exact Ha.
Qed.

Lemma rstrip_ends_clean s : ends_clean (rstrip s).
Proof.
  unfold ends_clean. induction s as [|a s IH]; [exact I|].
  cbn [rstrip]. destruct (rstrip s) as [|b r].
  - destruct (is_space a) eqn:E; [exact I|]. cbn [last_char].
    rewrite <- is_space_white. exact E.
  - exact IH.
Qed.

Lemma lstrip_splits s :
  exists before, s = (before ++ lstrip s)%string /\ all_white before = true.
Proof.
  induction s as [|a s [before [IH Hw]]].
  - exists EmptyString. split; reflexivity.
  - cbn [lstrip]. destruct (is_space a) eqn:E.
    + exists (String a before). cbn [all_white]. rewrite <- is_space_white, E, Hw.
      split; [|reflexivity].
      change (String a s = String a (String.append before (lstrip s))).
      f_equal. exact IH.
    + exists EmptyString. split; reflexivity.
Qed.

Lemma rstrip_splits s :
  exists after, s = (rstrip s ++ after)%string /\ all_white after = true.
Proof.
  induction s as [|a s [after [IH Hw]]].
  - exists EmptyString. split; reflexivity.
  - cbn [rstrip]. destruct (rstrip s) as [|b r].
    + change (s = after) in IH. subst after. destruct (is_space a) eqn:E.
      * exists (String a s). cbn [all_white]. rewrite <- is_space_white, E, Hw.
        split; reflexivity.
      * exists s. split; [reflexivity|exact Hw].
    + exists after. split; [|exact Hw].
      change (String a s = String a (String.append (String b r) after)).
      f_equal. exact IH.
Qed.

Lemma strip_trimming part : trimming_of part (strip part).
Proof.
  unfold trimming_of, strip.
  destruct (lstrip_splits part) as [before [Hb Hwb]].
  destruct (rstrip_splits (lstrip part)) as [after [Ha Hwa]].
  exists before, after. rewrite <- Ha. auto.
Qed.

Lemma split_not_empty sep s : split sep s <> [].
Proof.
  destruct s as [|c s]; cbn [split]; [discriminate|].
  destruct (Ascii.eqb c sep); [discriminate|]. destruct (split sep s); discriminate.
Qed.

Lemma join_split s : join_commas (split Utils.comma s) = s.
Proof.
  induction s as [|c s IH]; [reflexivity|].
  cbn [split]. destruct (Ascii.eqb c Utils.comma) eqn:E.
  - apply Ascii.eqb_eq in E. subst c.
    pose proof (split_not_empty Utils.comma s) as Hne.
    destruct (split Utils.comma s) as [|h t]; [contradiction|].
    change (join_commas (EmptyString :: h :: t))
      with (String Utils.comma (join_commas (h :: t))).
    rewrite IH. reflexivity.
  - pose proof (split_not_empty Utils.comma s) as Hne.
    destruct (split Utils.comma s) as [|h t]; [contradiction|].
    rewrite <- IH. destruct t; reflexivity.
Qed.

End CommaLists.

(** X4. A field given as comma separated text becomes one entry more
    than the text has commas (so never an empty list: the empty text gives
    one empty entry). The entries are, in order, the parts of the text
    between its commas, each without the white space at its two ends: no
    entry holds a comma, none begins or ends with a white-space
    character, and putting the removed white space back and joining with
    commas gives the text again. *)
Theorem comma_text_becomes_trimmed_entries (s : string) :
  length (Utils.as_list (Some (AsStr s))) = S (count_commas s)
  /\ Forall (fun entry => mentions Utils.comma entry = false /\ trimmed entry)
            (Utils.as_list (Some (AsStr s)))
  /\ exists parts : list string,
       join_commas parts = s
       /\ Forall2 trimming_of parts (Utils.as_list (Some (AsStr s))).
Proof.
  cbn [Utils.as_list]. split; [|split].
  - rewrite length_map. apply split_length.
  - apply List.Forall_forall. intros entry Hin.
    apply in_map_iff in Hin as [part [<- Hpart]].
    pose proof (split_parts_without_separator Utils.comma s) as Hs.
    rewrite List.Forall_forall in Hs. specialize (Hs part Hpart). split.
    + unfold PyText.strip. apply rstrip_mentions, lstrip_mentions, Hs.
    + split.
      * apply rstrip_starts_clean, lstrip_starts_clean.
      * apply rstrip_ends_clean.
  - exists (PyText.split Utils.comma s). split; [apply join_split|].
    induction (PyText.split Utils.comma s) as [|part parts IH]; cbn [map];
      constructor; [apply strip_trimming|exact IH].
Qed.

(** ** The incident object over its whole history *)

Section IncidentHistory.

Import Incident.

Lemma after_keeps_expected_score now c self :
  priority_score self = expected_priority_score self ->
  priority_score (after now c self) = expected_priority_score (after now c self).
Proof.
  intros H. unfold after.
  destruct c as [sev reasoning|ta|a|s r|r target|]; cbn [call]; try exact H.
  - unfold set_severity. destruct (Severity.of_string sev) as [level|] eqn:E; [|exact H].
    unfold expected_priority_score, systems_count. cbn.
    assert (Severity.value level = sev) as ->; [|reflexivity].
    unfold Severity.of_string in E.
    repeat match type of E with
           | (if String.eqb ?a ?b then _ else _) = _ =>
               let Eb := fresh in
               destruct (String.eqb a b) eqn:Eb;
               [apply String.eqb_eq in Eb; inversion E; subst; reflexivity|]
           end.
    discriminate.
  - unfold update_status. destruct (Status.of_string s); exact H.
  - unfold expected_priority_score, mark_as_security_incident, systems_count in *. cbn.
    destruct (severity self); [reflexivity|exact H].
Qed.

(** X5. After any history of calls on an incident made by the
    constructor, the stored priority score is the one its current
    severity, affected-system count and security flag call for, and it is
    0 while no severity is set. *)
Theorem priority_score_tracks_fields (now : Z) (report : IncidentReport.t)
    (calls : list (Z * Call)) :
  priority_score (run calls (init now report))
  = expected_priority_score (run calls (init now report)).
Proof.
  assert (H0 : priority_score (init now report)
               = expected_priority_score (init now report)) by reflexivity.
  revert H0. generalize (init now report).
  induction calls as [|[now' c] calls IH]; intros self H; simpl; [exact H|].
  apply IH, after_keeps_expected_score, H.
Qed.

Lemma escalations_after now c self :
  escalation_history (after now c self)
  = escalation_history self
    ++ (if is_escalation c
        then [mkEscalation now
                (match c with CallEscalate r _ => r | _ => "" end)
                (match c with CallEscalate _ target => target | _ => None end)
                (get_assigned_teams self)]
        else [])
  /\ escalation_needed (after now c self)
     = (escalation_needed self || is_escalation c)%bool
  /\ is_security_incident (after now c self)
     = (is_security_incident self || is_security_mark c)%bool.
Proof.
  unfold after.
  destruct c as [sev reasoning|ta|a|s r|r target|]; cbn [call is_escalation is_security_mark].
  - unfold set_severity. destruct (Severity.of_string sev); cbn;
      rewrite ?app_nil_r, ?orb_false_r; auto.
  - cbn. rewrite ?app_nil_r, ?orb_false_r; auto.
  - cbn. rewrite ?app_nil_r, ?orb_false_r; auto.
  - unfold update_status. destruct (Status.of_string s); cbn;
      rewrite ?app_nil_r, ?orb_false_r; auto.
  - cbn. rewrite ?orb_true_r, ?orb_false_r. auto.
  - cbn. rewrite ?app_nil_r, ?orb_true_r, ?orb_false_r. auto.
Qed.

Lemma run_flags calls : forall self,
  length (escalation_history (run calls self))
  = (length (escalation_history self)
     + length (List.filter (fun nc => is_escalation (snd nc)) calls))%nat
  /\ escalation_needed (run calls self)
     = (escalation_needed self || existsb (fun nc => is_escalation (snd nc)) calls)%bool
  /\ is_security_incident (run calls self)
     = (is_security_incident self
        || existsb (fun nc => is_security_mark (snd nc)) calls)%bool.
Proof.
  induction calls as [|[now c] calls IH]; intros self; simpl.
  - rewrite !orb_false_r. auto with arith.
  - destruct (IH (after now c self)) as (H1 & H2 & H3).
    destruct (escalations_after now c self) as (E1 & E2 & E3).
    rewrite H1, H2, H3, E1, E2, E3, length_app.
    repeat split.
    + destruct (is_escalation c); simpl; lia.
    + rewrite orb_assoc. reflexivity.
    + rewrite orb_assoc. reflexivity.
Qed.

(** X6. After any history of calls on a new incident, the escalation
    history has one record per [escalate] call, [escalation_needed] is set
    exactly when there was such a call, and [is_security_incident] exactly
    when there was a [mark_as_security_incident] call: no call clears
    either flag. *)
Theorem flags_follow_history (now : Z) (report : IncidentReport.t)
    (calls : list (Z * Call)) :
  length (escalation_history (run calls (init now report)))
  = length (List.filter (fun nc => is_escalation (snd nc)) calls)
  /\ escalation_needed (run calls (init now report))
     = existsb (fun nc => is_escalation (snd nc)) calls
  /\ is_security_incident (run calls (init now report))
     = existsb (fun nc => is_security_mark (snd nc)) calls.
Proof.
  destruct (run_flags calls (init now report)) as (H1 & H2 & H3).
  rewrite H1, H2, H3. auto.
Qed.


Lemma explained_same done_ extra self self' :
  resolution_time_explained done_ self ->
  resolution_time self' = resolution_time self ->
  status self' = status self ->
  resolution_time_explained (done_ ++ extra) self'.
Proof.
  unfold resolution_time_explained. intros H -> ->.
  destruct (resolution_time self); [|exact H].
  rewrite existsb_app, H. reflexivity.
Qed.

Lemma status_of_string_resolved s : Status.of_string s = Some RESOLVED -> s = "resolved".
Proof.
  unfold Status.of_string. intros E.
  repeat match type of E with
         | (if String.eqb ?a ?b then _ else _) = _ =>
             let Eb := fresh in
             destruct (String.eqb a b) eqn:Eb;
             [apply String.eqb_eq in Eb; inversion E; subst; reflexivity|]
         end; try discriminate.
  all: inversion E.
Qed.

Lemma after_explained done_ now c self :
  resolution_time_explained done_ self ->
  resolution_time_explained (done_ ++ [(now, c)]) (after now c self).
Proof.
  intros H. unfold after.
  destruct c as [sev reasoning|ta|a|s r|r target|]; cbn [call];
    try (apply explained_same with (self := self); [exact H|reflexivity|reflexivity]).
  - unfold set_severity. destruct (Severity.of_string sev);
      apply explained_same with (self := self); try exact H; reflexivity.
  - unfold update_status. destruct (Status.of_string s) as [st|] eqn:E;
      [|apply explained_same with (self := self); try exact H; reflexivity].
    unfold resolution_time_explained in *. cbn.
    destruct (Status.eqb st RESOLVED) eqn:Est; cbn.
    + destruct st; try discriminate.
      apply status_of_string_resolved in E. subst s.
      destruct (Status.eqb (status self) RESOLVED) eqn:Eold; cbn.
      * destruct (resolution_time self).
        -- rewrite existsb_app, H. reflexivity.
        -- destruct (status self); try discriminate. contradiction.
      * rewrite existsb_app. cbn. rewrite Z.eqb_refl. cbn. apply orb_true_r.
    + destruct (resolution_time self).
      * rewrite existsb_app, H. reflexivity.
      * intros ->. discriminate.
Qed.

Lemma run_explained calls : forall done_ self,
  resolution_time_explained done_ self ->
  resolution_time_explained (done_ ++ calls) (run calls self).
Proof.
  induction calls as [|[now c] calls IH]; intros done_ self H; simpl.
  - rewrite app_nil_r. exact H.
  - change ((now, c) :: calls) with ([(now, c)] ++ calls). rewrite app_assoc.
    apply IH, after_explained, H.
Qed.

(** X7. After any history of calls on a new incident, a resolution time
    that is set is the clock reading of some [update_status] call to
    resolved in that history, and while none is set the status is not
    resolved. *)
Theorem resolution_time_comes_from_a_resolving_call (now : Z)
    (report : IncidentReport.t) (calls : list (Z * Call)) :
  resolution_time_explained calls (run calls (init now report)).
Proof.
  apply (run_explained calls [] (init now report)).
  unfold resolution_time_explained. cbn. discriminate.
Qed.

Lemma min_by_priority_least rest : forall best,
  (min_by_priority best rest = best \/ In (min_by_priority best rest) rest)
  /\ TeamAssignment.priority (min_by_priority best rest) <= TeamAssignment.priority best
  /\ Forall (fun ta => TeamAssignment.priority (min_by_priority best rest)
                       <= TeamAssignment.priority ta) rest.
Proof.
  induction rest as [|ta rest IH]; intros best; simpl.
  - repeat split; [left; reflexivity|lia|constructor].
  - destruct (TeamAssignment.priority ta <? TeamAssignment.priority best) eqn:E.
    + apply Z.ltb_lt in E. destruct (IH ta) as (Hin & Hle & Hall). repeat split.
      * right. destruct Hin as [->|Hin]; [left; reflexivity|right; exact Hin].
      * lia.
      * constructor; assumption.
    + apply Z.ltb_ge in E. destruct (IH best) as (Hin & Hle & Hall). repeat split.
      * destruct Hin as [->|Hin]; [left; reflexivity|right; right; exact Hin].
      * exact Hle.
      * constructor; [lia|exact Hall].
Qed.

(** X8. [get_primary_team] answers None exactly for an incident with no
    team assignment; otherwise it names an assigned team whose priority
    number is the smallest among all assignments. *)
Theorem primary_team_has_least_priority (self : t) :
  match get_primary_team self with
  | None => team_assignments self = []
  | Some team_name =>
      exists ta, In ta (team_assignments self)
                 /\ TeamAssignment.team_name ta = team_name
                 /\ Forall (fun other => TeamAssignment.priority ta
                                         <= TeamAssignment.priority other)
                           (team_assignments self)
  end.
Proof.
  unfold get_primary_team. destruct (team_assignments self) as [|ta rest]; [reflexivity|].
  destruct (min_by_priority_least rest ta) as (Hin & Hle & Hall).
  exists (min_by_priority ta rest). repeat split.
  - destruct Hin as [->|Hin]; [left; reflexivity|right; exact Hin].
  - constructor; assumption.
Qed.

End IncidentHistory.

(** ** Response teams and the registry *)

Section TeamFacts.

Import ResponseTeam.

Lemma mem_in x xs : PyStr.mem x xs = true <-> In x xs.
Proof.
  unfold PyStr.mem. rewrite existsb_exists. split.
  - intros [y [Hy E]]. apply String.eqb_eq in E. subst. exact Hy.
  - intros H. exists x. split; [exact H|apply String.eqb_refl].
Qed.

Lemma mem_not_in x xs : PyStr.mem x xs = false <-> ~ In x xs.
Proof.
  rewrite <- mem_in. destruct (PyStr.mem x xs); split; intros; congruence.
Qed.

Lemma remove_in x y xs : In y (PyList.remove x xs) -> In y xs.
Proof.
  induction xs as [|z xs IH]; simpl; [trivial|].
  destruct (String.eqb z x); [auto|]. intros [H|H]; [left; exact H|right; apply IH, H].
Qed.

Lemma remove_nodup x xs : List.NoDup xs -> List.NoDup (PyList.remove x xs).
Proof.
  induction 1 as [|z xs Hz Hn IH]; simpl; [constructor|].
  destruct (String.eqb z x); [exact Hn|].
  constructor; [|exact IH]. intros H. apply Hz. eapply remove_in, H.
Qed.

Lemma remove_appended x xs : ~ In x xs -> PyList.remove x (xs ++ [x]) = xs.
Proof.
  induction xs as [|z xs IH]; simpl; intros H.
  - rewrite String.eqb_refl. reflexivity.
  - destruct (String.eqb z x) eqn:E.
    + apply String.eqb_eq in E. subst. exfalso. apply H. left. reflexivity.
    + f_equal. apply IH. intros Hx. apply H. right. exact Hx.
Qed.

(** What every call keeps true of a team object. *)
Lemma call_keeps_count c team :
  workload_score team = Z.of_nat (length (current_incidents team)) ->
  List.NoDup (current_incidents team) ->
  workload_score (call c team) = Z.of_nat (length (current_incidents (call c team)))
  /\ List.NoDup (current_incidents (call c team))
  /\ name (call c team) = name team.
Proof.
  intros Hw Hn. destruct c as [i|i|a]; cbn [call].
  - unfold assign_incident. destruct (PyStr.mem i (current_incidents team)) eqn:E.
    + auto.
    + cbn. repeat split. apply mem_not_in in E.
      apply List.NoDup_app; [exact Hn|constructor; [intros []|constructor]|].
      intros x Hx [<-|[]]. exact (E Hx).
  - unfold resolve_incident. destruct (PyStr.mem i (current_incidents team)) eqn:E.
    + cbn. repeat split. apply remove_nodup, Hn.
    + auto.
  - cbn. auto.
Qed.

(** X9. After any history of [assign_incident], [resolve_incident] and
    [set_availability] calls on a team made by the constructor, the
    workload score is the number of current incidents, no incident id is
    held twice, and the team's name is unchanged. *)
Theorem team_workload_counts_incidents (team_name : string) (team_type : TeamType)
    (capabilities : list TeamCapability.t) (escalation_path : list string)
    (members : option (list TeamMember.t)) (calls : list Call) :
  let team := run calls (init team_name team_type capabilities escalation_path members) in
  workload_score team = Z.of_nat (length (current_incidents team))
  /\ List.NoDup (current_incidents team)
  /\ name team = team_name.
Proof.
  cbv zeta. unfold run.
  set (t0 := init team_name team_type capabilities escalation_path members).
  assert (H0 : workload_score t0 = Z.of_nat (length (current_incidents t0))
               /\ List.NoDup (current_incidents t0) /\ name t0 = team_name).
  { subst t0. cbn. repeat split. constructor. }
  clearbody t0. revert t0 H0.
  induction calls as [|c calls IH]; intros t0 (Hw & Hn & Hname); simpl; [auto|].
  apply IH. destruct (call_keeps_count c t0 Hw Hn) as (Hw' & Hn' & Hname').
  repeat split; [exact Hw'|exact Hn'|congruence].
Qed.

(** X10. Assigning an incident id a team does not hold and then
    resolving it leaves the list of current incidents as it was; assigning
    the same id twice is the same as assigning it once. *)
Theorem assign_then_resolve_restores (team : t) (incident_id : string) :
  PyStr.mem incident_id (current_incidents team) = false ->
  current_incidents (resolve_incident incident_id (assign_incident incident_id team))
  = current_incidents team
  /\ assign_incident incident_id (assign_incident incident_id team)
     = assign_incident incident_id team.
Proof.
  intros H.
  assert (Ha : assign_incident incident_id team
               = with_incidents team (current_incidents team ++ [incident_id])).
  { unfold assign_incident. rewrite H. reflexivity. }
  assert (Hm : PyStr.mem incident_id (current_incidents team ++ [incident_id]) = true).
  { apply mem_in, in_or_app. right. left. reflexivity. }
  rewrite Ha. split.
  - unfold resolve_incident. cbn [current_incidents with_incidents]. rewrite Hm.
    cbn [current_incidents with_incidents].
    apply remove_appended, mem_not_in, H.
  - unfold assign_incident. cbn [current_incidents with_incidents]. rewrite Hm.
    reflexivity.
Qed.

Lemma assign_then_resolve_restores_witness :
  current_incidents
    (resolve_incident "INC-1" (assign_incident "INC-1" TeamRegistry.sre_team))
  = current_incidents TeamRegistry.sre_team
  /\ assign_incident "INC-1" (assign_incident "INC-1" TeamRegistry.sre_team)
     = assign_incident "INC-1" TeamRegistry.sre_team.
Proof. apply (assign_then_resolve_restores TeamRegistry.sre_team "INC-1"). reflexivity. Defined.

End TeamFacts.

Section RegistryOrder.

Import TeamRegistry.

Lemma pair_ltb_asym (a b : Z * Z) :
  PyList.pair_ltb a b = true -> PyList.pair_ltb b a = false.
Proof.
  unfold PyList.pair_ltb. destruct a as [a1 a2], b as [b1 b2]. cbn [fst snd].
  intros H. apply orb_true_iff in H.
  apply orb_false_iff. rewrite andb_false_iff, Z.ltb_ge, Z.eqb_neq, Z.ltb_ge.
  destruct H as [H|H].
  - apply Z.ltb_lt in H. lia.
  - apply andb_true_iff in H as [H1 H2]. apply Z.eqb_eq in H1. apply Z.ltb_lt in H2. lia.
Qed.

Lemma pair_ltb_false (a b : Z * Z) :
  PyList.pair_ltb a b = false <->
  fst b < fst a \/ (fst b = fst a /\ snd b <= snd a).
Proof.
  unfold PyList.pair_ltb.
  rewrite orb_false_iff, andb_false_iff, Z.ltb_ge, Z.eqb_neq, Z.ltb_ge. lia.
Qed.

Lemma pair_ltb_negtrans (a b c : Z * Z) :
  PyList.pair_ltb b a = false -> PyList.pair_ltb c b = false ->
  PyList.pair_ltb c a = false.
Proof. rewrite !pair_ltb_false. lia. Qed.

(** X11. When some available team can handle the incident type,
    [find_best_team_for_incident] returns one of those teams, and no other
    of them has more expertise for the type, nor the same expertise with a
    smaller workload. The severity argument plays no part. *)
Theorem find_best_team_is_best_capable (self : t) (incident_type severity : string) :
  capable_teams self incident_type <> [] ->
  exists best,
    find_best_team_for_incident self incident_type severity = Some best
    /\ In best (PyDict.values (teams self))
    /\ ResponseTeam.is_available_for_new_incidents best = true
    /\ ResponseTeam.can_handle_incident_type best incident_type = true
    /\ Forall (no_better_than incident_type best) (capable_teams self incident_type).
Proof.
  intros Hne. unfold find_best_team_for_incident.
  destruct (capable_teams self incident_type) as [|c0 cs] eqn:Ecap; [contradiction|].
  pose proof (sorted_by_perm PyList.pair_ltb (team_sort_key incident_type) (c0 :: cs)) as Hperm.
  pose proof (sorted_by_sorted PyList.pair_ltb (team_sort_key incident_type)
                pair_ltb_asym pair_ltb_negtrans (c0 :: cs)) as Hsorted.
  destruct (PyList.sorted_by PyList.pair_ltb (team_sort_key incident_type) (c0 :: cs))
    as [|best rest] eqn:Es.
  - apply Permutation_nil in Hperm. discriminate.
  - exists best. cbn [hd_error].
    assert (Hin : In best (capable_teams self incident_type)).
    { rewrite Ecap. eapply Permutation_in; [exact Hperm|left; reflexivity]. }
    unfold capable_teams, get_available_teams in Hin.
    apply filter_In in Hin as [Hin Hcan]. apply filter_In in Hin as [Hin Hav].
    repeat split; try assumption.
    eapply Permutation_Forall; [exact Hperm|].
    inversion Hsorted as [|? ? Hrest Hhead]; subst.
    assert (Hkey : forall team,
               PyList.in_order PyList.pair_ltb (team_sort_key incident_type) best team ->
               no_better_than incident_type best team).
    { intros team H. unfold PyList.in_order in H. apply pair_ltb_false in H.
      unfold team_sort_key, no_better_than in *. cbn [fst snd] in H. lia. }
    constructor.
    + apply Hkey. unfold PyList.in_order. apply pair_ltb_false. lia.
    + eapply List.Forall_impl; [|exact Hhead]. exact Hkey.
Qed.

Lemma find_best_team_is_best_capable_witness :
  exists best,
    find_best_team_for_incident registry_backend_unavailable "performance" "high" = Some best
    /\ In best (PyDict.values (teams registry_backend_unavailable))
    /\ ResponseTeam.is_available_for_new_incidents best = true
    /\ ResponseTeam.can_handle_incident_type best "performance" = true
    /\ Forall (no_better_than "performance" best)
              (capable_teams registry_backend_unavailable "performance").
Proof.
  apply (find_best_team_is_best_capable registry_backend_unavailable "performance" "high").
  vm_compute. discriminate.
Defined.

Lemma keys_set {V : Type} (k : string) (v : V) d :
  PyDict.keys (PyDict.set k v d)
  = if PyStr.mem k (PyDict.keys d) then PyDict.keys d else PyDict.keys d ++ [k].
Proof.
  unfold PyDict.keys, PyStr.mem. induction d as [|[k' v'] d IH]; simpl; [reflexivity|].
  rewrite (String.eqb_sym k k').
  destruct (String.eqb k' k) eqn:E; simpl; [reflexivity|].
  rewrite IH. destruct (existsb (String.eqb k) (map fst d)); reflexivity.
Qed.

Lemma keys_set_nodup {V : Type} (k : string) (v : V) d :
  List.NoDup (PyDict.keys d) -> List.NoDup (PyDict.keys (PyDict.set k v d)).
Proof.
  intros H. rewrite keys_set. destruct (PyStr.mem k (PyDict.keys d)) eqn:E; [exact H|].
  apply List.NoDup_app; [exact H|constructor; [intros []|constructor]|].
  intros x Hx [<-|[]]. apply mem_not_in in E. exact (E Hx).
Qed.

Lemma get_some_iff_key {V : Type} (k : string) (d : list (string * V)) :
  In k (PyDict.keys d) <-> PyDict.get k d <> None.
Proof.
  unfold PyDict.keys. induction d as [|[k' v'] d IH]; simpl.
  - split; [intros []|intros H; apply H; reflexivity].
  - destruct (String.eqb k' k) eqn:E.
    + apply String.eqb_eq in E. split; [discriminate|left; exact E].
    + apply String.eqb_neq in E. rewrite <- IH. split; [intros [H|H]; congruence|auto].
Qed.

Lemma step_names_nodup op self :
  List.NoDup (list_all_teams self) -> List.NoDup (list_all_teams (step op self)).
Proof.
  intros H. unfold list_all_teams in *.
  destruct op as [team|n a|n i|n i]; cbn [step]; unfold register_team, update_team, get_team;
    cbn [teams];
    try (destruct (PyDict.get n (teams self)); [|exact H]); cbn [teams];
    apply keys_set_nodup, H.
Qed.

(** X12. In every registry reachable from construction no team name is
    listed twice, and the listed names are exactly the names [get_team]
    finds. *)
Theorem registry_names_are_distinct (self : t) :
  reachable self ->
  List.NoDup (list_all_teams self)
  /\ forall team_name, In team_name (list_all_teams self) <-> get_team self team_name <> None.
Proof.
  intros Hr. split.
  - induction Hr as [|op self Hr IH].
    + vm_compute. repeat constructor; simpl; intuition discriminate.
    + apply step_names_nodup, IH.
  - intros team_name. apply get_some_iff_key.
Qed.

Lemma registry_names_are_distinct_witness :
  List.NoDup (list_all_teams registry_sre_at_cap)
  /\ forall team_name,
       In team_name (list_all_teams registry_sre_at_cap)
       <-> get_team registry_sre_at_cap team_name <> None.
Proof. apply (registry_names_are_distinct registry_sre_at_cap registry_sre_at_cap_reachable). Defined.

End RegistryOrder.

(** ** The incident built from a classification, and where its fields come from *)

Section TriageFacts.

Import TriageRouter.

(** X13. [create_incident_from_classification] never raises. The
    incident it returns is open and unassigned, holds the report, the
    severity and the security flag of the classification, needs escalation
    exactly when [should_escalate_immediately] says so, has the priority
    score of those values with the system count of the report, and its
    audit log has one entry for the severity plus one for the security
    mark and one for the escalation where they apply. *)
Theorem created_incident_reflects_classification (now : Z)
    (incident_report : IncidentReport.t) (classification : SeverityClassificationSchema.t) :
  exists incident,
    create_incident_from_classification now incident_report classification = Ok incident
    /\ Incident.report incident = incident_report
    /\ Incident.severity incident
       = Some (SeverityClassificationSchema.severity classification)
    /\ Incident.is_security_incident incident
       = SeverityClassificationSchema.security_incident classification
    /\ Incident.escalation_needed incident = should_escalate_immediately classification
    /\ Incident.status incident = OPEN
    /\ Incident.team_assignments incident = []
    /\ Incident.priority_score incident
       = calculate_incident_priority_score
           (Severity.value (SeverityClassificationSchema.severity classification))
           (Z.of_nat (length (IncidentReport.affected_systems incident_report)))
           (SeverityClassificationSchema.security_incident classification)
    /\ length (Incident.status_updates incident)
       = (1 + bool_count (SeverityClassificationSchema.security_incident classification)
          + bool_count (should_escalate_immediately classification))%nat.
Proof.
  unfold create_incident_from_classification, Incident.set_severity.
  rewrite severity_of_string_value. cbn [bind].
  eexists. split; [reflexivity|].
  destruct (SeverityClassificationSchema.security_incident classification),
           (should_escalate_immediately classification); cbn; repeat split.
Qed.

Lemma startswith_append (s suffix : string) : PyStr.startswith s (s ++ suffix) = true.
Proof.
  induction s as [|c s IH]; [reflexivity|].
  change (String c s ++ suffix)%string with (String c (s ++ suffix)%string).
  cbn [PyStr.startswith]. rewrite Ascii.eqb_refl. exact IH.
Qed.

Lemma enrichment_keeps_fields score_and_rank now (router : t) r
    (initial : SeverityClassificationSchema.t) :
  exists enhanced,
    apply_historical_patterns_to_severity_assessment score_and_rank now router r initial
    = Ok enhanced
    /\ SeverityClassificationSchema.severity enhanced
       = SeverityClassificationSchema.severity initial
    /\ SeverityClassificationSchema.security_incident enhanced
       = SeverityClassificationSchema.security_incident initial
    /\ SeverityClassificationSchema.affected_systems enhanced
       = SeverityClassificationSchema.affected_systems initial
    /\ PyStr.startswith (SeverityClassificationSchema.reasoning initial)
                        (SeverityClassificationSchema.reasoning enhanced) = true.
Proof.
  unfold apply_historical_patterns_to_severity_assessment, Incident.set_severity.
  rewrite severity_of_string_value. cbn [bind].
  match goal with
  | |- context [find_similar_incidents ?s ?rt ?i] =>
      destruct (find_similar_incidents s rt i) as [|top rest]
  end.
  - exists initial. repeat split.
    rewrite <- (append_empty_r (SeverityClassificationSchema.reasoning initial)) at 2.
    apply startswith_append.
  - eexists. repeat split. cbn. apply startswith_append.
Qed.

(** X14. [classify_severity] takes severity, security flag and affected
    systems from the language model's answer when the call answers, and
    from the fallback rule, the security detector and the report when the
    call raises; the historical data and the similarity scores change
    none of the three in either case. *)
Theorem classification_comes_from_model_or_rule
    (score_and_rank : Incident.t -> list HistoricalIncident -> list SimilarIncident)
    (now : Z) (router : t) (incident_report : IncidentReport.t) :
  let c := classify_severity score_and_rank now router incident_report in
  match llm router incident_report with
  | Ok answer =>
      SeverityClassificationSchema.severity c = SeverityClassificationSchema.severity answer
      /\ SeverityClassificationSchema.security_incident c
         = SeverityClassificationSchema.security_incident answer
      /\ SeverityClassificationSchema.affected_systems c
         = SeverityClassificationSchema.affected_systems answer
      /\ PyStr.startswith (SeverityClassificationSchema.reasoning answer)
                          (SeverityClassificationSchema.reasoning c) = true
  | Raise _ =>
      SeverityClassificationSchema.severity c
      = _fallback_severity_classification incident_report
      /\ SeverityClassificationSchema.security_incident c
         = _detect_security_indicators incident_report
      /\ SeverityClassificationSchema.affected_systems c
         = IncidentReport.affected_systems incident_report
  end.
Proof.
  cbv zeta. unfold classify_severity.
  destruct (llm router incident_report) as [answer|e].
  - destruct (enrichment_keeps_fields score_and_rank now router incident_report answer)
      as (enhanced & -> & H1 & H2 & H3 & H4). auto.
  - match goal with
    | |- context [apply_historical_patterns_to_severity_assessment _ _ _ _ ?fc] =>
        destruct (enrichment_keeps_fields score_and_rank now router incident_report fc)
          as (enhanced & -> & H1 & H2 & H3 & H4)
    end.
    cbn in H1, H2, H3. auto.
Qed.

End TriageFacts.

(** ** Detection of the incidents that need immediate notification *)

Section Detection.

Import TriageRouter.















(** A batch of two plain high incidents, of which only the first
    carries a time zone, makes the detection raise. *)
Example mixed_batch_raises :
  detect_critical_incidents_with_notification only_first_aware [plain_high; other_high]
  = Raise (TypeError naive_aware_message).
Proof. reflexivity. Qed.


End Detection.

(** ** Batch statistics *)

Section BatchStatistics.

Import TriageRouter.

Lemma total_count_set k n d :
  PyDict.get k d = Some n -> forall v, total_count (PyDict.set k v d) = total_count d - n + v.
Proof.
  unfold total_count, PyDict.values.
  induction d as [|[k' v'] d IH]; simpl; intros H v; [discriminate|].
  destruct (String.eqb k' k); simpl.
  - inversion H; subst. lia.
  - rewrite (IH H v). lia.
Qed.

Lemma total_count_set_new k d :
  PyDict.get k d = None -> forall v, total_count (PyDict.set k v d) = total_count d + v.
Proof.
  unfold total_count, PyDict.values.
  induction d as [|[k' v'] d IH]; simpl; intros H v; [lia|].
  destruct (String.eqb k' k); simpl; [discriminate|]. rewrite (IH H v). lia.
Qed.

Lemma severity_key_listed i :
  In (severity_key i) ["critical"; "high"; "medium"; "low"; "unknown"].
Proof.
  unfold severity_key. destruct (Incident.severity i) as [[]|]; simpl; auto 6.
Qed.

Lemma keys_set_present {V : Type} (k : string) (v : V) d :
  In k (PyDict.keys d) -> PyDict.keys (PyDict.set k v d) = PyDict.keys d.
Proof.
  intros H. rewrite keys_set. apply mem_in in H. rewrite H. reflexivity.
Qed.

Lemma count_severities_counts incidents : forall d0,
  (forall i, In (severity_key i) (PyDict.keys d0)) ->
  exists d,
    count_severities incidents d0 = Ok d
    /\ PyDict.keys d = PyDict.keys d0
    /\ total_count d = total_count d0 + Z.of_nat (length incidents)
    /\ forall key n, PyDict.get key d0 = Some n ->
                     PyDict.get key d = Some (n + counted_under key incidents).
Proof.
  induction incidents as [|i incidents IH]; intros d0 Hkeys.
  - exists d0. cbn [count_severities length]. split; [reflexivity|]. split; [reflexivity|].
    split; [lia|]. intros key n H. rewrite H. f_equal. unfold counted_under. cbn. lia.
  - cbn [count_severities].
    destruct (PyDict.get (severity_key i) d0) as [n0|] eqn:E.
    + destruct (IH (PyDict.set (severity_key i) (n0 + 1) d0)) as (d & Hd & Hk & Ht & Hg).
      { intros j. rewrite keys_set_present by apply Hkeys. apply Hkeys. }
      exists d. split; [exact Hd|]. split; [|split].
      * rewrite Hk. apply keys_set_present, Hkeys.
      * rewrite Ht, (total_count_set _ _ _ E). cbn [length]. lia.
      * intros key n Hn. unfold counted_under in *. cbn [List.filter].
        destruct (String.eqb (severity_key i) key) eqn:Ek.
        -- apply String.eqb_eq in Ek. subst key. rewrite E in Hn. inversion Hn; subst.
           rewrite (Hg (severity_key i) (n + 1)) by apply dict_get_set_same.
           f_equal. cbn [length]. lia.
        -- rewrite (Hg key n); [reflexivity|].
           rewrite dict_get_set_other by exact Ek. exact Hn.
    + exfalso. apply (proj1 (get_some_iff_key (severity_key i) d0)); [apply Hkeys|exact E].
Qed.

(** X17. [_get_severity_distribution] never raises; the dict it returns
    has the five keys critical, high, medium, low and unknown in that
    order, each with the number of incidents of that severity (unknown for
    an unset one), and the five counts add up to the number of incidents. *)
Theorem severity_distribution_counts_every_incident (incidents : list Incident.t) :
  exists distribution,
    _get_severity_distribution incidents = Ok distribution
    /\ PyDict.keys distribution = ["critical"; "high"; "medium"; "low"; "unknown"]
    /\ total_count distribution = Z.of_nat (length incidents)
    /\ forall key, In key (PyDict.keys distribution) ->
                   PyDict.get key distribution = Some (counted_under key incidents).
Proof.
  unfold _get_severity_distribution.
  destruct (count_severities_counts incidents
              [("critical", 0); ("high", 0); ("medium", 0); ("low", 0); ("unknown", 0)])
    as (d & Hd & Hk & Ht & Hg).
  { intros i. apply severity_key_listed. }
  exists d. split; [exact Hd|]. split; [exact Hk|]. split; [exact Ht|].
  intros key Hin. rewrite Hk in Hin. cbn in Hin.
  destruct Hin as [<-|[<-|[<-|[<-|[<-|[]]]]]]; rewrite (Hg _ 0) by reflexivity; reflexivity.
Qed.

Lemma set_keeps_positive k v d :
  1 <= v -> Forall (fun kv : string * Z => 1 <= snd kv) d ->
  Forall (fun kv : string * Z => 1 <= snd kv) (PyDict.set k v d).
Proof.
  intros Hv. induction 1 as [|[k' v'] d Hk Hd IH]; simpl.
  - constructor; [exact Hv|constructor].
  - destruct (String.eqb k' k); constructor; assumption.
Qed.

Lemma count_system_total d system :
  Forall (fun kv : string * Z => 1 <= snd kv) d ->
  total_count (count_system d system) = total_count d + 1
  /\ Forall (fun kv : string * Z => 1 <= snd kv) (count_system d system).
Proof.
  intros Hd. unfold count_system.
  destruct (PyDict.get system d) as [n|] eqn:E; cbn [from_option id].
  - split; [rewrite (total_count_set _ _ _ E); lia|].
    apply set_keeps_positive; [|exact Hd].
    apply dict_get_in in E. rewrite List.Forall_forall in Hd.
    specialize (Hd _ E). cbn in Hd. lia.
  - split; [rewrite (total_count_set_new _ _ E); lia|].
    apply set_keeps_positive; [lia|exact Hd].
Qed.

Lemma count_systems_total systems : forall d,
  Forall (fun kv : string * Z => 1 <= snd kv) d ->
  total_count (fold_left count_system systems d) = total_count d + Z.of_nat (length systems)
  /\ Forall (fun kv : string * Z => 1 <= snd kv) (fold_left count_system systems d).
Proof.
  induction systems as [|system systems IH]; intros d Hd; cbn [fold_left length].
  - split; [lia|exact Hd].
  - destruct (count_system_total d system Hd) as [Ht Hp].
    destruct (IH _ Hp) as [Ht' Hp']. split; [|exact Hp']. rewrite Ht', Ht. lia.
Qed.

Lemma system_counts_total incidents : forall d acc,
  Forall (fun kv : string * Z => 1 <= snd kv) d ->
  let counts :=
    fold_left
      (fun system_counts incident =>
         fold_left count_system
           (IncidentReport.affected_systems (Incident.report incident)) system_counts)
      incidents d in
  total_count counts - total_count d
  = fold_left (fun total incident => total + Incident.systems_count incident) incidents acc
    - acc
  /\ Forall (fun kv : string * Z => 1 <= snd kv) counts.
Proof.
  induction incidents as [|i incidents IH]; intros d acc Hd; cbn [fold_left].
  - split; [lia|exact Hd].
  - destruct (count_systems_total
                (IncidentReport.affected_systems (Incident.report i)) d Hd) as [Ht Hp].
    destruct (IH _ (acc + Incident.systems_count i) Hp) as [Ht' Hp'].
    cbv zeta in Ht'. split; [|exact Hp'].
    unfold Incident.systems_count in *. lia.
Qed.

Lemma firstn_in {A : Type} (x : A) n : forall l, In x (firstn n l) -> In x l.
Proof.
  induction n as [|n IH]; intros [|y l]; simpl; try tauto.
  intros [H|H]; [left; exact H|right; apply IH, H].
Qed.

Lemma positive_counts_bound d :
  Forall (fun kv : string * Z => 1 <= snd kv) d -> Z.of_nat (length d) <= total_count d.
Proof.
  unfold total_count, PyDict.values.
  induction 1 as [|[k v] d Hk Hd IH]; cbn [length map fold_right snd] in *; lia.
Qed.

(** X18. In the answer of [_get_system_impact_analysis] the
    per-system counters add up to [total_systems_affected], every counted
    system was seen at least once, so there are at most as many distinct
    systems as systems in total; [most_impacted_systems] holds at most five
    of the counters; and the widespread incidents are at most all. *)
Theorem system_impact_counts_are_consistent (incidents : list Incident.t) :
  let analysis := _get_system_impact_analysis incidents in
  total_count (system_counts_of incidents) = total_systems_affected analysis
  /\ Forall (fun kv => 1 <= snd kv) (system_counts_of incidents)
  /\ unique_systems_count analysis <= total_systems_affected analysis
  /\ (length (most_impacted_systems analysis) <= 5)%nat
  /\ incl (most_impacted_systems analysis) (system_counts_of incidents)
  /\ widespread_impact_incidents analysis <= Z.of_nat (length incidents).
Proof.
  cbv zeta. unfold _get_system_impact_analysis.
  cbn [total_systems_affected unique_systems_count most_impacted_systems
       widespread_impact_incidents].
  destruct (system_counts_total incidents [] 0 (List.Forall_nil _)) as [Ht Hp].
  cbv zeta in Ht. fold (system_counts_of incidents) in Ht, Hp.
  change (total_count []) with 0 in Ht.
  assert (Htot : total_count (system_counts_of incidents)
                 = fold_left (fun total incident => total + Incident.systems_count incident)
                             incidents 0) by lia.
  split; [exact Htot|]. split; [exact Hp|]. split; [|split; [|split]].
  - rewrite <- Htot. apply positive_counts_bound, Hp.
  - apply firstn_le_length.
  - intros kv Hin. apply firstn_in in Hin.
    eapply Permutation_in; [|exact Hin]. apply sorted_by_perm.
  - apply inj_le, filter_length_le.
Qed.


Lemma nodup_lists_a_set : lists_a_set (List.nodup string_dec).
Proof.
  intros xs. split; [apply List.NoDup_nodup|]. intros x. apply List.nodup_In.
Qed.

(** X20. Whatever order [list(set(...))] yields,
    [get_notification_recipients] names no recipient twice; primary-oncall
    is named exactly for critical severity, the two security recipients
    exactly for security incidents, team-leads exactly for critical or high
    severity, sre-team exactly for more than three affected systems; and
    nobody else is ever named. *)
Theorem recipients_follow_the_incident (list_of_set : list string -> list string)
    (incident : Incident.t) :
  lists_a_set list_of_set ->
  let recipients := get_notification_recipients list_of_set incident in
  List.NoDup recipients
  /\ (In "primary-oncall" recipients <-> Incident.severity incident = Some CRITICAL)
  /\ (In "security-team" recipients <-> Incident.is_security_incident incident = true)
  /\ (In "security-oncall" recipients <-> Incident.is_security_incident incident = true)
  /\ (In "team-leads" recipients <->
      Incident.severity incident = Some CRITICAL \/ Incident.severity incident = Some HIGH)
  /\ (In "sre-team" recipients <-> 3 < Incident.systems_count incident)
  /\ incl recipients
          ["primary-oncall"; "security-team"; "security-oncall"; "team-leads"; "sre-team"].
Proof.
  intros Hset. cbv zeta. unfold get_notification_recipients.
  match goal with |- context [list_of_set ?xs] => set (named := xs) end.
  destruct (Hset named) as [Hnodup Hin].
  split; [exact Hnodup|].
  unfold incl. setoid_rewrite Hin. subst named. unfold severity_is.
  destruct (Incident.severity incident) as [[]|];
    destruct (Incident.is_security_incident incident);
    destruct (3 <? Incident.systems_count incident) eqn:E;
    [apply Z.ltb_lt in E|apply Z.ltb_ge in E| apply Z.ltb_lt in E|apply Z.ltb_ge in E
    |apply Z.ltb_lt in E|apply Z.ltb_ge in E| apply Z.ltb_lt in E|apply Z.ltb_ge in E
    |apply Z.ltb_lt in E|apply Z.ltb_ge in E| apply Z.ltb_lt in E|apply Z.ltb_ge in E
    |apply Z.ltb_lt in E|apply Z.ltb_ge in E| apply Z.ltb_lt in E|apply Z.ltb_ge in E
    |apply Z.ltb_lt in E|apply Z.ltb_ge in E| apply Z.ltb_lt in E|apply Z.ltb_ge in E];
    cbn; repeat split; intros; try lia; try discriminate; try tauto;
    repeat match goal with
           | H : _ \/ _ |- _ => destruct H
           | H : False |- _ => destruct H
           | H : _ = _ |- _ => first [discriminate H | (inversion H; fail)]
           end; try tauto; try lia; try congruence.
Qed.

Lemma recipients_follow_the_incident_witness :
  let recipients := get_notification_recipients (List.nodup string_dec) plain_critical in
  List.NoDup recipients
  /\ (In "primary-oncall" recipients <-> Incident.severity plain_critical = Some CRITICAL)
  /\ (In "security-team" recipients <-> Incident.is_security_incident plain_critical = true)
  /\ (In "security-oncall" recipients
      <-> Incident.is_security_incident plain_critical = true)
  /\ (In "team-leads" recipients <->
      Incident.severity plain_critical = Some CRITICAL
      \/ Incident.severity plain_critical = Some HIGH)
  /\ (In "sre-team" recipients <-> 3 < Incident.systems_count plain_critical)
  /\ incl recipients
          ["primary-oncall"; "security-team"; "security-oncall"; "team-leads"; "sre-team"].
Proof.
  apply (recipients_follow_the_incident (List.nodup string_dec) plain_critical).
  exact nodup_lists_a_set.
Defined.

End BatchStatistics.

(** ** Reading the tool store back *)

Section ToolQueries.

Import IncidentTools.

(** X21. An incident created through [create_incident_tool] can be read
    back at once: [get_incident_status_tool] finds it under the new id with
    the title, severity and affected systems supplied, status open, no
    team, and a timeline of one entry, the creation, which
    [get_incident_timeline_tool] returns as the whole timeline; the lookups
    of every other id answer as before. *)
Theorem created_incident_can_be_read_back
    (new_id timestamp title description severity : string)
    (affected_systems : list string) (reporter source : string)
    (store : gmap string IncidentRecord) :
  let store' :=
    fst (create_incident_tool new_id timestamp title description severity
           affected_systems reporter source store) in
  (exists answer created,
      get_incident_status_tool new_id store' = QuerySuccess answer
      /\ st_incident_id answer = new_id
      /\ st_title answer = title
      /\ st_severity answer = severity
      /\ st_affected_systems answer = affected_systems
      /\ st_status answer = "open"
      /\ st_assigned_teams answer = []
      /\ st_timeline_count answer = 1
      /\ st_latest_event answer = Some created
      /\ ev_event created = "incident_created"
      /\ st_created_at answer = timestamp
      /\ get_incident_timeline_tool new_id store'
         = QuerySuccess (mkTimeline new_id title [created] 1 timestamp timestamp))
  /\ forall other, other <> new_id ->
       get_incident_status_tool other store' = get_incident_status_tool other store
       /\ get_incident_timeline_tool other store' = get_incident_timeline_tool other store.
Proof.
  cbv zeta. cbn [create_incident_tool fst]. split.
  - unfold get_incident_status_tool, get_incident_timeline_tool.
    rewrite lookup_insert_eq.
    eexists. eexists. split; [reflexivity|]. cbn. repeat split.
  - intros other Hne. unfold get_incident_status_tool, get_incident_timeline_tool.
    rewrite lookup_insert_ne by congruence. split; reflexivity.
Qed.

Lemma apply_update_appends ts a r :
  let r' := fst (apply_update ts a r) in
  exists added,
    timeline r' = timeline r ++ added
    /\ length added = supplied a
    /\ Forall (fun e => ev_timestamp e = ts) added
    /\ length (snd (apply_update ts a r)) = supplied a
    /\ updated_at r' = ts
    /\ status r' = default (status r) (arg_status a)
    /\ resolution_notes r' = default (resolution_notes r) (arg_resolution_notes a)
    /\ same_identity r r'.
Proof.
  destruct a as [[s1|] [s2|] [t3|] [s4|] [s5|]]; cbn;
    rewrite <- ?app_assoc; cbn;
    (eexists; split; [try reflexivity; symmetry; apply app_nil_r|]);
    cbn; unfold same_identity; cbn; repeat split; repeat constructor.
Qed.

(** X22. [update_incident_tool] on an id the store does not hold fails
    and leaves the store as it was. On a stored incident it succeeds, the
    timeline keeps its old entries and gains one entry, stamped with the
    time of the call, per argument supplied; the list of changes has the
    same length; [updated_at] is the time of the call; identity, title,
    description, systems, reporter, source, creation time, suggested
    actions and the escalation flag are not written. No other id of the
    store is touched in either case. *)
Theorem update_outcome (timestamp id : string) (a : UpdateArgs)
    (store : gmap string IncidentRecord) :
  (forall other, other <> id ->
     fst (update_incident_tool timestamp id a store) !! other = store !! other)
  /\ match store !! id with
     | None =>
         update_incident_tool timestamp id a store
         = (store, Failure ("Incident " ++ id ++ " not found"))
     | Some r =>
         exists r' message changes added,
           update_incident_tool timestamp id a store
           = (<[id := r']> store, Success message changes r')
           /\ timeline r' = timeline r ++ added
           /\ length added = supplied a
           /\ Forall (fun e => ev_timestamp e = timestamp) added
           /\ length changes = supplied a
           /\ updated_at r' = timestamp
           /\ same_identity r r'
     end.
Proof.
  unfold update_incident_tool. destruct (store !! id) as [r|] eqn:E.
  - pose proof (apply_update_appends timestamp a r) as H. cbv zeta in H.
    destruct (apply_update timestamp a r) as [r' changes]. cbn [fst snd] in *.
    destruct H as (added & H1 & H2 & H3 & H4 & H5 & _ & _ & H8).
    split.
    + intros other Hne. apply lookup_insert_ne. congruence.
    + exists r', ("Incident " ++ id ++ " updated: " ++ PyStr.join ", " changes)%string,
        changes, added. auto 10.
  - split; [intros; reflexivity|reflexivity].
Qed.

Lemma string_ltb_asym (a b : string) : String.ltb b a = true -> String.ltb a b = false.
Proof.
  unfold String.ltb. rewrite (String.compare_antisym b a).
  destruct (String.compare a b); cbn; congruence.
Qed.

Lemma string_compare_not_lt_trans (a : string) : forall b c,
  String.compare a b <> Lt -> String.compare b c <> Lt -> String.compare a c <> Lt.
Proof.
  induction a as [|ca a IH]; intros [|cb b] [|cc c]; cbn; try congruence.
  unfold Ascii.compare.
  destruct (N.compare_spec (N_of_ascii ca) (N_of_ascii cb)) as [E1|E1|E1];
    destruct (N.compare_spec (N_of_ascii cb) (N_of_ascii cc)) as [E2|E2|E2];
    destruct (N.compare_spec (N_of_ascii ca) (N_of_ascii cc)) as [E3|E3|E3];
    try congruence; try lia.
  apply IH.
Qed.

Lemma string_ltb_negtrans (a b c : string) :
  String.ltb a b = false -> String.ltb b c = false -> String.ltb a c = false.
Proof.
  unfold String.ltb. intros H1 H2.
  pose proof (string_compare_not_lt_trans a b c) as H.
  destruct (String.compare a b), (String.compare b c), (String.compare a c);
    try discriminate; try reflexivity; exfalso; apply H; congruence.
Qed.

Lemma strongly_sorted_firstn {A : Type} (R : A -> A -> Prop) n : forall l,
  StronglySorted R l -> StronglySorted R (firstn n l).
Proof.
  induction n as [|n IH]; intros l Hs; [constructor|].
  destruct Hs as [|x l Hs Hx]; cbn [firstn]; constructor.
  - apply IH, Hs.
  - apply List.Forall_forall. intros y Hy. rewrite List.Forall_forall in Hx.
    apply Hx. eapply firstn_in, Hy.
Qed.

Lemma slice_to_firstn {A : Type} limit (xs : list A) :
  exists n, slice_to limit xs = firstn n xs /\ (0 <= limit -> n = Z.to_nat limit).
Proof.
  unfold slice_to. destruct (0 <=? limit) eqn:E.
  - eexists. split; [reflexivity|reflexivity].
  - eexists. split; [reflexivity|]. apply Z.leb_gt in E. lia.
Qed.

Lemma passes_filters_demands sf vf tf r :
  passes_filters sf vf tf r = true ->
  demands sf (fun f => status r = f)
  /\ demands vf (fun f => severity r = f)
  /\ demands tf (fun f => In f (assigned_teams r)).
Proof.
  unfold passes_filters, demands.
  destruct sf as [[|c1 f1]|], vf as [[|c2 f2]|], tf as [[|c3 f3]|];
    repeat match goal with
           | |- context [negb ?b] => let E := fresh "E" in destruct b eqn:E; cbn [negb]
           end;
    intros H; try discriminate H; repeat split;
    repeat match goal with
           | E : String.eqb _ _ = true |- _ => apply String.eqb_eq in E
           | E : PyStr.mem _ _ = true |- _ => apply mem_in in E
           end; assumption.
Qed.

(** X23. [list_incidents_tool] returns only entries of the store that
    pass every filter given (a filter that is None or the empty text
    filters nothing), newest first by the text of [created_at]; with a
    limit of zero or more it returns at most that many, and
    [total_found] is the number returned, not the number that matched. *)
Theorem listed_incidents_pass_the_filters (items : list (string * IncidentRecord))
    (status_filter severity_filter team_filter : option string) (limit : Z) :
  let answer :=
    list_incidents_tool items status_filter severity_filter team_filter limit in
  total_found answer = Z.of_nat (length (incidents answer))
  /\ (0 <= limit -> total_found answer <= limit)
  /\ (length (incidents answer) <= length items)%nat
  /\ Forall (fun entry =>
               exists r,
                 In (li_incident_id entry, r) items
                 /\ entry = listed (li_incident_id entry, r)
                 /\ demands status_filter (fun f => li_status entry = f)
                 /\ demands severity_filter (fun f => li_severity entry = f)
                 /\ demands team_filter (fun f => In f (li_assigned_teams entry)))
            (incidents answer)
  /\ StronglySorted not_older (incidents answer).
Proof.
  cbv zeta. unfold list_incidents_tool. cbn [total_found incidents].
  set (kept := List.filter
                 (fun entry => passes_filters status_filter severity_filter team_filter
                                              (snd entry)) items).
  set (sorted := PyList.sorted_by (fun a b => String.ltb b a) li_created_at
                                  (map listed kept)).
  destruct (slice_to_firstn limit sorted) as [n [-> Hn]].
  assert (Hperm : Permutation sorted (map listed kept)) by apply sorted_by_perm.
  split; [reflexivity|]. split; [|split; [|split]].
  - intros Hl. rewrite (Hn Hl). pose proof (firstn_le_length (Z.to_nat limit) sorted). 
    rewrite length_firstn. lia.
  - rewrite length_firstn, (Permutation_length Hperm), length_map.
    pose proof (filter_length_le
                  (fun entry => passes_filters status_filter severity_filter team_filter
                                               (snd entry)) items).
    subst kept. lia.
  - apply List.Forall_forall. intros entry Hin. apply firstn_in in Hin.
    eapply Permutation_in in Hin; [|exact Hperm].
    apply in_map_iff in Hin as [[id r] [<- Hkept]].
    subst kept. apply filter_In in Hkept as [Hitems Hpass]. cbn [snd] in Hpass.
    exists r. cbn [listed li_incident_id li_status li_severity li_assigned_teams].
    split; [exact Hitems|]. split; [reflexivity|].
    apply passes_filters_demands, Hpass.
  - apply strongly_sorted_firstn.
    apply (sorted_by_sorted (fun a b => String.ltb b a) li_created_at).
    + intros a b. apply string_ltb_asym.
    + intros a b c H1 H2. eapply string_ltb_negtrans; eassumption.
Qed.

End ToolQueries.

(** ** Metric queries over in-bounds samples *)

Section MetricBounds.

Import DiagnosticTools.

Lemma count_succ (n : nat) :
  (inject_Z (Z.of_nat (S n)) == inject_Z (Z.of_nat n) + 1)%Q.
Proof. rewrite Nat2Z.inj_succ. unfold Z.succ. rewrite inject_Z_plus. reflexivity. Qed.

Lemma fold_sum_upper (hi : Q) (values : list Q) :
  Forall (fun v => v <= hi)%Q values ->
  forall acc,
    (fold_left Qplus values acc <= acc + hi * inject_Z (Z.of_nat (length values)))%Q.
Proof.
  induction 1 as [|v values Hhi Hall IH]; intros acc.
  - cbn [fold_left length]. change (inject_Z (Z.of_nat 0)) with 0%Q. lra.
  - cbn [fold_left length]. specialize (IH (acc + v)%Q).
    rewrite count_succ. lra.
Qed.

Lemma fold_sum_lower (lo : Q) (values : list Q) :
  Forall (fun v => lo <= v)%Q values ->
  forall acc,
    (acc + lo * inject_Z (Z.of_nat (length values)) <= fold_left Qplus values acc)%Q.
Proof.
  induction 1 as [|v values Hlo Hall IH]; intros acc.
  - cbn [fold_left length]. change (inject_Z (Z.of_nat 0)) with 0%Q. lra.
  - cbn [fold_left length]. specialize (IH (acc + v)%Q).
    rewrite count_succ. lra.
Qed.

Lemma Qltb_true (a b : Q) : PyNum.Qltb a b = true -> (a < b)%Q.
Proof.
  unfold PyNum.Qltb. intros H. apply negb_true_iff in H.
  apply Qnot_le_lt. intros Hle. apply Qle_bool_iff in Hle. congruence.
Qed.

Lemma fold_max_bound (hi : Q) (values : list Q) :
  Forall (fun v => v <= hi)%Q values ->
  forall best, (best <= hi)%Q -> (fold_left PyNum.Qmaxb values best <= hi)%Q.
Proof.
  induction 1 as [|v values Hv Hall IH]; intros best Hb; cbn [fold_left]; [exact Hb|].
  apply IH. unfold PyNum.Qmaxb. destruct (PyNum.Qltb best v); assumption.
Qed.

Lemma fold_min_bound (values : list Q) : forall best,
  (fold_left PyNum.Qminb values best <= best)%Q.
Proof.
  induction values as [|v values IH]; intros best; cbn [fold_left]; [lra|].
  eapply Qle_trans; [apply IH|].
  unfold PyNum.Qminb. destruct (PyNum.Qltb v best) eqn:E; [|lra].
  apply Qltb_true in E. lra.
Qed.

(** The average, the maximum and the minimum of values that are all at
    most [hi] are at most [hi]. *)
Lemma aggregate_upper (aggregation : string) (hi : Q) (values : list Q) :
  In aggregation recognised_aggregations ->
  values <> [] ->
  Forall (fun v => v <= hi)%Q values ->
  (aggregate aggregation values <= hi)%Q.
Proof.
  intros Hagg Hne Hall. destruct values as [|v0 rest]; [contradiction|].
  destruct Hagg as [<-|[<-|[<-|[]]]]; cbn [aggregate String.eqb Ascii.eqb Bool.eqb].
  - pose proof (fold_sum_upper hi (v0 :: rest) Hall 0) as Hs. fold (PyNum.sum (v0 :: rest)) in Hs.
    set (n := inject_Z (Z.of_nat (length (v0 :: rest)))) in *.
    assert (Hn : (0 < n)%Q).
    { subst n. cbn [length]. rewrite count_succ.
      assert (0 <= inject_Z (Z.of_nat (length rest)))%Q; [|lra].
      change 0%Q with (inject_Z 0). rewrite <- Zle_Qle. lia. }
    apply Qle_shift_div_r; [exact Hn|lra].
  - inversion Hall; subst. apply fold_max_bound; assumption.
  - inversion Hall; subst. eapply Qle_trans; [apply fold_min_bound|assumption].
Qed.

Lemma draws_forall draw metric_type :
  draws_in_bounds draw metric_type = true ->
  Forall (fun u => fst (uniform_bounds metric_type) <= u
                   /\ u <= snd (uniform_bounds metric_type))%Q
         (map draw (seq 0 20)).
Proof.
  unfold draws_in_bounds. intros H. rewrite forallb_forall in H.
  apply List.Forall_forall. intros u Hu. apply in_map_iff in Hu as [i [<- Hi]].
  specialize (H i Hi). apply andb_true_iff in H as [H1 H2].
  split; apply Qle_bool_iff; assumption.
Qed.

Lemma forall_map_shift (f : Q -> Q) (P R : Q -> Prop) (draws : list Q) :
  (forall u, P u -> R (f u)) -> Forall P draws -> Forall R (map f draws).
Proof.
  intros Hf H. induction H; cbn; constructor; auto.
Qed.

Lemma not_critical_below v warn crit :
  (v < crit)%Q -> classify_status v warn crit <> "critical".
Proof.
  intros H. unfold classify_status.
  destruct (Qle_bool crit v) eqn:E; [apply Qle_bool_iff in E; lra|].
  destruct (Qle_bool warn v); discriminate.
Qed.

Lemma normal_below v warn crit :
  (v < warn)%Q -> (warn <= crit)%Q -> classify_status v warn crit = "normal".
Proof.
  intros H Hwc. unfold classify_status.
  destruct (Qle_bool crit v) eqn:E; [apply Qle_bool_iff in E; lra|].
  destruct (Qle_bool warn v) eqn:E'; [apply Qle_bool_iff in E'; lra|reflexivity].
Qed.

Lemma critical_above v warn crit :
  (crit <= v)%Q -> classify_status v warn crit = "critical".
Proof.
  intros H. unfold classify_status. apply Qle_bool_iff in H. rewrite H. reflexivity.
Qed.

Lemma eqb_differs (a b : string) : a <> b -> String.eqb a b = false.
Proof. intros H. apply String.eqb_neq, H. Qed.

Lemma Qmaxb_upper (a b hi : Q) : (a <= hi -> b <= hi -> PyNum.Qmaxb a b <= hi)%Q.
Proof. intros Ha Hb. unfold PyNum.Qmaxb. destruct (PyNum.Qltb a b); assumption. Qed.

(** The samples of a recognised metric on a system without raised base
    value stay below the critical threshold, and for response times below
    the warning threshold. *)
Lemma default_samples_upper draw system metric_type :
  draws_in_bounds draw metric_type = true ->
  In metric_type recognised_metrics ->
  system <> raised_base_system metric_type ->
  exists values unit warn crit hi,
    samples draw system metric_type = (values, unit, warn, crit)
    /\ values <> []
    /\ Forall (fun v => v <= hi)%Q values
    /\ (hi < crit)%Q /\ (warn <= crit)%Q
    /\ (metric_type = "response_time" -> (hi < warn)%Q).
Proof.
  intros Hd Hm Hs. pose proof (draws_forall draw metric_type Hd) as Hall.
  destruct Hm as [<-|[<-|[<-|[<-|[]]]]]; cbn [raised_base_system String.eqb Ascii.eqb Bool.eqb] in Hs;
    apply eqb_differs in Hs;
    unfold samples; cbn [String.eqb Ascii.eqb Bool.eqb]; rewrite Hs; cbn [negb];
    cbn [uniform_bounds String.eqb Ascii.eqb Bool.eqb fst snd] in Hall.
  - exists (map (fun u => 45 + u)%Q (map draw (seq 0 20))), "percent", 70%Q, 90%Q, 70%Q.
    split; [reflexivity|]. split; [discriminate|]. split; [|repeat split; try lra; discriminate].
    eapply forall_map_shift; [|exact Hall]. cbv beta. intros u [H1 H2]. lra.
  - exists (map (fun u => 60 + u)%Q (map draw (seq 0 20))), "percent", 80%Q, 95%Q, 80%Q.
    split; [reflexivity|]. split; [discriminate|]. split; [|repeat split; try lra; discriminate].
    eapply forall_map_shift; [|exact Hall]. cbv beta. intros u [H1 H2]. lra.
  - exists (map (fun u => 150 + u)%Q (map draw (seq 0 20))), "milliseconds", 500%Q, 1000%Q, 350%Q.
    split; [reflexivity|]. split; [discriminate|]. split; [|repeat split; lra].
    eapply forall_map_shift; [|exact Hall]. cbv beta. intros u [H1 H2]. lra.
  - exists (map (fun u => PyNum.Qmaxb 0 ((15 # 10) + u))%Q (map draw (seq 0 20))),
      "percent", 2%Q, 5%Q, (45 # 10)%Q.
    split; [reflexivity|]. split; [discriminate|]. split; [|repeat split; try lra; discriminate].
    eapply forall_map_shift; [|exact Hall]. cbv beta. intros u [H1 H2].
    apply Qmaxb_upper; lra.
Qed.

(** X24. With every draw inside the interval asked of [random.uniform],
    a recognised metric queried with avg, max or min on a system without a
    raised base value (any system but database for cpu, api for memory and
    response_time, auth for error_rate) is never reported critical, and a
    response time is always reported normal. *)
Theorem default_systems_never_read_critical
    (draw : nat -> Q) (system metric_type time_range aggregation : string) :
  draws_in_bounds draw metric_type = true ->
  In metric_type recognised_metrics ->
  In aggregation recognised_aggregations ->
  system <> raised_base_system metric_type ->
  status (query_metrics_tool draw system metric_type time_range aggregation) <> "critical"
  /\ (metric_type = "response_time" ->
      status (query_metrics_tool draw system metric_type time_range aggregation) = "normal").
Proof.
  intros Hd Hm Ha Hs.
  destruct (default_samples_upper draw system metric_type Hd Hm Hs)
    as (values & unit & warn & crit & hi & E & Hne & Hall & Hcrit & Hwc & Hrt).
  unfold query_metrics_tool. rewrite E. cbn [status].
  pose proof (aggregate_upper aggregation hi values Ha Hne Hall) as Hagg.
  split.
  - apply not_critical_below. lra.
  - intros Hmt. specialize (Hrt Hmt). apply normal_below; lra.
Qed.

Lemma default_systems_never_read_critical_witness :
  status (query_metrics_tool (steady_draw "response_time") "frontend" "response_time"
            "5m" "avg") <> "critical"
  /\ ("response_time" = "response_time" ->
      status (query_metrics_tool (steady_draw "response_time") "frontend" "response_time"
                "5m" "avg") = "normal").
Proof.
  apply (default_systems_never_read_critical
           (steady_draw "response_time") "frontend" "response_time" "5m" "avg").
  - reflexivity.
  - simpl. tauto.
  - simpl. tauto.
  - discriminate.
Defined.

(** The samples of cpu, memory and response time are so large that
    twenty of them add up to the critical threshold or more. *)
Lemma samples_lower draw system metric_type :
  draws_in_bounds draw metric_type = true ->
  In metric_type ["cpu"; "memory"; "response_time"] ->
  exists values unit warn crit lo,
    samples draw system metric_type = (values, unit, warn, crit)
    /\ length values = 20%nat
    /\ Forall (fun v => lo <= v)%Q values
    /\ (crit <= lo * 20)%Q.
Proof.
  intros Hd Hm. pose proof (draws_forall draw metric_type Hd) as Hall.
  destruct Hm as [<-|[<-|[<-|[]]]];
    unfold samples; cbn [String.eqb Ascii.eqb Bool.eqb];
    cbn [uniform_bounds String.eqb Ascii.eqb Bool.eqb fst snd] in Hall.
  - eexists; exists "percent", 70%Q, 90%Q, 30%Q.
    split; [reflexivity|]. split; [rewrite !length_map; reflexivity|]. split; [|lra].
    eapply forall_map_shift; [|exact Hall]. cbv beta. intros u [H1 H2].
    destruct (negb (String.eqb system "database")); lra.
  - eexists; exists "percent", 80%Q, 95%Q, 50%Q.
    split; [reflexivity|]. split; [rewrite !length_map; reflexivity|]. split; [|lra].
    eapply forall_map_shift; [|exact Hall]. cbv beta. intros u [H1 H2].
    destruct (negb (String.eqb system "api")); lra.
  - eexists; exists "milliseconds", 500%Q, 1000%Q, 100%Q.
    split; [reflexivity|]. split; [rewrite !length_map; reflexivity|]. split; [|lra].
    eapply forall_map_shift; [|exact Hall]. cbv beta. intros u [H1 H2].
    destruct (negb (String.eqb system "api")); lra.
Qed.

(** X25. An aggregation text other than avg, max and min makes the tool
    add up its twenty samples, so with in-bounds draws a cpu, memory or
    response-time query then reads critical for every system. *)
Theorem unrecognised_aggregation_reads_critical
    (draw : nat -> Q) (system metric_type time_range aggregation : string) :
  draws_in_bounds draw metric_type = true ->
  In metric_type ["cpu"; "memory"; "response_time"] ->
  ~ In aggregation recognised_aggregations ->
  status (query_metrics_tool draw system metric_type time_range aggregation) = "critical"
  /\ data_points (query_metrics_tool draw system metric_type time_range aggregation) = 20.
Proof.
  intros Hd Hm Ha.
  destruct (samples_lower draw system metric_type Hd Hm)
    as (values & unit & warn & crit & lo & E & Hlen & Hall & Hcrit).
  unfold query_metrics_tool. rewrite E. cbn [status data_points]. rewrite Hlen.
  split; [|reflexivity].
  apply critical_above.
  assert (Hsum : aggregate aggregation values = PyNum.sum values).
  { unfold aggregate.
    destruct (String.eqb aggregation "avg") eqn:E1;
      [apply String.eqb_eq in E1; exfalso; apply Ha; subst; simpl; tauto|].
    destruct (String.eqb aggregation "max") eqn:E2;
      [apply String.eqb_eq in E2; exfalso; apply Ha; subst; simpl; tauto|].
    destruct (String.eqb aggregation "min") eqn:E3;
      [apply String.eqb_eq in E3; exfalso; apply Ha; subst; simpl; tauto|].
    reflexivity. }
  rewrite Hsum. pose proof (fold_sum_lower lo values Hall 0) as Hs.
  fold (PyNum.sum values) in Hs. rewrite Hlen in Hs.
  change (inject_Z (Z.of_nat 20)) with 20%Q in Hs. lra.
Qed.

Lemma unrecognised_aggregation_reads_critical_witness :
  status (query_metrics_tool (steady_draw "cpu") "frontend" "cpu" "5m" "sum") = "critical"
  /\ data_points (query_metrics_tool (steady_draw "cpu") "frontend" "cpu" "5m" "sum") = 20.
Proof.
  apply (unrecognised_aggregation_reads_critical (steady_draw "cpu") "frontend" "cpu" "5m" "sum").
  - reflexivity.
  - simpl. tauto.
  - simpl. intros [H|[H|[H|[]]]]; discriminate.
Defined.

End MetricBounds.

(** ** The workflow on every input *)

Section Workflow.

Import IncidentAgent.

Lemma add_if_absent_keeps team teams :
  List.NoDup teams ->
  List.NoDup (add_if_absent team teams)
  /\ In team (add_if_absent team teams)
  /\ (forall x, In x teams -> In x (add_if_absent team teams))
  /\ (forall x, In x (add_if_absent team teams) -> x = team \/ In x teams).
Proof.
  intros Hn. unfold add_if_absent. destruct (PyStr.mem team teams) eqn:E.
  - apply mem_in in E. auto.
  - apply mem_not_in in E. repeat split.
    + apply List.NoDup_app; [exact Hn|constructor; [intros []|constructor]|].
      intros x Hx [<-|[]]. exact (E Hx).
    + apply in_or_app. right. left. reflexivity.
    + intros x Hx. apply in_or_app. left. exact Hx.
    + intros x Hx. apply in_app_or in Hx as [Hx|[<-|[]]]; auto.
Qed.

Lemma incident_type_of_cases system incident_type :
  incident_type_of system = Some incident_type ->
  In incident_type ["database"; "api"; "infrastructure"; "security"; "network"; "performance"].
Proof.
  unfold incident_type_of.
  repeat match goal with
         | |- context [if ?b then _ else _] => destruct b
         end; intros H; inversion H; subst; simpl; tauto.
Qed.

Lemma find_best_known incident_type severity :
  In incident_type ["database"; "api"; "infrastructure"; "security"; "network"; "performance"] ->
  exists team,
    TeamRegistry.find_best_team_for_incident team_registry incident_type severity = Some team
    /\ In (ResponseTeam.name team) known_teams.
Proof.
  intros [<-|[<-|[<-|[<-|[<-|[<-|[]]]]]]]; eexists; (split; [vm_compute; reflexivity|]);
    vm_compute; tauto.
Qed.

Lemma route_system_keeps severity teams system :
  List.NoDup teams -> incl teams known_teams ->
  List.NoDup (route_system severity teams system)
  /\ incl (route_system severity teams system) known_teams
  /\ (forall x, In x teams -> In x (route_system severity teams system)).
Proof.
  intros Hn Hk. unfold route_system.
  destruct (incident_type_of system) as [incident_type|] eqn:E.
  - destruct (find_best_known incident_type severity (incident_type_of_cases _ _ E))
      as [team [-> Hteam]].
    destruct (add_if_absent_keeps (ResponseTeam.name team) teams Hn) as (H1 & H2 & H3 & H4).
    repeat split; [exact H1| |exact H3].
    intros x Hx. destruct (H4 x Hx) as [->|Hx']; [exact Hteam|apply Hk, Hx'].
  - destruct (add_if_absent_keeps "SRE" teams Hn) as (H1 & H2 & H3 & H4).
    repeat split; [exact H1| |exact H3].
    intros x Hx. destruct (H4 x Hx) as [->|Hx']; [simpl; tauto|apply Hk, Hx'].
Qed.

Lemma route_systems_keep severity systems : forall teams,
  List.NoDup teams -> incl teams known_teams ->
  List.NoDup (fold_left (route_system severity) systems teams)
  /\ incl (fold_left (route_system severity) systems teams) known_teams
  /\ (forall x, In x teams -> In x (fold_left (route_system severity) systems teams)).
Proof.
  induction systems as [|system systems IH]; intros teams Hn Hk; cbn [fold_left]; [auto|].
  destruct (route_system_keeps severity teams system Hn Hk) as (H1 & H2 & H3).
  destruct (IH _ H1 H2) as (H4 & H5 & H6). auto.
Qed.

(** The teams the loop and the two fallbacks after it leave. *)
Lemma routed_from severity systems first :
  List.NoDup first -> incl first known_teams ->
  let looped := fold_left (route_system severity) systems first in
  let covered := match looped with [] => ["SRE"] | _ :: _ => looped end in
  let teams :=
    if String.eqb severity "critical" then add_if_absent "SRE" covered else covered in
  teams <> [] /\ List.NoDup teams /\ incl teams known_teams
  /\ (forall x, In x first -> In x teams)
  /\ (severity = "critical" -> In "SRE" teams).
Proof.
  intros Hn Hk. cbv zeta.
  destruct (route_systems_keep severity systems first Hn Hk) as (H1 & H2 & H3).
  set (looped := fold_left (route_system severity) systems first) in *.
  assert (Hc : let covered := match looped with [] => ["SRE"] | _ :: _ => looped end in
               covered <> [] /\ List.NoDup covered /\ incl covered known_teams
               /\ (forall x, In x first -> In x covered)).
  { cbv zeta. destruct looped as [|t0 rest] eqn:El.
    - repeat split; [discriminate|repeat constructor; intros []| |].
      + intros x [<-|[]]. simpl. tauto.
      + intros x Hx. destruct (H3 x Hx).
    - repeat split; [discriminate|exact H1|exact H2|exact H3]. }
  cbv zeta in Hc. destruct Hc as (C1 & C2 & C3 & C4).
  set (covered := match looped with [] => ["SRE"] | _ :: _ => looped end) in *.
  destruct (String.eqb severity "critical") eqn:E.
  - destruct (add_if_absent_keeps "SRE" covered C2) as (A1 & A2 & A3 & A4).
    repeat split.
    + intros Hnil. rewrite Hnil in A2. destruct A2.
    + exact A1.
    + intros x Hx. destruct (A4 x Hx) as [->|Hx']; [simpl; tauto|apply C3, Hx'].
    + intros x Hx. apply A3, C4, Hx.
    + intros _. exact A2.
  - repeat split; try assumption. intros ->. discriminate.
Qed.

Lemma first_teams_known (classification : option SeverityClassificationSchema.t) :
  let first :=
    match classification with
    | Some c => if SeverityClassificationSchema.security_incident c then ["Security"] else []
    | None => []
    end in
  List.NoDup first /\ incl first known_teams.
Proof.
  assert (Hnil : List.NoDup (@nil string) /\ incl (@nil string) known_teams).
  { split; [constructor|intros x []]. }
  cbv zeta. destruct classification as [c|];
    [destruct (SeverityClassificationSchema.security_incident c)|]; try exact Hnil.
  split; [repeat constructor; intros []|]. intros x [<-|[]]. simpl. tauto.
Qed.

Lemma routed_teams_facts w state :
  u_team_assignment (update (fst (route_to_team w state))) = Some (routed_teams w state)
  /\ routed_teams w state <> []
  /\ List.NoDup (routed_teams w state)
  /\ incl (routed_teams w state) known_teams
  /\ (routing_severity state = Some "critical" -> In "SRE" (routed_teams w state))
  /\ (forall severity,
        routing_severity state = Some severity ->
        is_security (_classification state) = true ->
        In "Security" (routed_teams w state))
  /\ (routing_severity state = None -> routed_teams w state = ["SRE"]).
Proof.
  unfold routed_teams, route_to_team, routing_severity. cbn [fst update u_team_assignment].
  cbn [from_option id].
  split; [reflexivity|].
  destruct (first_teams_known (_classification state)) as [Fn Fk]. cbv zeta in Fn, Fk.
  assert (Hfail : (["SRE"] : list string) <> [] /\ List.NoDup ["SRE"]
                  /\ incl ["SRE"] known_teams).
  { repeat split; [discriminate|repeat constructor; intros []|].
    intros x [<-|[]]. simpl. tauto. }
  destruct (_incident state) as [incident|]; destruct (_classification state) as [c|] eqn:Ec;
    cbn [bind is_security];
    try (destruct (severity_classification state) as [sev|] eqn:Es; cbn [bind]).
  all: try (destruct Hfail as (F1 & F2 & F3);
            split; [exact F1|]; split; [exact F2|]; split; [exact F3|];
            split; [intros; congruence|]; split; [intros; congruence|reflexivity]).
  all: match goal with
       | |- context [fold_left (route_system ?sev) ?systems ?first] =>
           destruct (routed_from sev systems first Fn Fk) as (R1 & R2 & R3 & R4 & R5);
           cbv zeta in R1, R2, R3, R4, R5
       end.
  all: split; [exact R1|]; split; [exact R2|]; split; [exact R3|].
  all: split; [intros H; apply R5; congruence|].
  all: split; [|intros H; discriminate H].
  all: intros severity _ Hsec; apply R4;
         first [discriminate Hsec | rewrite Hsec; simpl; tauto].
Qed.

(** X26. Whatever the surroundings, and for every state whose raw
    incident gives its affected systems as a text, as a list of texts or
    not at all, the routing stage writes a team list that is not empty,
    names no team twice and names only teams of the registry. The
    severity it works with is the classification's when an incident
    object and a classification were handed on, and the state's
    otherwise. When that severity is critical the list holds SRE; when
    there is one and the classification handed on marks a security
    incident, the list holds Security; when there is none, the lookup
    raises and the list is SRE alone. The stage always hands over to
    coordinate_response and leaves its input state as it was. *)
Theorem routing_always_assigns_known_teams (w : World) (state : State) :
  goto (fst (route_to_team w state)) = "coordinate_response"
  /\ snd (route_to_team w state) = state
  /\ u_team_assignment (update (fst (route_to_team w state))) = Some (routed_teams w state)
  /\ routed_teams w state <> []
  /\ List.NoDup (routed_teams w state)
  /\ incl (routed_teams w state) known_teams
  /\ (routing_severity state = Some "critical" -> In "SRE" (routed_teams w state))
  /\ (forall severity,
        routing_severity state = Some severity ->
        is_security (_classification state) = true ->
        In "Security" (routed_teams w state))
  /\ (routing_severity state = None -> routed_teams w state = ["SRE"]).
Proof.
  split; [reflexivity|]. split; [reflexivity|]. apply routed_teams_facts.
Qed.

Lemma route_form w state :
  route_to_team w state
  = (mkCommand "coordinate_response"
       (mkUpdate None None (Some (routed_teams w state)) None None None None
          (Some (Utils.current_timestamp (clock w))) None),
     state).
Proof. reflexivity. Qed.

(** The state the triage stage leaves: the attempt raises, at the
    validation of the source or at the unpacking of the report, and the
    handler writes its fixed values. *)
Lemma triage_state w raw :
  state_after_triage w raw
  = mkState raw (Some "medium") None None (Some true) None
      (Some (Utils.generate_incident_id (clock w)))
      (Some (Utils.current_timestamp (clock w)))
      (Some (Utils.current_timestamp (clock w))) None None None.
Proof.
  unfold state_after_triage, triage_incident.
  cbn [incident_input initial_state].
  destruct (Utils.parse_incident_data (clock w) raw) as [r|e]; cbn [bind];
    unfold unpack_report; cbn [bind fst snd update]; unfold commit; cbn;
    destruct (runtime_keeps_private_keys w); reflexivity.
Qed.

(** The answer of the whole workflow, written out. *)
Lemma process_incident_answer w raw :
  process_incident w raw
  = {| r_incident_id := Some (Utils.generate_incident_id (clock w));
       r_severity := Some "medium";
       r_assigned_teams := routed_teams w (state_after_triage w raw);
       r_suggested_actions :=
         (if is_critical_input "medium" raw then urgent_actions else [])
         ++ general_actions;
       r_escalation_needed := true;
       r_status := "in_progress";
       r_created_at := Some (Utils.current_timestamp (clock w));
       r_updated_at := Some (Utils.current_timestamp (clock w));
       r_notifications := [] |}.
Proof.
  unfold process_incident. rewrite invoke_stages. cbv zeta.
  fold (state_after_triage w raw).
  rewrite (route_form w (state_after_triage w raw)). cbn [fst snd update].
  generalize (routed_teams w (state_after_triage w raw)). intros teams.
  rewrite triage_state. unfold commit at 2. cbn.
  unfold coordinate_response. cbn.
  destruct (runtime_keeps_private_keys w); reflexivity.
Qed.

(** X27. For every raw incident whose fields, where present, hold
    values of the kinds [IncidentData] declares, and whatever the
    surroundings do (model, clock, runtime), [process_incident] answers
    with an incident id, a severity among the four levels, a team list
    that is not empty, has no team twice and names only registry teams, a
    list of suggested actions that holds the four general actions, and the
    status in_progress; every notification goes to the assigned teams with
    immediate urgency. *)
Theorem workflow_always_answers (w : World) (raw : RawIncident.t) :
  let answer := process_incident w raw in
  (exists id, r_incident_id answer = Some id)
  /\ (exists sev, r_severity answer = Some sev /\ in_enum sev = true)
  /\ r_assigned_teams answer <> []
  /\ List.NoDup (r_assigned_teams answer)
  /\ incl (r_assigned_teams answer) known_teams
  /\ incl general_actions (r_suggested_actions answer)
  /\ r_status answer = "in_progress"
  /\ r_updated_at answer = Some (Utils.current_timestamp (clock w))
  /\ Forall (fun n => n_recipients n = r_assigned_teams answer
                      /\ n_urgency n = "immediate")
            (r_notifications answer).
Proof.
  cbv zeta. rewrite (process_incident_answer w raw).
  cbn [r_incident_id r_severity r_assigned_teams r_suggested_actions r_status
       r_updated_at r_notifications].
  destruct (routed_teams_facts w (state_after_triage w raw)) as (_ & R1 & R2 & R3 & _).
  split; [eauto|]. split; [exists "medium"; split; reflexivity|].
  split; [exact R1|]. split; [exact R2|].
  split; [exact R3|]. split; [|split; [reflexivity|split; [reflexivity|constructor]]].
  intros a Ha. apply in_or_app. right. exact Ha.
Qed.

(** X28. For every raw incident whose fields, where present, hold
    values of the kinds [IncidentData] declares, the attempt of the
    triage stage raises (at the latest where the report built by
    [parse_incident_data] is unpacked as keyword arguments), so the
    answer has severity medium, needs escalation, carries the freshly
    generated id and the current time as creation time, suggests the
    general actions (after the urgent ones when the raw input itself
    looks critical) and carries no notification; the model is never
    asked. *)
Theorem failed_triage_answers_medium (w : World) (raw : RawIncident.t) :
  let answer := process_incident w raw in
  r_severity answer = Some "medium"
  /\ r_escalation_needed answer = true
  /\ r_incident_id answer = Some (Utils.generate_incident_id (clock w))
  /\ r_created_at answer = Some (Utils.current_timestamp (clock w))
  /\ r_suggested_actions answer
     = (if is_critical_input "medium" raw then urgent_actions else []) ++ general_actions
  /\ r_notifications answer = []
  /\ (forall llm' : IncidentReport.t -> result SeverityClassificationSchema.t,
        process_incident
          (mkWorld (clock w) llm' (score_and_rank w) (runtime_keeps_private_keys w)) raw
        = answer).
Proof.
  cbv zeta. rewrite (process_incident_answer w raw).
  cbn [r_incident_id r_severity r_suggested_actions r_escalation_needed r_created_at
       r_notifications].
  do 6 (split; [reflexivity|]).
  intros llm'. rewrite process_incident_answer. reflexivity.
Qed.

Lemma incident_type_of_char (c : ascii) : incident_type_of (String c EmptyString) = None.
Proof.
  unfold incident_type_of. cbn [PyStr.lower PyStr.contains PyStr.startswith].
  rewrite !andb_false_r. reflexivity.
Qed.

Lemma route_chars_from_sre severity (s : string) :
  fold_left (route_system severity) (PyText.chars s) ["SRE"] = ["SRE"].
Proof.
  induction s as [|c s IH]; cbn [PyText.chars fold_left]; [reflexivity|].
  unfold route_system at 2. rewrite incident_type_of_char. exact IH.
Qed.

Lemma route_chars severity (s : string) :
  match fold_left (route_system severity) (PyText.chars s) [] with
  | [] => ["SRE"]
  | t0 :: rest => t0 :: rest
  end = ["SRE"].
Proof.
  destruct s as [|c s]; cbn [PyText.chars fold_left]; [reflexivity|].
  unfold route_system at 2. rewrite incident_type_of_char.
  change (add_if_absent "SRE" []) with ["SRE"]. rewrite route_chars_from_sre. reflexivity.
Qed.

(** X30. The routing stage has no incident object to read (the triage
    stage raises before it builds one), so when the raw incident gives
    its affected systems as one text, the stage walks through the
    characters of that text, none of which names a system, and the team
    list is SRE alone, whatever the text says and whatever the runtime
    hands on. *)
Theorem systems_given_as_text_route_to_sre (w : World) (raw : RawIncident.t) (s : string) :
  RawIncident.affected_systems raw = Some (AsStr s) ->
  r_assigned_teams (process_incident w raw) = ["SRE"].
Proof.
  intros Hraw.
  rewrite (process_incident_answer w raw). cbn [r_assigned_teams].
  unfold routed_teams, route_to_team. rewrite triage_state.
  cbn [fst update u_team_assignment from_option id _incident _classification
       severity_classification incident_input bind].
  rewrite Hraw. cbn [RawIncident.iter].
  pose proof (route_chars "medium" s) as Hr.
  destruct (fold_left (route_system "medium") (PyText.chars s) []) as [|t0 rest];
    [|rewrite Hr]; reflexivity.
Qed.

Lemma systems_given_as_text_route_to_sre_witness :
  r_assigned_teams (process_incident plain_run comma_text_report) = ["SRE"].
Proof.
  apply (systems_given_as_text_route_to_sre plain_run comma_text_report "database,api").
  reflexivity.
Defined.

End Workflow.
